(** * BadVPN flooder: a shallow embedding of [flooder/flooder.c]

    The flooder connects to a BadVPN server and, once the server reports
    the session ready, emits zero-filled client messages addressed
    round-robin to the peers named by [--flood-id].  This development
    models the program as it is written: the global variables become a
    [world] record threaded through a small state-and-abort monad, every
    call into a collaborating library is appended to a [trace], and the
    results of those calls that may fail are supplied by an [env].

    Build conventions: the non-Windows build (syslog options present) with
    [ASSERT] enabled. *)

From Stdlib Require Import ZArith Lia String Ascii List.
From stdpp Require Import base numbers list strings.

Local Open Scope string_scope.
Local Open Scope list_scope.
Local Open Scope Z_scope.

(** ** Machine integers *)

Definition INT_MIN : Z := - 2 ^ 31.
Definition INT_MAX : Z := 2 ^ 31 - 1.

(** A C [int] kept as a [Z]; arithmetic that leaves the range wraps. *)
Definition to_int (z : Z) : Z := (z + 2 ^ 31) mod 2 ^ 32 - 2 ^ 31.

Definition to_uint8 (z : Z) : Z := z mod 2 ^ 8.
Definition to_uint16 (z : Z) : Z := z mod 2 ^ 16.

(** C truth value of an [int]. *)
Definition truthy (z : Z) : bool := negb (z =? 0).

(** [!!p] for a [char *] that is either NULL ([None]) or a string. *)
Definition not_not {A : Type} (p : option A) : Z :=
  match p with Some _ => 1 | None => 0 end.

(** ** Bytes in memory

    A buffer handed to the program is a list of bytes (each a [Z] in
    [0, 256)).  A store outside the buffer is undefined behaviour in C;
    here it yields [None]. *)

Definition store_u8 (data : list Z) (off : nat) (v : Z) : option (list Z) :=
  if decide (off < length data)%nat then Some (<[off := to_uint8 v]> data)
  else None.

Fixpoint memset (data : list Z) (off : nat) (c : Z) (n : nat) : option (list Z) :=
  match n with
  | O => Some data
  | S n' =>
      match store_u8 data off c with
      | Some data' => memset data' (S off) c n'
      | None => None
      end
  end.

Definition bswap16 (x : Z) : Z :=
  Z.lor (Z.shiftl (Z.land x 255) 8) (Z.land (Z.shiftr x 8) 255).

(** The little-endian decoding of two bytes. *)
Definition le16 (b0 b1 : Z) : Z := Z.lor b0 (Z.shiftl b1 8).

(** ** Protocol declarations absent from the sources *)

(** Modelled from the spec: [struct sc_header] (protocol/scproto.h) is the
    one-byte message-type tag. *)
Definition sizeof_sc_header : nat := 1.

(** Modelled from the spec: [struct sc_client_outmsg] (protocol/scproto.h)
    is the 16-bit target peer identifier, and [peerid_t] is that 16-bit
    unsigned integer. *)
Definition sizeof_sc_client_outmsg : nat := 2.

Definition to_peerid (z : Z) : Z := to_uint16 z.

Definition is_peerid (p : Z) : Prop := 0 <= p < 2 ^ 16.

(** ** Command-line options *)

Definition LOGGER_STDOUT : Z := 1.
Definition LOGGER_SYSLOG : Z := 2.

(** The file-scope [options] struct.  A [char *] member is an
    [option string], NULL being [None]. *)
Record options_t := mk_options {
  opt_help : Z;
  opt_version : Z;
  opt_logger : Z;
  opt_logger_syslog_facility : option string;
  opt_logger_syslog_ident : option string;
  opt_loglevel : Z;
  opt_loglevels : list Z;
  opt_ssl : Z;
  opt_nssdb : option string;
  opt_client_cert_name : option string;
  opt_server_name : option string;
  opt_server_addr : option string;
  opt_floods : list Z;
  opt_num_floods : Z
}.

Definition set_help v o := mk_options v (opt_version o) (opt_logger o) (opt_logger_syslog_facility o) (opt_logger_syslog_ident o) (opt_loglevel o) (opt_loglevels o) (opt_ssl o) (opt_nssdb o) (opt_client_cert_name o) (opt_server_name o) (opt_server_addr o) (opt_floods o) (opt_num_floods o).
Definition set_version v o := mk_options (opt_help o) v (opt_logger o) (opt_logger_syslog_facility o) (opt_logger_syslog_ident o) (opt_loglevel o) (opt_loglevels o) (opt_ssl o) (opt_nssdb o) (opt_client_cert_name o) (opt_server_name o) (opt_server_addr o) (opt_floods o) (opt_num_floods o).
Definition set_logger v o := mk_options (opt_help o) (opt_version o) v (opt_logger_syslog_facility o) (opt_logger_syslog_ident o) (opt_loglevel o) (opt_loglevels o) (opt_ssl o) (opt_nssdb o) (opt_client_cert_name o) (opt_server_name o) (opt_server_addr o) (opt_floods o) (opt_num_floods o).
Definition set_logger_syslog_facility v o := mk_options (opt_help o) (opt_version o) (opt_logger o) v (opt_logger_syslog_ident o) (opt_loglevel o) (opt_loglevels o) (opt_ssl o) (opt_nssdb o) (opt_client_cert_name o) (opt_server_name o) (opt_server_addr o) (opt_floods o) (opt_num_floods o).
Definition set_logger_syslog_ident v o := mk_options (opt_help o) (opt_version o) (opt_logger o) (opt_logger_syslog_facility o) v (opt_loglevel o) (opt_loglevels o) (opt_ssl o) (opt_nssdb o) (opt_client_cert_name o) (opt_server_name o) (opt_server_addr o) (opt_floods o) (opt_num_floods o).
Definition set_loglevel v o := mk_options (opt_help o) (opt_version o) (opt_logger o) (opt_logger_syslog_facility o) (opt_logger_syslog_ident o) v (opt_loglevels o) (opt_ssl o) (opt_nssdb o) (opt_client_cert_name o) (opt_server_name o) (opt_server_addr o) (opt_floods o) (opt_num_floods o).
Definition set_loglevels v o := mk_options (opt_help o) (opt_version o) (opt_logger o) (opt_logger_syslog_facility o) (opt_logger_syslog_ident o) (opt_loglevel o) v (opt_ssl o) (opt_nssdb o) (opt_client_cert_name o) (opt_server_name o) (opt_server_addr o) (opt_floods o) (opt_num_floods o).
Definition set_ssl v o := mk_options (opt_help o) (opt_version o) (opt_logger o) (opt_logger_syslog_facility o) (opt_logger_syslog_ident o) (opt_loglevel o) (opt_loglevels o) v (opt_nssdb o) (opt_client_cert_name o) (opt_server_name o) (opt_server_addr o) (opt_floods o) (opt_num_floods o).
Definition set_nssdb v o := mk_options (opt_help o) (opt_version o) (opt_logger o) (opt_logger_syslog_facility o) (opt_logger_syslog_ident o) (opt_loglevel o) (opt_loglevels o) (opt_ssl o) v (opt_client_cert_name o) (opt_server_name o) (opt_server_addr o) (opt_floods o) (opt_num_floods o).
Definition set_client_cert_name v o := mk_options (opt_help o) (opt_version o) (opt_logger o) (opt_logger_syslog_facility o) (opt_logger_syslog_ident o) (opt_loglevel o) (opt_loglevels o) (opt_ssl o) (opt_nssdb o) v (opt_server_name o) (opt_server_addr o) (opt_floods o) (opt_num_floods o).
Definition set_server_name v o := mk_options (opt_help o) (opt_version o) (opt_logger o) (opt_logger_syslog_facility o) (opt_logger_syslog_ident o) (opt_loglevel o) (opt_loglevels o) (opt_ssl o) (opt_nssdb o) (opt_client_cert_name o) v (opt_server_addr o) (opt_floods o) (opt_num_floods o).
Definition set_server_addr v o := mk_options (opt_help o) (opt_version o) (opt_logger o) (opt_logger_syslog_facility o) (opt_logger_syslog_ident o) (opt_loglevel o) (opt_loglevels o) (opt_ssl o) (opt_nssdb o) (opt_client_cert_name o) (opt_server_name o) v (opt_floods o) (opt_num_floods o).
Definition set_floods v o := mk_options (opt_help o) (opt_version o) (opt_logger o) (opt_logger_syslog_facility o) (opt_logger_syslog_ident o) (opt_loglevel o) (opt_loglevels o) (opt_ssl o) (opt_nssdb o) (opt_client_cert_name o) (opt_server_name o) (opt_server_addr o) v (opt_num_floods o).
Definition set_num_floods v o := mk_options (opt_help o) (opt_version o) (opt_logger o) (opt_logger_syslog_facility o) (opt_logger_syslog_ident o) (opt_loglevel o) (opt_loglevels o) (opt_ssl o) (opt_nssdb o) (opt_client_cert_name o) (opt_server_name o) (opt_server_addr o) (opt_floods o) v.

(** What [parse_arguments] leaves behind: the options as written so far,
    and on failure the diagnostic it printed on stderr. *)
Inductive parse_outcome :=
| ParseOk (o : options_t)
| ParseFail (diagnostic : string) (o : options_t).

Definition parse_ret (r : parse_outcome) : Z :=
  match r with ParseOk _ => 1 | ParseFail _ _ => 0 end.

Definition parse_options (r : parse_outcome) : options_t :=
  match r with ParseOk o => o | ParseFail _ o => o end.

(** ** Callbacks, library calls and the world *)

(** The callbacks the reactor may deliver: the termination signal, the
    five [ServerConnection] handlers, and the pull of the packet source
    ([flood_source_handler_recv]) with the buffer it is offered. *)
Inductive event :=
| ev_signal
| ev_server_error
| ev_server_ready (param_my_id : Z) (ext_ip : Z)
| ev_server_newclient (peer_id : Z) (flags : Z) (cert : list Z) (cert_len : Z)
| ev_server_endclient (peer_id : Z)
| ev_server_message (peer_id : Z) (data : list Z) (data_len : Z)
| ev_flood_recv (data : list Z) (data_len : Z).

Inductive blog_level :=
| BLOG_ERROR | BLOG_WARNING | BLOG_NOTICE | BLOG_INFO | BLOG_DEBUG.

(** Every call the program makes into a library it links against, in
    program order, and every callback the reactor invokes. *)
Inductive call :=
| call_DEAD_INIT
| call_DEAD_KILL
| call_fprintf_stderr (msg : string)
| call_print_help (name : string)
| call_print_version
| call_BLog_InitStdout
| call_BLog_InitSyslog (ident facility : option string)
| call_BLog_SetChannelLoglevel (channel : nat) (level : Z)
| call_BLog (level : blog_level) (fmt : string) (args : list Z)
| call_BLog_Free
| call_BSocket_GlobalInit
| call_BTime_Init
| call_BAddr_Parse (addr : option string)
| call_addr_supported
| call_snprintf_server_name (name : string)
| call_BReactor_Init
| call_BReactor_Exec
| call_BReactor_Quit (code : Z)
| call_BReactor_Free
| call_BSignal_Init
| call_BSignal_Capture
| call_BSignal_SetHandler
| call_BSignal_RemoveHandler
| call_PR_Init
| call_DummyPRFileDesc_GlobalInit
| call_BSocketPRFileDesc_GlobalInit
| call_NSS_Init (nssdb : option string)
| call_NSS_SetDomesticPolicy
| call_SSL_ConfigServerSessionIDCache
| call_open_nss_cert_and_key (name : option string)
| call_CERT_DestroyCertificate
| call_SECKEY_DestroyPrivateKey
| call_SSL_ShutdownServerSessionIDCache
| call_SSL_ClearSessionCache
| call_NSS_Shutdown
| call_PR_Cleanup
| call_PL_ArenaFinish
| call_ServerConnection_Init
| call_ServerConnection_Free
| call_PacketRecvInterface_Init
| call_PacketRecvInterface_Free
| call_PacketProtoEncoder_Init
| call_PacketProtoEncoder_Free
| call_SinglePacketBuffer_Init
| call_SinglePacketBuffer_Free
| call_DebugObjectGlobal_Finish
| callback (e : event).

(** The answers of the library calls whose result the program tests. *)
Record env := mk_env {
  BLog_InitSyslog_ok : bool;
  BSocket_GlobalInit_ok : bool;
  BAddr_Parse_ok : bool;
  addr_supported_ok : bool;
  BReactor_Init_ok : bool;
  BSignal_Init_ok : bool;
  BSignal_SetHandler_ok : bool;
  DummyPRFileDesc_GlobalInit_ok : bool;
  BSocketPRFileDesc_GlobalInit_ok : bool;
  NSS_Init_ok : bool;
  NSS_SetDomesticPolicy_ok : bool;
  SSL_ConfigServerSessionIDCache_ok : bool;
  open_nss_cert_and_key_ok : bool;
  ServerConnection_Init_ok : bool;
  SinglePacketBuffer_Init_ok : bool;
  SSL_ShutdownServerSessionIDCache_ok : bool;
  NSS_Shutdown_ok : bool;
  PR_Cleanup_ok : bool
}.

(** The file-scope variables, the reactor's pending exit code ([quit],
    set by [BReactor_Quit]) and the calls made so far. *)
Record world := mk_world {
  options : options_t;
  server_ready : Z;
  my_id : Z;
  flood_blocking : Z;
  flood_next : Z;
  quit : option Z;
  trace : list call
}.

Definition set_options v w := mk_world v (server_ready w) (my_id w) (flood_blocking w) (flood_next w) (quit w) (trace w).
Definition set_server_ready v w := mk_world (options w) v (my_id w) (flood_blocking w) (flood_next w) (quit w) (trace w).
Definition set_my_id v w := mk_world (options w) (server_ready w) v (flood_blocking w) (flood_next w) (quit w) (trace w).
Definition set_flood_blocking v w := mk_world (options w) (server_ready w) (my_id w) v (flood_next w) (quit w) (trace w).
Definition set_flood_next v w := mk_world (options w) (server_ready w) (my_id w) (flood_blocking w) v (quit w) (trace w).
Definition set_quit v w := mk_world (options w) (server_ready w) (my_id w) (flood_blocking w) (flood_next w) v (trace w).
Definition set_trace v w := mk_world (options w) (server_ready w) (my_id w) (flood_blocking w) (flood_next w) (quit w) v.

(** ** The program monad *)

Inductive failure :=
| AssertFailure        (* a failed ASSERT or ASSERT_FORCE aborts the process *)
| UndefinedBehaviour.  (* an access outside an array or buffer *)

(** A computation ends with a value, aborts, or is left waiting in the
    event loop with nothing more to deliver. *)
Inductive outcome (A : Type) :=
| Done (a : A) (w : world)
| Abort (f : failure) (w : world)
| Waiting (w : world).
Arguments Done {A} a w.
Arguments Abort {A} f w.
Arguments Waiting {A} w.

Definition prog (A : Type) : Type := world -> outcome A.

Definition ret {A} (a : A) : prog A := fun w => Done a w.

Definition bind {A B} (m : prog A) (k : A -> prog B) : prog B :=
  fun w =>
    match m w with
    | Done a w' => k a w'
    | Abort f w' => Abort f w'
    | Waiting w' => Waiting w'
    end.

Declare Scope prog_scope.
Delimit Scope prog_scope with prog.
Bind Scope prog_scope with prog.
Notation "'let*' x ':=' m 'in' k" := (bind m (fun x => k))
  (at level 10, x name, m at level 100, k at level 200) : prog_scope.
Notation "m ';;' k" := (bind m (fun _ => k))
  (at level 100, k at level 200, right associativity) : prog_scope.
Local Open Scope prog_scope.

Definition get {A} (f : world -> A) : prog A := fun w => Done (f w) w.
Definition modify (f : world -> world) : prog unit := fun w => Done tt (f w).
Definition do_call (c : call) : prog unit := modify (fun w => set_trace (trace w ++ [c]) w).
Definition abort {A} (f : failure) : prog A := fun w => Abort f w.

Definition ASSERT (e : bool) : prog unit :=
  if e then ret tt else abort AssertFailure.

(** [ASSERT_FORCE(f() == success)]: the call is made, then its answer
    is checked. *)
Definition ASSERT_FORCE (c : call) (ok : bool) : prog unit :=
  do_call c ;; if ok then ret tt else abort AssertFailure.

Definition when (b : bool) (m : prog unit) : prog unit :=
  if b then m else ret tt.

Definition BLog (level : blog_level) (fmt : string) (args : list Z) : prog unit :=
  do_call (call_BLog level fmt args).

(** Modelled from the spec: [BReactor_Quit] (system/BReactor.h) records
    the exit code with which the event loop is to return. *)
Definition BReactor_Quit (code : Z) : prog unit :=
  do_call (call_BReactor_Quit code) ;; modify (set_quit (Some code)).

Definition lift_mem {A} (r : option A) : prog A :=
  match r with Some a => ret a | None => abort UndefinedBehaviour end.

(** Reading [a[i]] for a C [int] index. *)
Definition array_get (a : list Z) (i : Z) : prog Z :=
  if decide (0 <= i) then lift_mem (a !! Z.to_nat i) else abort UndefinedBehaviour.

(** ** A sample platform and run

    Concrete values for the constants and library functions the model is
    parameterised by, a command line, and a world in which the server is
    ready; the theorems below are exercised on them. *)

Definition sample_MAX_FLOODS : Z := 64.
Definition sample_SCID_OUTMSG : Z := 5.
Definition sample_SC_MAX_MSGLEN : nat := 8.

Definition digit_of (c : ascii) : option Z :=
  let n := Z.of_nat (nat_of_ascii c) in
  if (48 <=? n) && (n <=? 57) then Some (n - 48) else None.

Fixpoint digits_value (acc : Z) (s : string) : Z :=
  match s with
  | EmptyString => acc
  | String c s' =>
      match digit_of c with
      | Some d => digits_value (10 * acc + d) s'
      | None => acc
      end
  end.

(** A decimal [atoi]: an optional minus sign, then digits. *)
Definition sample_atoi (s : string) : Z :=
  match s with
  | String "-" s' => - digits_value 0 s'
  | _ => digits_value 0 s
  end.

Definition sample_parse_loglevel (s : string) : Z :=
  if String.eqb s "none" then 0
  else if String.eqb s "error" then 1
  else if String.eqb s "warning" then 2
  else if String.eqb s "notice" then 3
  else if String.eqb s "info" then 4
  else if String.eqb s "debug" then 5
  else match s with
       | String c EmptyString =>
           match digit_of c with
           | Some d => if d <=? 5 then d else -1
           | None => -1
           end
       | _ => -1
       end.

Definition sample_channel (s : string) : Z :=
  if String.eqb s "flooder" then 0
  else if String.eqb s "server_connection" then 1
  else -1.

(** Every library call succeeds. *)
Definition sample_env : env :=
  mk_env true true true true true true true true true true true true true true true
         true true true.


Definition sample_argv : list string :=
  ["badvpn-flooder"; "--server-addr"; "127.0.0.1:7000";
   "--flood-id"; "7"; "--flood-id"; "3"; "--flood-id"; "3"; "--flood-id"; "9"].

(** The options [sample_argv] parses to, and a world in which the
    server is ready with the cursor at 0. *)
Definition sample_options : options_t :=
  mk_options 0 0 LOGGER_STDOUT (Some "daemon") (Some "badvpn-flooder") (-1) [-1; -1]
    0 None None None (Some "127.0.0.1:7000") ([7; 3; 3; 9] ++ replicate 60 0) 4.

Definition sample_ready_world : world :=
  mk_world sample_options 1 1 0 0 None [].

(** The same with no targets. *)
Definition sample_idle_world : world :=
  mk_world (set_num_floods 0 (set_floods (replicate 64 0) sample_options)) 1 1 0 0 None [].

(** A buffer of the payload's size, filled with a non-zero byte. *)
Definition sample_buffer : list Z := replicate 11 170.

Section Flooder.

(** [MAX_FLOODS] (flooder/flooder.h): the capacity of [options.floods]. *)
Variable MAX_FLOODS : Z.
(** [BLOG_NUM_CHANNELS] (generated header). *)
Variable BLOG_NUM_CHANNELS : nat.
(** [parse_loglevel] (misc/loglevel.h), [BLogGlobal_GetChannelByName]
    (system/BLog.h) and the C library's [atoi]. *)
Variable parse_loglevel : string -> Z.
Variable BLogGlobal_GetChannelByName : string -> Z.
Variable atoi : string -> Z.

(** The argument loop of [parse_arguments], lines 444-571.  [args] is
    [argv[i..argc)]; an option that takes operands fails when fewer than
    that many arguments remain ([1 >= argc - i], [2 >= argc - i]). *)
Fixpoint parse_loop (args : list string) (o : options_t) : parse_outcome :=
  match args with
  | [] => ParseOk o
  | arg :: rest =>
    if String.eqb arg "--help" then parse_loop rest (set_help 1 o)
    else if String.eqb arg "--version" then parse_loop rest (set_version 1 o)
    else if String.eqb arg "--logger" then
      match rest with
      | [] => ParseFail "requires an argument" o
      | arg2 :: rest' =>
        if String.eqb arg2 "stdout" then parse_loop rest' (set_logger LOGGER_STDOUT o)
        else if String.eqb arg2 "syslog" then parse_loop rest' (set_logger LOGGER_SYSLOG o)
        else ParseFail "wrong argument" o
      end
    else if String.eqb arg "--syslog-facility" then
      match rest with
      | [] => ParseFail "requires an argument" o
      | arg2 :: rest' => parse_loop rest' (set_logger_syslog_facility (Some arg2) o)
      end
    else if String.eqb arg "--syslog-ident" then
      match rest with
      | [] => ParseFail "requires an argument" o
      | arg2 :: rest' => parse_loop rest' (set_logger_syslog_ident (Some arg2) o)
      end
    else if String.eqb arg "--loglevel" then
      match rest with
      | [] => ParseFail "requires an argument" o
      | arg2 :: rest' =>
        let o' := set_loglevel (parse_loglevel arg2) o in
        if opt_loglevel o' <? 0 then ParseFail "wrong argument" o'
        else parse_loop rest' o'
      end
    else if String.eqb arg "--channel-loglevel" then
      match rest with
      | arg2 :: arg3 :: rest' =>
        let channel := BLogGlobal_GetChannelByName arg2 in
        if channel <? 0 then ParseFail "wrong channel argument" o
        else
          let loglevel := parse_loglevel arg3 in
          if loglevel <? 0 then ParseFail "wrong loglevel argument" o
          else parse_loop rest'
                 (set_loglevels (<[Z.to_nat channel := loglevel]> (opt_loglevels o)) o)
      | _ => ParseFail "requires two arguments" o
      end
    else if String.eqb arg "--ssl" then parse_loop rest (set_ssl 1 o)
    else if String.eqb arg "--nssdb" then
      match rest with
      | [] => ParseFail "requires an argument" o
      | arg2 :: rest' => parse_loop rest' (set_nssdb (Some arg2) o)
      end
    else if String.eqb arg "--client-cert-name" then
      match rest with
      | [] => ParseFail "requires an argument" o
      | arg2 :: rest' => parse_loop rest' (set_client_cert_name (Some arg2) o)
      end
    else if String.eqb arg "--server-name" then
      match rest with
      | [] => ParseFail "requires an argument" o
      | arg2 :: rest' => parse_loop rest' (set_server_name (Some arg2) o)
      end
    else if String.eqb arg "--server-addr" then
      match rest with
      | [] => ParseFail "requires an argument" o
      | arg2 :: rest' => parse_loop rest' (set_server_addr (Some arg2) o)
      end
    else if String.eqb arg "--flood-id" then
      match rest with
      | [] => ParseFail "requires an argument" o
      | arg2 :: rest' =>
        if opt_num_floods o =? MAX_FLOODS then ParseFail "too many" o
        else
          parse_loop rest'
            (set_num_floods (to_int (opt_num_floods o + 1))
               (set_floods (<[Z.to_nat (opt_num_floods o) := to_peerid (atoi arg2)]>
                              (opt_floods o)) o))
      end
    else ParseFail "unknown option" o
  end.

(** The defaults written at lines 425-441; [options.floods] is not
    touched there and keeps what [o] holds. *)
Definition default_options (argv0 : string) (o : options_t) : options_t :=
  mk_options 0 0 LOGGER_STDOUT (Some "daemon") (Some argv0) (-1)
    (replicate BLOG_NUM_CHANNELS (-1)) 0 None None None None (opt_floods o) 0.

(** The checks after the loop, lines 573-592. *)
Definition parse_validate (o : options_t) : parse_outcome :=
  if truthy (opt_help o) || truthy (opt_version o) then ParseOk o
  else if negb (opt_ssl o =? not_not (opt_nssdb o)) then
    ParseFail "False: --ssl <=> --nssdb" o
  else if negb (opt_ssl o =? not_not (opt_client_cert_name o)) then
    ParseFail "False: --ssl <=> --client-cert-name" o
  else if negb (truthy (not_not (opt_server_addr o))) then
    ParseFail "False: --server-addr" o
  else ParseOk o.

(** [parse_arguments (argc, argv)]; [argc] is [length argv]. *)
Definition parse_arguments (argv : list string) (o : options_t) : parse_outcome :=
  match argv with
  | [] => ParseFail "" o
  | argv0 :: args =>
    match parse_loop args (default_options argv0 o) with
    | ParseOk o' => parse_validate o'
    | ParseFail d o' => ParseFail d o'
    end
  end.


(** Constants of protocol/scproto.h: the message-type tag of a client's
    outbound message and the fixed maximum message length. *)
Variable SCID_OUTMSG : Z.
Variable SC_MAX_MSGLEN : nat.
(** Byte order of the host, for [htol16] and for stores of a [uint16_t]. *)
Variable host_big_endian : bool.
(** The answers of the collaborating libraries in this run. *)
Variable E : env.

(** Modelled from the spec: [htol16] (misc/byteorder.h) converts a 16-bit
    value from host order to little-endian order, so it swaps the two
    bytes on a big-endian host and is the identity on a little-endian one. *)
Definition htol16 (x : Z) : Z :=
  if host_big_endian then bswap16 (to_uint16 x) else to_uint16 x.

(** Storing a [uint16_t] at [off] in host byte order. *)
Definition store_u16 (data : list Z) (off : nat) (v : Z) : option (list Z) :=
  let lo := Z.land v 255 in
  let hi := Z.land (Z.shiftr v 8) 255 in
  match store_u8 data off (if host_big_endian then hi else lo) with
  | Some data' => store_u8 data' (S off) (if host_big_endian then lo else hi)
  | None => None
  end.

(** Static storage is zero-initialised before [main] runs. *)
Definition initial_options : options_t :=
  mk_options 0 0 0 None None 0 (replicate BLOG_NUM_CHANNELS 0) 0 None None None None
    (replicate (Z.to_nat MAX_FLOODS) 0) 0.

Definition initial_world : world :=
  mk_world initial_options 0 0 0 0 None [].

(** [terminate], lines 340-387. *)
Definition terminate : prog unit :=
  BLog BLOG_NOTICE "tearing down" [] ;;
  let* ready := get server_ready in
  when (truthy ready)
    (do_call call_SinglePacketBuffer_Free ;;
     do_call call_PacketProtoEncoder_Free ;;
     do_call call_PacketRecvInterface_Free) ;;
  do_call call_ServerConnection_Free ;;
  let* o := get options in
  when (truthy (opt_ssl o))
    (do_call call_CERT_DestroyCertificate ;;
     do_call call_SECKEY_DestroyPrivateKey ;;
     ASSERT_FORCE call_SSL_ShutdownServerSessionIDCache (SSL_ShutdownServerSessionIDCache_ok E) ;;
     do_call call_SSL_ClearSessionCache ;;
     ASSERT_FORCE call_NSS_Shutdown (NSS_Shutdown_ok E) ;;
     ASSERT_FORCE call_PR_Cleanup (PR_Cleanup_ok E) ;;
     do_call call_PL_ArenaFinish) ;;
  do_call call_BSignal_RemoveHandler ;;
  do_call call_DEAD_KILL ;;
  BReactor_Quit 1.

(** [resolve_arguments], lines 595-614. *)
Definition resolve_arguments : prog Z :=
  let* o := get options in
  ASSERT (truthy (not_not (opt_server_addr o))) ;;
  do_call (call_BAddr_Parse (opt_server_addr o)) ;;
  if negb (BAddr_Parse_ok E) then
    BLog BLOG_ERROR "server addr: BAddr_Parse failed" [] ;; ret 0
  else
    do_call call_addr_supported ;;
    if negb (addr_supported_ok E) then
      BLog BLOG_ERROR "server addr: not supported" [] ;; ret 0
    else
      match opt_server_name o with
      | Some name => do_call (call_snprintf_server_name name)
      | None => ret tt
      end ;;
      ret 1.

Definition signal_handler : prog unit :=
  BLog BLOG_NOTICE "termination requested" [] ;;
  terminate.

Definition server_handler_error : prog unit :=
  BLog BLOG_ERROR "server connection failed, exiting" [] ;;
  terminate.

(** [server_handler_ready], lines 630-665. *)
Definition server_handler_ready (param_my_id : Z) (ext_ip : Z) : prog unit :=
  let* ready := get server_ready in
  ASSERT (negb (truthy ready)) ;;
  modify (set_my_id (to_peerid param_my_id)) ;;
  do_call call_PacketRecvInterface_Init ;;
  do_call call_PacketProtoEncoder_Init ;;
  do_call call_SinglePacketBuffer_Init ;;
  if negb (SinglePacketBuffer_Init_ok E) then
    BLog BLOG_ERROR "SinglePacketBuffer_Init failed, exiting" [] ;;
    (* fail1: *)
    do_call call_PacketProtoEncoder_Free ;;
    do_call call_PacketRecvInterface_Free ;;
    terminate
  else
    modify (set_flood_blocking 0) ;;
    modify (set_server_ready 1) ;;
    let* id := get my_id in
    BLog BLOG_INFO "server: ready, my ID is %d" [id].

Definition server_handler_newclient (peer_id flags : Z) (cert : list Z) (cert_len : Z)
  : prog unit :=
  let* ready := get server_ready in
  ASSERT (truthy ready) ;;
  BLog BLOG_INFO "newclient %d" [peer_id].

Definition server_handler_endclient (peer_id : Z) : prog unit :=
  let* ready := get server_ready in
  ASSERT (truthy ready) ;;
  BLog BLOG_INFO "endclient %d" [peer_id].

Definition server_handler_message (peer_id : Z) (data : list Z) (data_len : Z)
  : prog unit :=
  let* ready := get server_ready in
  ASSERT (truthy ready) ;;
  ASSERT (0 <=? data_len) ;;
  ASSERT (data_len <=? Z.of_nat SC_MAX_MSGLEN) ;;
  BLog BLOG_INFO "message from %d" [peer_id].

(** [flood_source_handler_recv], lines 690-719.  The out-parameters
    [data] and [*data_len] are passed in and returned: the result is
    [(return value, data, *data_len)]. *)
Definition flood_source_handler_recv (data : list Z) (data_len : Z)
  : prog (Z * list Z * Z) :=
  let* ready := get server_ready in
  ASSERT (truthy ready) ;;
  let* blocking := get flood_blocking in
  ASSERT (negb (truthy blocking)) ;;
  let* o := get options in
  let* next := get flood_next in
  when (0 <? opt_num_floods o)
    (ASSERT (0 <=? next) ;;
     ASSERT (next <? opt_num_floods o)) ;;
  if opt_num_floods o =? 0 then
    modify (set_flood_blocking 1) ;;
    ret (0, data, data_len)
  else
    let* peer_id := array_get (opt_floods o) next in
    modify (set_flood_next (Z.rem (to_int (next + 1)) (opt_num_floods o))) ;;
    BLog BLOG_INFO "message to %d" [peer_id] ;;
    let* data := lift_mem (store_u8 data 0 SCID_OUTMSG) in
    let* data := lift_mem (store_u16 data sizeof_sc_header (htol16 peer_id)) in
    let* data := lift_mem (memset data (sizeof_sc_header + sizeof_sc_client_outmsg) 0
                             SC_MAX_MSGLEN) in
    ret (1, data,
         to_int (Z.of_nat (sizeof_sc_header + sizeof_sc_client_outmsg + SC_MAX_MSGLEN))).

(** The handler the reactor invokes for each callback. *)
Definition dispatch (e : event) : prog unit :=
  match e with
  | ev_signal => signal_handler
  | ev_server_error => server_handler_error
  | ev_server_ready param_my_id ext_ip => server_handler_ready param_my_id ext_ip
  | ev_server_newclient peer_id flags cert cert_len =>
      server_handler_newclient peer_id flags cert cert_len
  | ev_server_endclient peer_id => server_handler_endclient peer_id
  | ev_server_message peer_id data data_len => server_handler_message peer_id data data_len
  | ev_flood_recv data data_len =>
      let* _ := flood_source_handler_recv data data_len in ret tt
  end.

(** Modelled from the spec: [BReactor_Exec] (system/BReactor.h) dispatches
    the callbacks that become due, one at a time, until a handler has
    called [BReactor_Quit]; it then returns the recorded code.  [incoming]
    is what the transport and the signal source deliver in this run; with
    nothing left to deliver the loop keeps waiting. *)
Fixpoint BReactor_Exec (incoming : list event) : prog Z :=
  fun w =>
    match quit w with
    | Some code => Done code w
    | None =>
      match incoming with
      | [] => Waiting w
      | e :: rest =>
          (do_call (callback e) ;; dispatch e ;; BReactor_Exec rest) w
      end
    end.

(** The loop at lines 201-208 of [main]. *)
Definition configure_channels (o : options_t) : list call :=
  omap (fun i =>
          let l := opt_loglevels o !!! i in
          if 0 <=? l then Some (call_BLog_SetChannelLoglevel i l)
          else if 0 <=? opt_loglevel o then
            Some (call_BLog_SetChannelLoglevel i (opt_loglevel o))
          else None)
       (seq 0 BLOG_NUM_CHANNELS).

(** The cleanup ladder of [main], lines 298-320, bottom up. *)
Definition fail0 : prog Z :=
  do_call call_DebugObjectGlobal_Finish ;; ret 1.

Definition fail1 : prog Z :=
  BLog BLOG_ERROR "initialization failed" [] ;; do_call call_BLog_Free ;; fail0.

Definition fail1a : prog Z :=
  do_call call_BReactor_Free ;; fail1.

Definition after_ssl_cleanup : prog Z :=
  do_call call_BSignal_RemoveHandler ;; fail1a.

Definition fail2 : prog Z :=
  ASSERT_FORCE call_PR_Cleanup (PR_Cleanup_ok E) ;;
  do_call call_PL_ArenaFinish ;;
  after_ssl_cleanup.

Definition fail3 : prog Z :=
  do_call call_SSL_ClearSessionCache ;;
  ASSERT_FORCE call_NSS_Shutdown (NSS_Shutdown_ok E) ;;
  fail2.

Definition fail4 : prog Z :=
  do_call call_SSL_ShutdownServerSessionIDCache ;; fail3.

Definition fail5 : prog Z :=
  let* o := get options in
  if truthy (opt_ssl o) then
    do_call call_CERT_DestroyCertificate ;;
    do_call call_SECKEY_DestroyPrivateKey ;;
    fail4
  else after_ssl_cleanup.

(** [event_loop:], lines 322-337. *)
Definition event_loop (incoming : list event) : prog Z :=
  BLog BLOG_NOTICE "entering event loop" [] ;;
  do_call call_BReactor_Exec ;;
  let* code := BReactor_Exec incoming in
  do_call call_BReactor_Free ;;
  BLog BLOG_NOTICE "exiting" [] ;;
  do_call call_BLog_Free ;;
  do_call call_DebugObjectGlobal_Finish ;;
  ret code.

(** Line 284 onwards: connect, mark the server not ready, run the loop. *)
Definition connect_and_run (incoming : list event) : prog Z :=
  do_call call_ServerConnection_Init ;;
  if negb (ServerConnection_Init_ok E) then
    BLog BLOG_ERROR "ServerConnection_Init failed" [] ;; fail5
  else
    modify (set_server_ready 0) ;;
    event_loop incoming.

(** The TLS set-up of lines 244-281. *)
Definition init_ssl (incoming : list event) : prog Z :=
  let* o := get options in
  do_call call_PR_Init ;;
  do_call call_DummyPRFileDesc_GlobalInit ;;
  if negb (DummyPRFileDesc_GlobalInit_ok E) then
    BLog BLOG_ERROR "DummyPRFileDesc_GlobalInit failed" [] ;; fail2
  else
  do_call call_BSocketPRFileDesc_GlobalInit ;;
  if negb (BSocketPRFileDesc_GlobalInit_ok E) then
    BLog BLOG_ERROR "BSocketPRFileDesc_GlobalInit failed" [] ;; fail2
  else
  do_call (call_NSS_Init (opt_nssdb o)) ;;
  if negb (NSS_Init_ok E) then
    BLog BLOG_ERROR "NSS_Init failed (%d)" [] ;; fail2
  else
  do_call call_NSS_SetDomesticPolicy ;;
  if negb (NSS_SetDomesticPolicy_ok E) then
    BLog BLOG_ERROR "NSS_SetDomesticPolicy failed (%d)" [] ;; fail3
  else
  do_call call_SSL_ConfigServerSessionIDCache ;;
  if negb (SSL_ConfigServerSessionIDCache_ok E) then
    BLog BLOG_ERROR "SSL_ConfigServerSessionIDCache failed (%d)" [] ;; fail3
  else
  do_call (call_open_nss_cert_and_key (opt_client_cert_name o)) ;;
  if negb (open_nss_cert_and_key_ok E) then
    BLog BLOG_ERROR "Cannot open certificate and key" [] ;; fail4
  else connect_and_run incoming.

(** Lines 183-243 of [main], after the options are known to ask for a
    run. *)
Definition initialize (incoming : list event) : prog Z :=
  let* o := get options in
  let* logger_up :=
    (if opt_logger o =? LOGGER_STDOUT then do_call call_BLog_InitStdout ;; ret true
     else if opt_logger o =? LOGGER_SYSLOG then
       do_call (call_BLog_InitSyslog (opt_logger_syslog_ident o)
                                     (opt_logger_syslog_facility o)) ;;
       if negb (BLog_InitSyslog_ok E) then
         do_call (call_fprintf_stderr "Failed to initialize syslog logger") ;; ret false
       else ret true
     else ASSERT false ;; ret false) in
  if negb logger_up then fail0
  else
  modify (fun w => set_trace (trace w ++ configure_channels o) w) ;;
  BLog BLOG_NOTICE "initializing client" [] ;;
  do_call call_BSocket_GlobalInit ;;
  if negb (BSocket_GlobalInit_ok E) then
    BLog BLOG_ERROR "BSocket_GlobalInit failed" [] ;; fail1
  else
  do_call call_BTime_Init ;;
  let* resolved := resolve_arguments in
  if negb (truthy resolved) then
    BLog BLOG_ERROR "Failed to resolve arguments" [] ;; fail1
  else
  do_call call_BReactor_Init ;;
  if negb (BReactor_Init_ok E) then
    BLog BLOG_ERROR "BReactor_Init failed" [] ;; fail1
  else
  do_call call_BSignal_Init ;;
  if negb (BSignal_Init_ok E) then
    BLog BLOG_ERROR "BSignal_Init failed" [] ;; fail1a
  else
  do_call call_BSignal_Capture ;;
  do_call call_BSignal_SetHandler ;;
  if negb (BSignal_SetHandler_ok E) then
    BLog BLOG_ERROR "BSignal_SetHandler failed" [] ;; fail1a
  else if truthy (opt_ssl o) then init_ssl incoming
  else connect_and_run incoming.

(** [main], lines 156-338; [argc] is [length argv], and the value is the
    process's exit code. *)
Definition main (argv : list string) (incoming : list event) : prog Z :=
  match argv with
  | [] => ret 1
  | argv0 :: _ =>
    do_call call_DEAD_INIT ;;
    let* o := get options in
    let r := parse_arguments argv o in
    modify (set_options (parse_options r)) ;;
    if negb (truthy (parse_ret r)) then
      do_call (call_fprintf_stderr "Failed to parse arguments") ;;
      do_call (call_print_help argv0) ;;
      fail0
    else
    let* o := get options in
    if truthy (opt_help o) then
      do_call call_print_version ;; do_call (call_print_help argv0) ;; ret 0
    else if truthy (opt_version o) then
      do_call call_print_version ;; ret 0
    else initialize incoming
  end.

(** The whole process: [main] started on zero-initialised statics. *)
Definition run_process (argv : list string) (incoming : list event) : outcome Z :=
  main argv incoming initial_world.

(** ** Vocabulary of the specification *)

(** The world an outcome ends in. *)
Definition world_of {A} (r : outcome A) : world :=
  match r with Done _ w => w | Abort _ w => w | Waiting w => w end.

(** TargetList: the first [num_floods] slots of [options.floods]. *)
Definition TargetList (o : options_t) : list Z :=
  take (Z.to_nat (opt_num_floods o)) (opt_floods o).

Definition is_int (z : Z) : Prop := INT_MIN <= z <= INT_MAX.

(** The options struct is well-formed: [num_floods] is an [int] that
    counts slots of the [floods] array. *)
Definition wf_options (o : options_t) : Prop :=
  0 <= opt_num_floods o <= Z.of_nat (length (opt_floods o)) /\
  opt_num_floods o <= INT_MAX.

(** The cursor indexes an element of TargetList whenever there is one. *)
Definition cursor_ok (w : world) : Prop :=
  0 < opt_num_floods (options w) ->
  0 <= flood_next w < opt_num_floods (options w).

(** The preconditions of the packet source documented by its assertions. *)
Definition recv_pre (w : world) : Prop :=
  server_ready w <> 0 /\ flood_blocking w = 0 /\ cursor_ok w.

(** Size of the payload the packet source writes. *)
Definition payload_len : nat :=
  (sizeof_sc_header + sizeof_sc_client_outmsg + SC_MAX_MSGLEN)%nat.

(** The payload for [peer_id]: tag, identifier low byte first, zero body. *)
Definition payload_for (peer_id : Z) : list Z :=
  [SCID_OUTMSG; peer_id mod 256; peer_id / 256 mod 256] ++ replicate SC_MAX_MSGLEN 0.

(** The peer identifier a payload is addressed to. *)
Definition payload_target (data : list Z) : Z :=
  le16 (data !!! 1%nat) (data !!! 2%nat).

(** [count] elements of [l] read cyclically from offset [start]. *)
Definition read_cyclically (l : list Z) (start : nat) (count : nat) : list Z :=
  (fun i => l !!! ((start + i) mod length l)%nat) <$> seq 0 count.

(** [n] consecutive pulls of the packet source on the same buffer, each
    receiving the buffer as the previous one left it. *)
Fixpoint recv_repeatedly (n : nat) (data : list Z) (data_len : Z)
  : prog (list (Z * list Z * Z)) :=
  match n with
  | O => ret []
  | S n' =>
      let* r := flood_source_handler_recv data data_len in
      let* rs := recv_repeatedly n' (snd (fst r)) (snd r) in
      ret (r :: rs)
  end.

(** The peers named by the "message to" log lines of a trace. *)
Definition logged_targets (tr : list call) : list Z :=
  omap (fun c =>
          match c with
          | call_BLog BLOG_INFO fmt [p] =>
              if String.eqb fmt "message to %d" then Some p else None
          | _ => None
          end) tr.

(** The calls of a trace that construct or release a pipeline object. *)
Definition is_pipeline_call (c : call) : bool :=
  match c with
  | call_PacketRecvInterface_Init | call_PacketRecvInterface_Free
  | call_PacketProtoEncoder_Init | call_PacketProtoEncoder_Free
  | call_SinglePacketBuffer_Init | call_SinglePacketBuffer_Free => true
  | _ => false
  end.

Definition pipeline_calls (tr : list call) : list call :=
  List.filter is_pipeline_call tr.

Definition is_recv_callback (c : call) : bool :=
  match c with callback (ev_flood_recv _ _) => true | _ => false end.

(** The three objects of the flooding pipeline, by the names of the
    variables that hold them. *)
Inductive pipeline_object := flood_source | flood_encoder | flood_buffer.


Definition releases (obj : pipeline_object) (c : call) : bool :=
  match obj, c with
  | flood_source, call_PacketRecvInterface_Free
  | flood_encoder, call_PacketProtoEncoder_Free
  | flood_buffer, call_SinglePacketBuffer_Free => true
  | _, _ => false
  end.


Definition released (obj : pipeline_object) (tr : list call) : nat :=
  length (List.filter (releases obj) tr).

Definition entered_event_loop (tr : list call) : bool :=
  existsb (fun c => match c with call_BReactor_Exec => true | _ => false end) tr.

(** The file-scope variables of the core, without the trace. *)
Definition core_state (w : world) : options_t * Z * Z * Z * Z * option Z :=
  (options w, server_ready w, my_id w, flood_blocking w, flood_next w, quit w).

(** The calls [terminate] makes for its TLS block. *)
Definition tls_teardown (o : options_t) : list call :=
  if truthy (opt_ssl o) then
    [call_CERT_DestroyCertificate; call_SECKEY_DestroyPrivateKey;
     call_SSL_ShutdownServerSessionIDCache; call_SSL_ClearSessionCache;
     call_NSS_Shutdown; call_PR_Cleanup; call_PL_ArenaFinish]
  else [].

(** The forced assertions of [terminate] hold in this run. *)
Definition tls_teardown_ok (o : options_t) : bool :=
  negb (truthy (opt_ssl o))
  || (SSL_ShutdownServerSessionIDCache_ok E && NSS_Shutdown_ok E && PR_Cleanup_ok E).

(** What [main] does after the event loop returns. *)
Definition exit_calls : list call :=
  [call_BReactor_Free; call_BLog BLOG_NOTICE "exiting" []; call_BLog_Free;
   call_DebugObjectGlobal_Finish].

(** *** Reading a command line *)

(** Number of operands each option takes; [None] for an unknown word. *)
Definition option_arity (arg : string) : option nat :=
  if String.eqb arg "--help" || String.eqb arg "--version" || String.eqb arg "--ssl"
  then Some 0%nat
  else if String.eqb arg "--logger" || String.eqb arg "--syslog-facility"
          || String.eqb arg "--syslog-ident" || String.eqb arg "--loglevel"
          || String.eqb arg "--nssdb" || String.eqb arg "--client-cert-name"
          || String.eqb arg "--server-name" || String.eqb arg "--server-addr"
          || String.eqb arg "--flood-id"
  then Some 1%nat
  else if String.eqb arg "--channel-loglevel" then Some 2%nat
  else None.

(** The options given on a command line, each with the operands found
    for it, in order.  Reading stops at an unknown word or at an option
    short of operands, which is still listed. *)
Fixpoint options_given (args : list string) : list (string * list string) :=
  match args with
  | [] => []
  | arg :: rest =>
    match option_arity arg with
    | None => [(arg, [])]
    | Some O => (arg, []) :: options_given rest
    | Some (S O) =>
        match rest with
        | [] => [(arg, [])]
        | a :: rest' => (arg, [a]) :: options_given rest'
        end
    | Some _ =>
        match rest with
        | a :: b :: rest' => (arg, [a; b]) :: options_given rest'
        | _ => [(arg, rest)]
        end
    end
  end.

Definition given (name : string) (args : list string) : bool :=
  existsb (fun e => String.eqb (fst e) name) (options_given args).

(** The operands of the [--flood-id] options, in command-line order. *)
Definition flood_ids_given (args : list string) : list string :=
  omap (fun e => if String.eqb (fst e) "--flood-id" then head (snd e) else None)
       (options_given args).

Definition count_given (name : string) (args : list string) : nat :=
  length (List.filter (fun e => String.eqb (fst e) name) (options_given args)).

(** An option with its operands is acceptable on its own. *)
Definition entry_ok (e : string * list string) : bool :=
  match option_arity (fst e), snd e with
  | Some O, [] => true
  | Some (S O), [a] =>
      if String.eqb (fst e) "--logger" then String.eqb a "stdout" || String.eqb a "syslog"
      else if String.eqb (fst e) "--loglevel" then 0 <=? parse_loglevel a
      else true
  | Some (S (S O)), [a; b] =>
      (0 <=? BLogGlobal_GetChannelByName a) && (0 <=? parse_loglevel b)
  | _, _ => false
  end.

(** A command line whose options are all acceptable and which names at
    most [MAX_FLOODS] targets. *)
Definition well_formed (args : list string) : bool :=
  forallb entry_ok (options_given args)
  && (Z.of_nat (count_given "--flood-id" args) <=? MAX_FLOODS).

(** ** Proof automation *)

Ltac div_lia := Z.to_euclidean_division_equations; lia.

(** Unfolds the monad's operations and reduces the redexes this exposes. *)
Ltac prog_simpl :=
  cbv beta iota delta [bind ret get modify do_call abort ASSERT ASSERT_FORCE when BLog
                       BReactor_Quit lift_mem array_get negb].

(** A pull answered with the payload addressed to [peer_id]. *)
Definition addressed_to (r : Z * list Z * Z) (peer_id : Z) : Prop :=
  fst (fst r) = 1 /\ take payload_len (snd (fst r)) = payload_for peer_id.

(** The three releases of [terminate]'s pipeline block, in order. *)
Definition pipeline_frees (ready : Z) : list call :=
  if truthy ready then
    [call_SinglePacketBuffer_Free; call_PacketProtoEncoder_Free;
     call_PacketRecvInterface_Free]
  else [].

(** Everything a complete [terminate] does. *)
Definition teardown_calls (w : world) : list call :=
  [call_BLog BLOG_NOTICE "tearing down" []]
    ++ pipeline_frees (server_ready w)
    ++ [call_ServerConnection_Free]
    ++ tls_teardown (options w)
    ++ [call_BSignal_RemoveHandler; call_DEAD_KILL; call_BReactor_Quit 1].

(** The three constructions of the ready callback, in order. *)
Definition pipeline_inits : list call :=
  [call_PacketRecvInterface_Init; call_PacketProtoEncoder_Init;
   call_SinglePacketBuffer_Init].

(** The callbacks that only report a peer joining, leaving, or a message. *)
Definition is_side_channel (e : event) : bool :=
  match e with
  | ev_server_newclient _ _ _ _ | ev_server_endclient _ | ev_server_message _ _ _ => true
  | _ => false
  end.

(** Normalises a world built by nested setters and a trace built by
    nested appends. *)
Ltac world_norm :=
  unfold set_trace, set_quit, set_server_ready, set_my_id, set_flood_blocking,
    set_flood_next, set_options;
  cbn [options server_ready my_id flood_blocking flood_next quit trace];
  rewrite <- ?app_assoc; cbn [app].

(** *** Phases of the process *)

(** The part of [event_loop] that runs once [BReactor_Exec] has returned. *)
Definition leave_loop (code : Z) : prog Z :=
  do_call call_BReactor_Free ;;
  BLog BLOG_NOTICE "exiting" [] ;;
  do_call call_BLog_Free ;;
  do_call call_DebugObjectGlobal_Finish ;;
  ret code.

(** Before the first callback: nothing of the pipeline exists, the
    statics other than [options] still hold their initial zeroes, and
    [entered] tells whether [BReactor_Exec] has been called. *)
Definition starting (entered : bool) (w : world) : Prop :=
  server_ready w = 0 /\ my_id w = 0 /\ flood_blocking w = 0 /\ flood_next w = 0 /\
  quit w = None /\ pipeline_calls (trace w) = [] /\
  entered_event_loop (trace w) = entered.

(** A startup or cleanup step: it returns or aborts, and leaves a
    starting world a starting world with the same options. *)
Definition quiet {A} (m : prog A) : Prop :=
  forall w, starting false w ->
    match m w with
    | Done _ w' | Abort _ w' => starting false w' /\ options w' = options w
    | Waiting _ => False
    end.

(** A startup path: from a starting world it either ends without the
    event loop, whatever the callbacks would have been, or it enters
    [BReactor_Exec] in a starting world and leaves through [leave_loop]. *)
Definition boots (P : list event -> prog Z) : Prop :=
  forall w, starting false w ->
    (exists w0, starting true w0 /\ options w0 = options w /\
                forall incoming, P incoming w = bind (BReactor_Exec incoming) leave_loop w0)
    \/ (exists r, (forall incoming, P incoming w = r) /\
                  match r with
                  | Done _ w' | Abort _ w' => starting false w' /\ options w' = options w
                  | Waiting _ => False
                  end).

(** The calls of startup and cleanup: not of the pipeline, and not the
    event loop. *)
Definition is_startup_call (c : call) : bool :=
  negb (is_pipeline_call c)
  && match c with call_BReactor_Exec => false | _ => true end.

(** In the event loop with no exit requested: the options are
    well-formed, the cursor is in range, [server_ready] is 0 or 1, and
    the pipeline has been constructed exactly when the server is ready. *)
Definition live (w : world) : Prop :=
  quit w = None /\ wf_options (options w) /\ cursor_ok w /\
  (server_ready w = 0 \/ server_ready w = 1) /\
  pipeline_calls (trace w) = (if truthy (server_ready w) then pipeline_inits else []).

(** What a trace may hold of the pipeline at any time: nothing; the
    three constructions; these followed by the two releases of a failed
    ready callback, or by the three releases of [terminate]. *)
Definition pipeline_history_ok (tr : list call) : Prop :=
  pipeline_calls tr = []
  \/ pipeline_calls tr = pipeline_inits
  \/ pipeline_calls tr = pipeline_inits
       ++ [call_PacketProtoEncoder_Free; call_PacketRecvInterface_Free]
  \/ pipeline_calls tr = pipeline_inits ++ pipeline_frees 1.

(** What holds of the world of every outcome. *)
Definition settled (w : world) : Prop :=
  wf_options (options w) /\ cursor_ok w /\
  (server_ready w = 0 \/ server_ready w = 1) /\
  pipeline_history_ok (trace w).

(** The options [main] works with once [parse_arguments] has run. *)
Definition parsed_options (argv : list string) : options_t :=
  match argv with
  | [] => initial_options
  | _ :: _ => parse_options (parse_arguments argv initial_options)
  end.

(** Splits on which option a command-line word is, in the order of the
    tests in [parse_arguments]; the last case is an unknown word. *)
Ltac option_cases arg :=
  destruct (String.eqb_spec arg "--help") as [->|?];
  [|destruct (String.eqb_spec arg "--version") as [->|?];
  [|destruct (String.eqb_spec arg "--logger") as [->|?];
  [|destruct (String.eqb_spec arg "--syslog-facility") as [->|?];
  [|destruct (String.eqb_spec arg "--syslog-ident") as [->|?];
  [|destruct (String.eqb_spec arg "--loglevel") as [->|?];
  [|destruct (String.eqb_spec arg "--channel-loglevel") as [->|?];
  [|destruct (String.eqb_spec arg "--ssl") as [->|?];
  [|destruct (String.eqb_spec arg "--nssdb") as [->|?];
  [|destruct (String.eqb_spec arg "--client-cert-name") as [->|?];
  [|destruct (String.eqb_spec arg "--server-name") as [->|?];
  [|destruct (String.eqb_spec arg "--server-addr") as [->|?];
  [|destruct (String.eqb_spec arg "--flood-id") as [->|?]]]]]]]]]]]]].

(** The array [options.floods] has its declared capacity and
    [num_floods] has not passed it. *)
Definition floods_fit (o : options_t) : Prop :=
  length (opt_floods o) = Z.to_nat MAX_FLOODS /\ 0 <= opt_num_floods o <= MAX_FLOODS.

(** Closes the conjuncts of [parse_loop_ok] once the facts about the
    remaining arguments are in the context. *)
Ltac finish_case :=
    unfold given, count_given, flood_ids_given in *; simpl in *;
    repeat split;
    repeat match goal with
           | H : _ = (if ?b then _ else _) |- _ => rewrite H; clear H
           end;
    try match goal with |- context [existsb ?f ?l] => destruct (existsb f l) end;
    try reflexivity; try lia; try assumption.




(** The log line each terminating callback writes before [terminate]. *)
Definition termination_log (e : event) : call :=
  match e with
  | ev_signal => call_BLog BLOG_NOTICE "termination requested" []
  | _ => call_BLog BLOG_ERROR "server connection failed, exiting" []
  end.

(** The process exits with [code] and has not entered the event loop. *)
Definition exits_without_loop (argv : list string) (incoming : list event) (code : Z)
  : Prop :=
  exists w', run_process argv incoming = Done code w' /\
             entered_event_loop (trace w') = false.

(** ** Vocabulary of the further properties *)

(** Decides membership in a list written out. *)
Ltac list_mem :=
  rewrite ?elem_of_app, ?elem_of_cons, ?elem_of_nil;
  intuition (try discriminate; try congruence).

(** The first operand of each occurrence of the option [name], in
    command-line order. *)
Definition operands_given (name : string) (args : list string) : list string :=
  omap (fun e => if String.eqb (fst e) name then head (snd e) else None)
       (options_given args).

(** The operand of the last occurrence of [name], if [name] is given
    with one. *)
Definition last_given (name : string) (args : list string) : option string :=
  last (operands_given name args).

(** The value an option ends up with: [f] of the operand of its last
    occurrence, or [d] when it is not given. *)
Definition chosen {A} (f : string -> A) (d : A) (name : string) (args : list string) : A :=
  from_option f d (last_given name args).

(** The logger a [--logger] operand selects. *)
Definition logger_named (a : string) : Z :=
  if String.eqb a "syslog" then LOGGER_SYSLOG else LOGGER_STDOUT.

(** The levels the [--channel-loglevel] options give for the channel
    numbered [channel], in command-line order. *)
Definition channel_levels_given (channel : nat) (args : list string) : list Z :=
  omap (fun e =>
          match snd e with
          | [a; b] =>
              if String.eqb (fst e) "--channel-loglevel"
                 && (BLogGlobal_GetChannelByName a =? Z.of_nat channel)
              then Some (parse_loglevel b) else None
          | _ => None
          end)
       (options_given args).

(** The level a command line asks for on a channel: the one of the last
    [--channel-loglevel] naming it, else the one of the last
    [--loglevel], else none. *)
Definition effective_level (channel : nat) (args : list string) : option Z :=
  match last (channel_levels_given channel args) with
  | Some l => Some l
  | None => parse_loglevel <$> last_given "--loglevel" args
  end.

(** *** Start-up and the resources of the process *)

(** The world after the calls [cs]. *)
Definition add_calls (cs : list call) (w : world) : world :=
  set_trace (trace w ++ cs) w.

(** The call that initialises the logger the options select. *)
Definition logger_call (o : options_t) : call :=
  if opt_logger o =? LOGGER_STDOUT then call_BLog_InitStdout
  else call_BLog_InitSyslog (opt_logger_syslog_ident o) (opt_logger_syslog_facility o).

(** The logger comes up: standard output always does, syslog when
    [BLog_InitSyslog] succeeds. *)
Definition logger_ok (o : options_t) : bool :=
  (opt_logger o =? LOGGER_STDOUT)
  || ((opt_logger o =? LOGGER_SYSLOG) && BLog_InitSyslog_ok E).

(** Every tested call of the TLS set-up succeeds. *)
Definition tls_ok : bool :=
  DummyPRFileDesc_GlobalInit_ok E && BSocketPRFileDesc_GlobalInit_ok E
  && NSS_Init_ok E && NSS_SetDomesticPolicy_ok E
  && SSL_ConfigServerSessionIDCache_ok E && open_nss_cert_and_key_ok E.

(** Every initialisation [main] tests succeeds, the TLS ones counting
    only with [--ssl]. *)
Definition startup_ok (o : options_t) : bool :=
  logger_ok o && BSocket_GlobalInit_ok E && BAddr_Parse_ok E && addr_supported_ok E
  && BReactor_Init_ok E && BSignal_Init_ok E && BSignal_SetHandler_ok E
  && (negb (truthy (opt_ssl o)) || tls_ok) && ServerConnection_Init_ok E.

(** The calls of the TLS set-up when every one succeeds. *)
Definition tls_boot_calls (o : options_t) : list call :=
  [call_PR_Init; call_DummyPRFileDesc_GlobalInit; call_BSocketPRFileDesc_GlobalInit;
   call_NSS_Init (opt_nssdb o); call_NSS_SetDomesticPolicy;
   call_SSL_ConfigServerSessionIDCache;
   call_open_nss_cert_and_key (opt_client_cert_name o)].

(** The override of the server name, when [--server-name] is given. *)
Definition server_name_calls (o : options_t) : list call :=
  match opt_server_name o with
  | Some name => [call_snprintf_server_name name]
  | None => []
  end.

(** The calls of a start-up in which everything succeeds, up to and
    including the call of [BReactor_Exec]. *)
Definition boot_calls (o : options_t) : list call :=
  [call_DEAD_INIT; logger_call o]
    ++ configure_channels o
    ++ [call_BLog BLOG_NOTICE "initializing client" [];
        call_BSocket_GlobalInit; call_BTime_Init;
        call_BAddr_Parse (opt_server_addr o); call_addr_supported]
    ++ server_name_calls o
    ++ [call_BReactor_Init; call_BSignal_Init; call_BSignal_Capture;
        call_BSignal_SetHandler]
    ++ (if truthy (opt_ssl o) then tls_boot_calls o else [])
    ++ [call_ServerConnection_Init;
        call_BLog BLOG_NOTICE "entering event loop" []; call_BReactor_Exec].

(** What the program acquires and has to give back: the logger, the
    reactor, the signal handler, NSPR, NSS, the TLS session cache, the
    client's key and certificate, the server connection, and the three
    objects of the flooding pipeline. *)
Inductive resource :=
| res_logger | res_reactor | res_signal_handler
| res_nspr | res_nss | res_session_cache | res_client_key | res_client_cert
| res_server_connection
| res_flood_source | res_flood_encoder | res_flood_buffer.

#[local] Instance resource_eq_dec : EqDecision resource.
Proof. solve_decision. Defined.

(** [open_nss_cert_and_key] hands out the certificate and the key in one
    call, so neither is acquired before the other.  [acquisition r] names
    the acquisition a resource comes from: the same one for these two,
    its own for every other resource. *)
Definition acquisition (r : resource) : resource :=
  match r with res_client_key => res_client_cert | _ => r end.

(** The resources a call acquires, given the answers of this run: a
    failed call acquires nothing. *)
Definition acquires (c : call) : list resource :=
  match c with
  | call_BLog_InitStdout => [res_logger]
  | call_BLog_InitSyslog _ _ => if BLog_InitSyslog_ok E then [res_logger] else []
  | call_BReactor_Init => if BReactor_Init_ok E then [res_reactor] else []
  | call_BSignal_SetHandler => if BSignal_SetHandler_ok E then [res_signal_handler] else []
  | call_PR_Init => [res_nspr]
  | call_NSS_Init _ => if NSS_Init_ok E then [res_nss] else []
  | call_SSL_ConfigServerSessionIDCache =>
      if SSL_ConfigServerSessionIDCache_ok E then [res_session_cache] else []
  | call_open_nss_cert_and_key _ =>
      if open_nss_cert_and_key_ok E then [res_client_cert; res_client_key] else []
  | call_ServerConnection_Init =>
      if ServerConnection_Init_ok E then [res_server_connection] else []
  | call_PacketRecvInterface_Init => [res_flood_source]
  | call_PacketProtoEncoder_Init => [res_flood_encoder]
  | call_SinglePacketBuffer_Init =>
      if SinglePacketBuffer_Init_ok E then [res_flood_buffer] else []
  | _ => []
  end.

(** The resource a call gives back. *)
Definition gives_back (c : call) : list resource :=
  match c with
  | call_BLog_Free => [res_logger]
  | call_BReactor_Free => [res_reactor]
  | call_BSignal_RemoveHandler => [res_signal_handler]
  | call_PR_Cleanup => [res_nspr]
  | call_NSS_Shutdown => [res_nss]
  | call_SSL_ShutdownServerSessionIDCache => [res_session_cache]
  | call_SECKEY_DestroyPrivateKey => [res_client_key]
  | call_CERT_DestroyCertificate => [res_client_cert]
  | call_ServerConnection_Free => [res_server_connection]
  | call_PacketRecvInterface_Free => [res_flood_source]
  | call_PacketProtoEncoder_Free => [res_flood_encoder]
  | call_SinglePacketBuffer_Free => [res_flood_buffer]
  | _ => []
  end.

(** The resources a trace acquires, and gives back, in order. *)
Definition resources_acquired (tr : list call) : list resource :=
  flat_map acquires tr.

Definition resources_released (tr : list call) : list resource :=
  flat_map gives_back tr.

(** The calls into NSPR, NSS and its TLS layer. *)
Definition is_tls_call (c : call) : bool :=
  match c with
  | call_PR_Init | call_DummyPRFileDesc_GlobalInit | call_BSocketPRFileDesc_GlobalInit
  | call_NSS_Init _ | call_NSS_SetDomesticPolicy | call_SSL_ConfigServerSessionIDCache
  | call_open_nss_cert_and_key _ | call_CERT_DestroyCertificate
  | call_SECKEY_DestroyPrivateKey | call_SSL_ShutdownServerSessionIDCache
  | call_SSL_ClearSessionCache | call_NSS_Shutdown | call_PR_Cleanup
  | call_PL_ArenaFinish => true
  | _ => false
  end.

(** The calls [main] makes itself, before the event loop and in its
    cleanup: no callback, no line of a handler, nothing of the pipeline
    or of [terminate]. *)
Definition is_main_call (c : call) : bool :=
  match c with
  | callback _ | call_BLog BLOG_INFO _ _ | call_BReactor_Quit _ | call_DEAD_KILL
  | call_ServerConnection_Free => false
  | _ => negb (is_pipeline_call c)
  end.

(** Brings a trace built by nested appends into right-nested form. *)
Ltac trace_norm := repeat first [rewrite <- app_assoc | progress cbn [app]].

(** Resources are given back acquisition by acquisition, the last one
    first: when the process has returned, all of them, so that what has
    been released is what had been acquired; when it has aborted, those
    of the most recent acquisitions; while it waits in the event loop,
    none yet. *)
Definition released_in_order {A} (r : outcome A) : Prop :=
  match r with
  | Done _ w =>
      acquisition <$> resources_released (trace w)
        = reverse (acquisition <$> resources_acquired (trace w)) /\
      resources_released (trace w) ≡ₚ resources_acquired (trace w)
  | Abort _ w =>
      (acquisition <$> resources_released (trace w))
        `prefix_of` reverse (acquisition <$> resources_acquired (trace w)) /\
      resources_released (trace w) ⊆+ resources_acquired (trace w)
  | Waiting w => resources_released (trace w) = []
  end.

(** Decides a statement about lists of resources that are written out. *)
Ltac by_evaluation := apply (bool_decide_unpack _); reflexivity.

(** Closes [released_in_order] once both lists of resources are written
    out. *)
Ltac in_order :=
  first [ split; [reflexivity | by_evaluation]
        | split; [eexists; reflexivity | by_evaluation] ].

(** How a start-up that fails ends: [main] returns 1, or stops at a
    forced assertion of the TLS cleanup; the trace holds calls of [main]
    only, and none into the TLS libraries without [--ssl]; nothing has
    been acquired twice, and what has been acquired is given back in
    order. *)
Definition boot_failed (o : options_t) (r : outcome Z) : Prop :=
  exists tr,
    (r = Done 1 (mk_world o 0 0 0 0 None tr)
     \/ (r = Abort AssertFailure (mk_world o 0 0 0 0 None tr)
         /\ truthy (opt_ssl o) = true)) /\
    forallb is_main_call tr = true /\
    (truthy (opt_ssl o) = false -> forallb (fun c => negb (is_tls_call c)) tr = true) /\
    NoDup (resources_acquired tr) /\
    released_in_order r.

(** Evaluates the resources of a trace written out around
    [configure_channels]. *)
Ltac flags_rewrite :=
  repeat match goal with H : ?f E = _ |- context [?f E] => rewrite H end.

(** Evaluates a property of a trace written out around the calls that
    depend on the options, using what the context says about these. *)
Ltac trace_eval :=
  unfold resources_acquired, resources_released;
  rewrite ?flat_map_app, ?forallb_app;
  cbn [flat_map forallb app];
  rewrite ?flat_map_app, ?forallb_app;
  repeat match goal with
         | H : flat_map _ _ = _ |- _ => rewrite H
         | H : forallb _ _ = _ |- _ => rewrite H
         | H : acquires (logger_call _) = _ |- _ => rewrite H
         | H : gives_back (logger_call _) = _ |- _ => rewrite H
         | H : is_main_call (logger_call _) = _ |- _ => rewrite H
         | H : is_tls_call (logger_call _) = _ |- _ => rewrite H
         end;
  cbn [acquires gives_back is_main_call is_tls_call is_pipeline_call negb andb app
       flat_map forallb];
  flags_rewrite;
  cbn [app andb].

(** Closes a leaf of the start-up: the outcome is written out, and its
    trace is evaluated. *)
Ltac boot_leaf_facts :=
  unfold boot_failed, add_calls, set_trace, tls_boot_calls;
  cbn [options server_ready my_id flood_blocking flood_next quit trace take firstn];
  eexists;
  split; [first [left; reflexivity | right; split; [reflexivity | assumption]]|];
  split; [trace_eval; reflexivity|];
  split; [let Hs := fresh in intros Hs; try congruence; trace_eval; reflexivity|];
  split; [trace_eval; apply (bool_decide_unpack _); reflexivity|];
  unfold released_in_order; cbn [trace]; trace_eval; in_order.

(** Splits on the answer of the library call [f] if the goal asks for it. *)
Ltac split_flag f :=
  lazymatch goal with
  | |- context [f E] => destruct (f E) eqn:?
  | _ => idtac
  end.

(** *** Teardown and the callbacks *)

(** The calls [terminate] has made when one of the forced assertions of
    its TLS block fails: everything up to and including the shutdown
    call that failed. *)
Definition teardown_abort_calls (w : world) : list call :=
  [call_BLog BLOG_NOTICE "tearing down" []]
    ++ pipeline_frees (server_ready w)
    ++ [call_ServerConnection_Free; call_CERT_DestroyCertificate;
        call_SECKEY_DestroyPrivateKey; call_SSL_ShutdownServerSessionIDCache]
    ++ (if SSL_ShutdownServerSessionIDCache_ok E then
          [call_SSL_ClearSessionCache; call_NSS_Shutdown]
            ++ (if NSS_Shutdown_ok E then [call_PR_Cleanup] else [])
        else []).

(** The line each of the three reporting callbacks logs. *)
Definition side_channel_log (e : event) : list call :=
  match e with
  | ev_server_newclient peer_id _ _ _ => [call_BLog BLOG_INFO "newclient %d" [peer_id]]
  | ev_server_endclient peer_id => [call_BLog BLOG_INFO "endclient %d" [peer_id]]
  | ev_server_message peer_id _ _ => [call_BLog BLOG_INFO "message from %d" [peer_id]]
  | _ => []
  end.

(** What the ready callback has done when the buffer cannot be
    constructed and it turns to [terminate]. *)
Definition ready_failure_calls : list call :=
  pipeline_inits
    ++ [call_BLog BLOG_ERROR "SinglePacketBuffer_Init failed, exiting" [];
        call_PacketProtoEncoder_Free; call_PacketRecvInterface_Free].

(** The world in which [terminate] starts when callback [e] leads to
    it: after the line of the signal or error handler, or after the
    failed construction of the ready callback. *)
Definition before_terminate (e : event) (w : world) : world :=
  match e with
  | ev_server_ready param_my_id _ =>
      add_calls ready_failure_calls (set_my_id (to_peerid param_my_id) w)
  | _ => add_calls [termination_log e] w
  end.

(** Callback [e] leads to [terminate] in world [w]. *)
Definition terminates (e : event) (w : world) : Prop :=
  match e with
  | ev_signal | ev_server_error => True
  | ev_server_ready _ _ => server_ready w = 0 /\ SinglePacketBuffer_Init_ok E = false
  | _ => False
  end.

(** *** The process as a whole *)

(** The resources held when the event loop is entered, in the order of
    their acquisition. *)
Definition boot_resources (o : options_t) : list resource :=
  [res_logger; res_reactor; res_signal_handler]
    ++ (if truthy (opt_ssl o) then
          [res_nspr; res_nss; res_session_cache; res_client_cert; res_client_key]
        else [])
    ++ [res_server_connection].

(** The objects of the flooding pipeline, in the order of their
    construction. *)
Definition pipeline_resources : list resource :=
  [res_flood_source; res_flood_encoder; res_flood_buffer].

(** How a run that does not enter the event loop ends. *)
Definition ended_early (o : options_t) (r : outcome Z) : Prop :=
  exists tr,
    ((exists code, r = Done code (mk_world o 0 0 0 0 None tr))
     \/ (r = Abort AssertFailure (mk_world o 0 0 0 0 None tr)
         /\ truthy (opt_ssl o) = true)) /\
    forallb is_main_call tr = true /\
    (truthy (opt_ssl o) = false -> forallb (fun c => negb (is_tls_call c)) tr = true) /\
    NoDup (resources_acquired tr) /\
    released_in_order r.

(** The resources held while the event loop runs: those of start-up
    and, once the server is ready, the pipeline. *)
Definition loop_resources (w : world) : list resource :=
  boot_resources (options w)
    ++ (if truthy (server_ready w) then pipeline_resources else []).

(** What holds of the resources whenever the process waits in the
    event loop. *)
Definition resources_in_loop (w : world) : Prop :=
  resources_released (trace w) = [] /\
  resources_acquired (trace w) = loop_resources w /\
  (truthy (opt_ssl (options w)) = false ->
   forallb (fun c => negb (is_tls_call c)) (trace w) = true).

(** Writes out the trace of a run that has left the loop or aborted in
    [terminate]. *)
Ltac final_trace :=
  unfold teardown_calls, teardown_abort_calls, before_terminate, ready_failure_calls,
    pipeline_inits, pipeline_frees, tls_teardown, exit_calls, termination_log,
    add_calls, set_trace, set_quit, set_my_id, set_flood_next;
  cbn [trace options server_ready my_id flood_blocking flood_next quit world_of].

(** What holds of the flooding whenever the process waits in the event
    loop: the targets logged so far are TargetList read cyclically from
    its first entry, the cursor stands after the last of them, and the
    source is blocked only when there is no target. *)
Definition flooding_in_loop (w : world) : Prop :=
  logged_targets (trace w) =
    read_cyclically (TargetList (options w)) 0 (length (logged_targets (trace w))) /\
  (0 < opt_num_floods (options w) ->
   flood_next w =
     Z.of_nat (length (logged_targets (trace w)) mod length (TargetList (options w)))) /\
  (opt_num_floods (options w) = 0 -> logged_targets (trace w) = []) /\
  (flood_blocking w = 0 \/ (opt_num_floods (options w) = 0 /\ server_ready w <> 0)).


(** * Properties *)

(** ** Integers and bytes *)

Lemma to_int_id z : is_int z -> to_int z = z.
Proof.
  unfold is_int, INT_MIN, INT_MAX, to_int. intros H.
  rewrite Z.mod_small; lia.
Qed.

Lemma land_255 x : Z.land x 255 = x mod 256.
Proof. change 255 with (Z.ones 8). rewrite Z.land_ones by lia. reflexivity. Qed.

Lemma high_byte x : Z.land (Z.shiftr x 8) 255 = x / 256 mod 256.
Proof. rewrite land_255, Z.shiftr_div_pow2 by lia. reflexivity. Qed.

Lemma uint16_low_byte x : to_uint16 x mod 256 = x mod 256.
Proof. unfold to_uint16. change (2 ^ 16) with (256 * 256). div_lia. Qed.

Lemma uint16_high_byte x : to_uint16 x / 256 mod 256 = x / 256 mod 256.
Proof. unfold to_uint16. change (2 ^ 16) with (256 * 256). div_lia. Qed.

Lemma lor_low_high lo hi :
  0 <= lo < 256 -> Z.lor lo (hi * 256) = lo + hi * 256.
Proof.
  intros Hlo. pose proof (Z.add_lor_land lo (hi * 256)) as Hsum.
  assert (Hand : Z.land lo (hi * 256) = 0).
  { apply Z.bits_inj'. intros n Hn.
    rewrite Z.land_spec, Z.bits_0.
    destruct (Z.ltb_spec n 8).
    - change 256 with (2 ^ 8). rewrite Z.mul_pow2_bits_low by lia.
      apply andb_false_r.
    - rewrite <- (Z.mod_small lo (2 ^ 8)) by (change (2 ^ 8) with 256; lia).
      rewrite Z.mod_pow2_bits_high by lia. reflexivity. }
  lia.
Qed.

Lemma bswap16_sum x :
  bswap16 x = x mod 256 * 256 + x / 256 mod 256.
Proof.
  unfold bswap16. rewrite land_255, high_byte, Z.shiftl_mul_pow2 by lia.
  change (2 ^ 8) with 256.
  rewrite Z.lor_comm, lor_low_high; [lia|].
  apply Z.mod_pos_bound. lia.
Qed.

Lemma to_uint8_byte x : 0 <= x < 256 -> to_uint8 x = x.
Proof. unfold to_uint8. intros. change (2 ^ 8) with 256. apply Z.mod_small. lia. Qed.

Lemma le16_bytes p : is_peerid p -> le16 (p mod 256) (p / 256 mod 256) = p.
Proof.
  unfold is_peerid, le16. change (2 ^ 16) with (256 * 256). intros Hp.
  rewrite Z.shiftl_mul_pow2 by lia. change (2 ^ 8) with 256.
  rewrite lor_low_high by (apply Z.mod_pos_bound; lia).
  div_lia.
Qed.

(** ** Stores *)

Lemma store_u8_in_range data off v :
  (off < length data)%nat ->
  store_u8 data off v = Some (<[off := to_uint8 v]> data).
Proof. intros H. unfold store_u8. destruct (decide _); [reflexivity | lia]. Qed.

Lemma memset_in_range n : forall data off c,
  (off + n <= length data)%nat ->
  memset data off c n =
    Some (take off data ++ replicate n (to_uint8 c) ++ drop (off + n) data).
Proof.
  induction n as [|n IH]; intros data off c Hlen; simpl.
  - rewrite Nat.add_0_r, take_drop. reflexivity.
  - rewrite store_u8_in_range by lia.
    rewrite IH by (rewrite length_insert; lia).
    f_equal.
    rewrite (take_S_r _ _ (to_uint8 c)) by (apply list_lookup_insert_eq; lia).
    rewrite take_insert_ge by lia.
    rewrite drop_insert_lt by lia.
    rewrite <- app_assoc. simpl.
    replace (off + S n)%nat with (S (off + n)) by lia. reflexivity.
Qed.

(** Whatever the host's byte order, storing [htol16 peer_id] leaves the
    low byte first. *)
Lemma store_htol16 data off peer_id :
  (S off < length data)%nat ->
  store_u16 data off (htol16 peer_id) =
    Some (<[S off := peer_id / 256 mod 256]> (<[off := peer_id mod 256]> data)).
Proof.
  intros Hlen. unfold store_u16, htol16.
  assert (Hlo : 0 <= peer_id mod 256 < 256) by (apply Z.mod_pos_bound; lia).
  assert (Hhi : 0 <= peer_id / 256 mod 256 < 256) by (apply Z.mod_pos_bound; lia).
  destruct host_big_endian.
  - rewrite high_byte, land_255, bswap16_sum.
    rewrite uint16_low_byte, uint16_high_byte.
    replace ((peer_id mod 256 * 256 + peer_id / 256 mod 256) / 256 mod 256)
      with (peer_id mod 256) by div_lia.
    replace ((peer_id mod 256 * 256 + peer_id / 256 mod 256) mod 256)
      with (peer_id / 256 mod 256) by div_lia.
    rewrite store_u8_in_range by lia.
    rewrite store_u8_in_range by (rewrite length_insert; lia).
    rewrite !to_uint8_byte by assumption. reflexivity.
  - rewrite high_byte, land_255, uint16_low_byte, uint16_high_byte.
    rewrite store_u8_in_range by lia.
    rewrite store_u8_in_range by (rewrite length_insert; lia).
    rewrite !to_uint8_byte by assumption. reflexivity.
Qed.

(** ** The packet source *)

Lemma truthy_nonzero z : z <> 0 -> truthy z = true.
Proof. intros H. unfold truthy. destruct (Z.eqb_spec z 0); [contradiction | reflexivity]. Qed.

Lemma recv_nonempty w data data_len peer_id :
  recv_pre w ->
  0 < opt_num_floods (options w) ->
  is_int (opt_num_floods (options w)) ->
  opt_floods (options w) !! Z.to_nat (flood_next w) = Some peer_id ->
  (payload_len <= length data)%nat ->
  flood_source_handler_recv data data_len w =
    Done (1,
          [to_uint8 SCID_OUTMSG; peer_id mod 256; peer_id / 256 mod 256]
            ++ replicate SC_MAX_MSGLEN 0 ++ drop payload_len data,
          to_int (Z.of_nat payload_len))
         (set_trace (trace w ++ [call_BLog BLOG_INFO "message to %d" [peer_id]])
            (set_flood_next ((flood_next w + 1) mod opt_num_floods (options w)) w)).
Proof.
  intros (Hready & Hblock & Hcur) Hpos Hint Hpeer Hcap.
  specialize (Hcur Hpos).
  unfold flood_source_handler_recv. prog_simpl.
  rewrite (truthy_nonzero _ Hready), Hblock. change (truthy 0) with false. prog_simpl.
  replace (0 <? opt_num_floods (options w)) with true by (symmetry; apply Z.ltb_lt; lia).
  replace (0 <=? flood_next w) with true by (symmetry; apply Z.leb_le; lia).
  replace (flood_next w <? opt_num_floods (options w)) with true
    by (symmetry; apply Z.ltb_lt; lia).
  replace (opt_num_floods (options w) =? 0) with false by (symmetry; apply Z.eqb_neq; lia).
  prog_simpl.
  destruct (decide (0 <= flood_next w)) as [_|]; [|lia].
  rewrite Hpeer. prog_simpl.
  unfold payload_len, sizeof_sc_header, sizeof_sc_client_outmsg in *.
  rewrite store_u8_in_range by lia. prog_simpl.
  rewrite store_htol16 by (rewrite length_insert; lia). prog_simpl.
  rewrite memset_in_range by (rewrite !length_insert; lia). prog_simpl.
  rewrite (to_int_id (flood_next w + 1))
    by (unfold is_int, INT_MIN, INT_MAX in *; lia).
  rewrite Z.rem_mod_nonneg by lia.
  change (to_uint8 0) with 0.
  destruct data as [|b0 [|b1 [|b2 rest]]]; simpl in Hcap; try lia.
  reflexivity.
Qed.

Lemma recv_empty w data data_len :
  server_ready w <> 0 -> flood_blocking w = 0 -> opt_num_floods (options w) = 0 ->
  flood_source_handler_recv data data_len w =
    Done (0, data, data_len) (set_flood_blocking 1 w).
Proof.
  intros Hready Hblock Hnone.
  unfold flood_source_handler_recv. prog_simpl.
  rewrite (truthy_nonzero _ Hready). prog_simpl.
  rewrite Hblock. change (truthy 0) with false. prog_simpl.
  rewrite Hnone. reflexivity.
Qed.

Lemma TargetList_length o :
  wf_options o -> length (TargetList o) = Z.to_nat (opt_num_floods o).
Proof. intros [H _]. unfold TargetList. rewrite length_take. lia. Qed.

Lemma TargetList_lookup o i :
  (i < Z.to_nat (opt_num_floods o))%nat -> TargetList o !! i = opt_floods o !! i.
Proof. intros H. unfold TargetList. apply lookup_take_lt. exact H. Qed.

Lemma recv_output_length (data : list Z) (peer_id : Z) :
  (payload_len <= length data)%nat ->
  length ([to_uint8 SCID_OUTMSG; peer_id mod 256; peer_id / 256 mod 256]
            ++ replicate SC_MAX_MSGLEN 0 ++ drop payload_len data) = length data.
Proof.
  intros H. rewrite !length_app, length_replicate, length_drop. simpl.
  unfold payload_len, sizeof_sc_header, sizeof_sc_client_outmsg in *. lia.
Qed.

Lemma recv_output_payload (data : list Z) (peer_id : Z) :
  0 <= SCID_OUTMSG < 256 ->
  take payload_len ([to_uint8 SCID_OUTMSG; peer_id mod 256; peer_id / 256 mod 256]
                      ++ replicate SC_MAX_MSGLEN 0 ++ drop payload_len data)
  = payload_for peer_id.
Proof.
  intros Htag. rewrite to_uint8_byte by assumption.
  unfold payload_for, payload_len, sizeof_sc_header, sizeof_sc_client_outmsg.
  rewrite app_assoc.
  rewrite take_app_length'; [reflexivity|].
  rewrite length_app, length_replicate. reflexivity.
Qed.

Lemma read_cyclically_S l start count :
  (0 < length l)%nat ->
  read_cyclically l start (S count) =
    l !!! (start mod length l)%nat :: read_cyclically l ((start + 1) mod length l) count.
Proof.
  intros Hl. unfold read_cyclically. simpl. rewrite Nat.add_0_r. f_equal.
  rewrite <- fmap_S_seq, <- list_fmap_compose.
  apply list_fmap_ext. intros _ i _. simpl. f_equal.
  rewrite Nat.Div0.add_mod_idemp_l. f_equal. lia.
Qed.

Lemma logged_targets_snoc tr peer_id :
  logged_targets (tr ++ [call_BLog BLOG_INFO "message to %d" [peer_id]])
  = logged_targets tr ++ [peer_id].
Proof. unfold logged_targets. rewrite omap_app. reflexivity. Qed.

(** [n] pulls in a row, from cursor [start]. *)
Lemma recv_repeatedly_spec n : forall w data data_len (start : nat),
  server_ready w <> 0 -> flood_blocking w = 0 ->
  wf_options (options w) ->
  flood_next w = Z.of_nat start ->
  (start < length (TargetList (options w)))%nat ->
  (payload_len <= length data)%nat ->
  0 <= SCID_OUTMSG < 256 ->
  exists rs w',
    recv_repeatedly n data data_len w = Done rs w' /\
    Forall2 addressed_to rs (read_cyclically (TargetList (options w)) start n) /\
    logged_targets (trace w') =
      logged_targets (trace w) ++ read_cyclically (TargetList (options w)) start n /\
    flood_next w' =
      Z.of_nat ((start + n) mod length (TargetList (options w))) /\
    options w' = options w /\ server_ready w' = server_ready w /\
    flood_blocking w' = 0.
Proof.
  induction n as [|n IH]; intros w data data_len start Hready Hblock Hwf Hnext Hstart Hcap Htag.
  - exists [], w. simpl. unfold ret, read_cyclically. simpl.
    rewrite app_nil_r, Nat.add_0_r, Nat.mod_small by lia.
    repeat split; auto. 
  - pose proof (TargetList_length _ Hwf) as Hlen.
    destruct (lookup_lt_is_Some_2 (TargetList (options w)) start Hstart) as [peer_id Hpeer].
    assert (Hfl : opt_floods (options w) !! Z.to_nat (flood_next w) = Some peer_id).
    { rewrite Hnext, Nat2Z.id, <- TargetList_lookup by lia. exact Hpeer. }
    assert (Hpos : 0 < opt_num_floods (options w)) by lia.
    simpl. unfold bind at 1.
    rewrite (recv_nonempty w data data_len peer_id); try assumption.
    2:{ split; [assumption | split; [assumption | intros _; lia]]. }
    2:{ destruct Hwf as [? ?]. unfold is_int, INT_MIN. lia. }
    set (w1 := set_trace _ _). set (data1 := _ ++ _).
    assert (Hnext1 : flood_next w1 =
              Z.of_nat ((start + 1) mod length (TargetList (options w)))).
    { subst w1. simpl. rewrite Nat2Z.inj_mod, Hlen, Hnext. f_equal; lia. }
    destruct (IH w1 data1 (to_int (Z.of_nat payload_len))
                ((start + 1) mod length (TargetList (options w)))%nat)
      as (rs & w' & Hrun & Hrs & Hlog & Hcur & Hopt & Hrdy & Hblk); try assumption.
    { subst w1. simpl. apply Nat.mod_upper_bound. lia. }
    { subst data1. rewrite recv_output_length; assumption. }
    simpl in Hrun. cbn [snd fst]. unfold bind. rewrite Hrun.
    eexists _, w'. split; [reflexivity|].
    rewrite read_cyclically_S by lia.
    rewrite Nat.mod_small by lia.
    rewrite (list_lookup_total_correct _ _ _ Hpeer).
    repeat split; try assumption.
    + constructor; [|exact Hrs].
      split; [reflexivity|]. simpl. subst data1. apply recv_output_payload. exact Htag.
    + rewrite Hlog. subst w1. simpl. rewrite logged_targets_snoc, <- app_assoc. reflexivity.
    + rewrite Hcur. f_equal. subst w1. simpl.
      rewrite Nat.Div0.add_mod_idemp_l. f_equal. lia.
Qed.

Lemma read_cyclically_full (l : list Z) (start : nat) :
  (start < length l)%nat ->
  read_cyclically l start (length l) = drop start l ++ take start l.
Proof.
  intros Hs. apply list_eq. intros i. unfold read_cyclically.
  rewrite list_lookup_fmap.
  destruct (decide (i < length l)%nat) as [Hi|Hi].
  - rewrite lookup_seq_lt by lia. simpl.
    destruct (decide (start + i < length l)%nat) as [Hlt|Hge].
    + rewrite Nat.mod_small by lia.
      rewrite lookup_app_l by (rewrite length_drop; lia).
      rewrite lookup_drop.
      destruct (lookup_lt_is_Some_2 l (start + i) Hlt) as [x Hx].
      rewrite (list_lookup_total_correct _ _ _ Hx). symmetry. exact Hx.
    + assert (Hmod : ((start + i) mod length l = start + i - length l)%nat).
      { replace (start + i)%nat with ((start + i - length l) + 1 * length l)%nat at 1 by lia.
        rewrite Nat.Div0.mod_add. apply Nat.mod_small. lia. }
      rewrite Hmod.
      rewrite lookup_app_r by (rewrite length_drop; lia).
      rewrite length_drop, lookup_take_lt by lia.
      replace (i - (length l - start))%nat with (start + i - length l)%nat by lia.
      assert (Hlt : (start + i - length l < length l)%nat) by lia.
      destruct (lookup_lt_is_Some_2 l _ Hlt) as [x Hx].
      rewrite (list_lookup_total_correct _ _ _ Hx). symmetry. exact Hx.
  - rewrite lookup_seq_ge by lia. simpl. symmetry.
    apply lookup_ge_None. rewrite length_app, length_drop, length_take. lia.
Qed.

(** C1: round-robin selection.  From a cursor [start] inside a non-empty
    TargetList of length N, N consecutive pulls all succeed and are
    addressed, in order, to the elements of TargetList read cyclically from
    [start] (both in the payloads and in the "message to" log lines), and
    the cursor is back at [start]; with TargetList [7; 3; 3; 9] and cursor
    0, five pulls are addressed to 7, 3, 3, 9, 7. *)
Theorem C1_round_robin w data data_len (start : nat) :
  server_ready w <> 0 -> flood_blocking w = 0 ->
  wf_options (options w) ->
  flood_next w = Z.of_nat start ->
  (start < length (TargetList (options w)))%nat ->
  (payload_len <= length data)%nat ->
  0 <= SCID_OUTMSG < 256 ->
  (exists rs w',
     recv_repeatedly (length (TargetList (options w))) data data_len w = Done rs w' /\
     Forall2 addressed_to rs
       (drop start (TargetList (options w)) ++ take start (TargetList (options w))) /\
     logged_targets (trace w') =
       logged_targets (trace w)
         ++ drop start (TargetList (options w)) ++ take start (TargetList (options w)) /\
     flood_next w' = flood_next w) /\
  (TargetList (options w) = [7; 3; 3; 9] -> start = 0%nat ->
   exists rs w',
     recv_repeatedly 5 data data_len w = Done rs w' /\
     Forall2 addressed_to rs [7; 3; 3; 9; 7] /\
     logged_targets (trace w') = logged_targets (trace w) ++ [7; 3; 3; 9; 7]).
Proof.
  intros Hready Hblock Hwf Hnext Hstart Hcap Htag. split.
  - destruct (recv_repeatedly_spec (length (TargetList (options w))) w data data_len start)
      as (rs & w' & Hrun & Hrs & Hlog & Hcur & _); try assumption.
    exists rs, w'. rewrite read_cyclically_full in * by assumption.
    repeat split; try assumption.
    rewrite Hcur, Hnext. f_equal.
    replace (start + length (TargetList (options w)))%nat
      with (start + 1 * length (TargetList (options w)))%nat by lia.
    rewrite Nat.Div0.mod_add. apply Nat.mod_small. lia.
  - intros HTL ->.
    destruct (recv_repeatedly_spec 5 w data data_len 0)
      as (rs & w' & Hrun & Hrs & Hlog & _); try assumption.
    exists rs, w'. rewrite HTL in *.
    repeat split; assumption.
Qed.

Lemma cursor_slot w :
  recv_pre w -> wf_options (options w) -> 0 < opt_num_floods (options w) ->
  exists peer_id,
    TargetList (options w) !! Z.to_nat (flood_next w) = Some peer_id /\
    opt_floods (options w) !! Z.to_nat (flood_next w) = Some peer_id.
Proof.
  intros (_ & _ & Hcur) Hwf Hpos. specialize (Hcur Hpos).
  pose proof (TargetList_length _ Hwf) as Hlen.
  destruct (lookup_lt_is_Some_2 (TargetList (options w)) (Z.to_nat (flood_next w)))
    as [peer_id Hpeer]; [lia|].
  exists peer_id. split; [exact Hpeer|].
  rewrite <- TargetList_lookup by lia. exact Hpeer.
Qed.

(** C2: a successful pull fills the buffer's first [payload_len] bytes
    with the tag [SCID_OUTMSG], the selected peer identifier low byte
    first (its little-endian 16-bit encoding), and [SC_MAX_MSGLEN] zero
    bytes, whatever the buffer held before; it reports the length
    [sizeof_sc_header + sizeof_sc_client_outmsg + SC_MAX_MSGLEN] and
    touches nothing beyond it. *)
Theorem C2_payload_layout w data data_len :
  recv_pre w -> wf_options (options w) ->
  0 < opt_num_floods (options w) ->
  (payload_len <= length data)%nat ->
  0 <= SCID_OUTMSG < 256 ->
  Z.of_nat payload_len <= INT_MAX ->
  exists peer_id out w',
    TargetList (options w) !! Z.to_nat (flood_next w) = Some peer_id /\
    flood_source_handler_recv data data_len w =
      Done (1, out,
            Z.of_nat (sizeof_sc_header + sizeof_sc_client_outmsg + SC_MAX_MSGLEN)) w' /\
    take payload_len out =
      [SCID_OUTMSG] ++ [peer_id mod 256; peer_id / 256 mod 256]
        ++ replicate SC_MAX_MSGLEN 0 /\
    (is_peerid peer_id -> payload_target out = peer_id) /\
    drop payload_len out = drop payload_len data.
Proof.
  intros Hpre Hwf Hpos Hcap Htag Hlen.
  destruct (cursor_slot w Hpre Hwf Hpos) as (peer_id & Hpeer & Hslot).
  exists peer_id. eexists _, _. split; [exact Hpeer|].
  rewrite (recv_nonempty w data data_len peer_id); try assumption.
  2:{ destruct Hwf as [? ?]. unfold is_int, INT_MIN. lia. }
  rewrite to_int_id by (unfold is_int, INT_MIN; lia).
  split; [reflexivity|]. split; [|split].
  - apply recv_output_payload. exact Htag.
  - intros Hid. unfold payload_target. simpl. apply le16_bytes. exact Hid.
  - rewrite app_assoc, drop_app_length'; [reflexivity|].
    rewrite length_app, length_replicate. reflexivity.
Qed.

(** C3: with an empty TargetList a pull made under its preconditions
    returns 0, writes neither the buffer nor the length, and changes
    nothing but [flood_blocking], which becomes 1; whatever the state, a
    pull with an empty TargetList either does exactly that or stops at one
    of the two assertions, and it never returns a payload. *)
Theorem C3_empty_target_list_declines w data data_len :
  opt_num_floods (options w) = 0 ->
  (server_ready w <> 0 -> flood_blocking w = 0 ->
   flood_source_handler_recv data data_len w =
     Done (0, data, data_len) (set_flood_blocking 1 w)) /\
  match flood_source_handler_recv data data_len w with
  | Done r w' => r = (0, data, data_len) /\ w' = set_flood_blocking 1 w
  | Abort f w' =>
      f = AssertFailure /\ w' = w /\ (server_ready w = 0 \/ flood_blocking w <> 0)
  | Waiting _ => False
  end.
Proof.
  intros Hnone. split.
  - intros Hready Hblock. apply recv_empty; assumption.
  - destruct (Z.eq_dec (server_ready w) 0) as [Hr|Hr].
    + unfold flood_source_handler_recv. prog_simpl. rewrite Hr.
      change (truthy 0) with false. prog_simpl. auto.
    + destruct (Z.eq_dec (flood_blocking w) 0) as [Hb|Hb].
      * rewrite recv_empty by assumption. auto.
      * unfold flood_source_handler_recv. prog_simpl.
        rewrite (truthy_nonzero _ Hr). prog_simpl.
        rewrite (truthy_nonzero _ Hb). prog_simpl. auto.
Qed.

(** ** Teardown *)

Lemma terminate_ok w :
  tls_teardown_ok (options w) = true ->
  terminate w = Done tt (set_quit (Some 1) (set_trace (trace w ++ teardown_calls w) w)).
Proof.
  unfold tls_teardown_ok, teardown_calls, pipeline_frees, tls_teardown, terminate.
  intros Hok. prog_simpl. world_norm.
  destruct (truthy (server_ready w)); prog_simpl; world_norm;
    destruct (truthy (opt_ssl (options w))); simpl in Hok; prog_simpl; world_norm;
    try reflexivity.
  all: apply andb_prop in Hok as [Hok H3]; apply andb_prop in Hok as [H1 H2];
    rewrite H1; prog_simpl; rewrite H2; prog_simpl; rewrite H3; prog_simpl; world_norm;
    reflexivity.
Qed.

(** ** Startup *)

Lemma pipeline_calls_app tr1 tr2 :
  pipeline_calls (tr1 ++ tr2) = pipeline_calls tr1 ++ pipeline_calls tr2.
Proof. apply List.filter_app. Qed.

Lemma entered_event_loop_app tr1 tr2 :
  entered_event_loop (tr1 ++ tr2) = entered_event_loop tr1 || entered_event_loop tr2.
Proof. apply existsb_app. Qed.

Lemma starting_do_call c w b :
  is_startup_call c = true -> starting b w ->
  starting b (set_trace (trace w ++ [c]) w).
Proof.
  unfold is_startup_call, starting. intros Hc (? & ? & ? & ? & ? & Hp & He).
  apply andb_prop in Hc as [Hc1 Hc2]. apply negb_true_iff in Hc1.
  cbn [server_ready my_id flood_blocking flood_next quit trace set_trace].
  rewrite pipeline_calls_app, entered_event_loop_app, Hp, He.
  unfold pipeline_calls. simpl. rewrite Hc1. 
  repeat (split; [assumption|]). split; [reflexivity|].
  destruct c; try discriminate Hc2; simpl; destruct b; reflexivity.
Qed.

Lemma quiet_ret {A} (a : A) : quiet (ret a).
Proof. intros w Hw. simpl. auto. Qed.

Lemma quiet_do_call c : is_startup_call c = true -> quiet (do_call c).
Proof.
  intros Hc w Hw. prog_simpl. split; [|reflexivity].
  apply starting_do_call; assumption.
Qed.

Lemma quiet_BLog level fmt args : quiet (BLog level fmt args).
Proof. apply quiet_do_call. reflexivity. Qed.

Lemma quiet_bind {A B} (m : prog A) (k : A -> prog B) :
  quiet m -> (forall a, quiet (k a)) -> quiet (bind m k).
Proof.
  intros Hm Hk w Hw. unfold bind. specialize (Hm w Hw).
  destruct (m w) as [a w1|f w1|w1]; [|exact Hm|exact Hm].
  destruct Hm as [Hw1 Ho1]. specialize (Hk a w1 Hw1).
  destruct (k a w1); try rewrite <- Ho1; exact Hk.
Qed.

Lemma quiet_if {A} (b : bool) (m1 m2 : prog A) :
  quiet m1 -> quiet m2 -> quiet (if b then m1 else m2).
Proof. destruct b; auto. Qed.

Lemma quiet_get {A} (f : world -> A) : quiet (get f).
Proof. intros w Hw. simpl. auto. Qed.

Lemma quiet_abort {A} f : quiet (@abort A f).
Proof. intros w Hw. simpl. auto. Qed.

Lemma quiet_ASSERT e : quiet (ASSERT e).
Proof. unfold ASSERT. apply quiet_if; [apply quiet_ret | apply quiet_abort]. Qed.

Lemma quiet_ASSERT_FORCE c ok : is_startup_call c = true -> quiet (ASSERT_FORCE c ok).
Proof.
  intros Hc. unfold ASSERT_FORCE. apply quiet_bind; [apply quiet_do_call, Hc|].
  intros _. apply quiet_if; [apply quiet_ret | apply quiet_abort].
Qed.

Lemma quiet_match_option {A B} (x : option A) (f : A -> prog B) (m : prog B) :
  (forall a, quiet (f a)) -> quiet m ->
  quiet (match x with Some a => f a | None => m end).
Proof. destruct x; auto. Qed.

Create HintDb boot discriminated.
#[local] Hint Resolve quiet_ret quiet_do_call quiet_BLog quiet_bind quiet_if quiet_get
  quiet_abort quiet_ASSERT quiet_ASSERT_FORCE quiet_match_option : boot.
#[local] Hint Extern 1 (is_startup_call _ = true) => reflexivity : boot.
#[local] Hint Extern 1 (quiet (bind _ _)) => apply quiet_bind; [|intros ?] : boot.

Lemma quiet_fail0 : quiet fail0.
Proof. unfold fail0. auto 10 with boot. Qed.

Lemma quiet_fail1 : quiet fail1.
Proof. unfold fail1. pose proof quiet_fail0. auto 10 with boot. Qed.

Lemma quiet_fail1a : quiet fail1a.
Proof. unfold fail1a. pose proof quiet_fail1. auto 10 with boot. Qed.

Lemma quiet_after_ssl_cleanup : quiet after_ssl_cleanup.
Proof. unfold after_ssl_cleanup. pose proof quiet_fail1a. auto 10 with boot. Qed.

Lemma quiet_fail2 : quiet fail2.
Proof. unfold fail2. pose proof quiet_after_ssl_cleanup. auto 10 with boot. Qed.

Lemma quiet_fail3 : quiet fail3.
Proof. unfold fail3. pose proof quiet_fail2. auto 10 with boot. Qed.

Lemma quiet_fail4 : quiet fail4.
Proof. unfold fail4. pose proof quiet_fail3. auto 10 with boot. Qed.

Lemma quiet_fail5 : quiet fail5.
Proof.
  unfold fail5. pose proof quiet_fail4. pose proof quiet_after_ssl_cleanup.
  auto 10 with boot.
Qed.

Lemma quiet_resolve_arguments : quiet resolve_arguments.
Proof. unfold resolve_arguments. auto 20 with boot. Qed.

Lemma quiet_set_server_ready : quiet (modify (set_server_ready 0)).
Proof.
  intros w (? & ? & ? & ? & ? & ? & ?). simpl. split; [|reflexivity].
  unfold starting. simpl. auto 10.
Qed.

Lemma configure_channels_startup o :
  Forall (fun c => is_startup_call c = true) (configure_channels o).
Proof.
  unfold configure_channels. apply Forall_forall. intros c Hc.
  apply list_elem_of_omap in Hc as (i & _ & Hi).
  destruct (0 <=? opt_loglevels o !!! i); [injection Hi as <-; reflexivity|].
  destruct (0 <=? opt_loglevel o); [injection Hi as <-; reflexivity|discriminate].
Qed.

Lemma starting_calls b cs : forall w,
  Forall (fun c => is_startup_call c = true) cs -> starting b w ->
  starting b (set_trace (trace w ++ cs) w).
Proof.
  induction cs as [|c cs IH] using rev_ind; intros w Hcs Hw.
  - rewrite app_nil_r. destruct w; exact Hw.
  - apply Forall_app in Hcs as [Hcs Hc]. inversion Hc; subst.
    specialize (IH w Hcs Hw).
    pose proof (starting_do_call c _ b ltac:(assumption) IH) as Hs.
    unfold set_trace in *. simpl in *. rewrite <- app_assoc in Hs. exact Hs.
Qed.

Lemma quiet_configure_channels o :
  quiet (modify (fun w => set_trace (trace w ++ configure_channels o) w)).
Proof.
  intros w Hw. simpl. split; [|reflexivity].
  apply starting_calls; [apply configure_channels_startup | exact Hw].
Qed.

Lemma boots_exit (m : prog Z) : quiet m -> boots (fun _ => m).
Proof.
  intros Hm w Hw. right. exists (m w). split; [reflexivity|].
  apply Hm. exact Hw.
Qed.

Lemma boots_bind {A} (m : prog A) (k : A -> list event -> prog Z) :
  quiet m -> (forall a, boots (k a)) ->
  boots (fun incoming => bind m (fun a => k a incoming)).
Proof.
  intros Hm Hk w Hw. unfold bind. specialize (Hm w Hw).
  destruct (m w) as [a w1|f w1|w1].
  - destruct Hm as [Hw1 Ho1].
    destruct (Hk a w1 Hw1) as [(w0 & Hw0 & Ho & Hrun)|(r & Hrun & Hr)].
    + left. exists w0. rewrite <- Ho1. auto.
    + right. exists r. split; [exact Hrun|].
      destruct r; try rewrite <- Ho1; exact Hr.
  - right. exists (Abort f w1). auto.
  - contradiction.
Qed.

Lemma boots_if (b : bool) (P1 P2 : list event -> prog Z) :
  boots P1 -> boots P2 -> boots (fun incoming => if b then P1 incoming else P2 incoming).
Proof. destruct b; auto. Qed.

Lemma boots_event_loop : boots event_loop.
Proof.
  intros w Hw. left.
  exists (set_trace ((trace w ++ [call_BLog BLOG_NOTICE "entering event loop" []])
                       ++ [call_BReactor_Exec]) w).
  split; [|split; [reflexivity|reflexivity]].
  destruct Hw as (? & ? & ? & ? & ? & Hp & He).
  unfold starting. cbn [server_ready my_id flood_blocking flood_next quit trace set_trace].
  rewrite !pipeline_calls_app, !entered_event_loop_app, Hp, He.
  auto 10.
Qed.

Lemma boots_connect_and_run : boots connect_and_run.
Proof.
  unfold connect_and_run.
  apply (boots_bind (do_call call_ServerConnection_Init)); [auto with boot|]. intros _.
  apply boots_if.
  - apply boots_exit. pose proof quiet_fail5. auto with boot.
  - apply (boots_bind (modify (set_server_ready 0))); [apply quiet_set_server_ready|].
    intros _. apply boots_event_loop.
Qed.

#[local] Hint Resolve quiet_fail0 quiet_fail1 quiet_fail1a quiet_after_ssl_cleanup
  quiet_fail2 quiet_fail3 quiet_fail4 quiet_fail5 quiet_resolve_arguments
  quiet_set_server_ready quiet_configure_channels : boot.

Lemma boots_init_ssl : boots init_ssl.
Proof.
  unfold init_ssl.
  repeat first
    [ assumption
    | apply boots_connect_and_run
    | apply boots_event_loop
    | apply boots_exit; solve [auto 20 with boot]
    | apply boots_if
    | refine (boots_bind _ _ _ _); [solve [auto 20 with boot] | intros ?] ].
Qed.

Lemma boots_initialize : boots initialize.
Proof.
  unfold initialize. pose proof boots_init_ssl.
  repeat first
    [ assumption
    | apply boots_connect_and_run
    | apply boots_event_loop
    | apply boots_exit; solve [auto 20 with boot]
    | apply boots_if
    | refine (boots_bind _ _ _ _); [solve [auto 20 with boot] | intros ?] ].
Qed.

Lemma starting_initial_world : starting false initial_world.
Proof. unfold starting. simpl. auto 10. Qed.

(** [main] either ends without entering the event loop, whatever the
    callbacks would have been, or enters it in a starting world. *)
Lemma run_process_boot argv :
  (exists w0, starting true w0 /\ options w0 = parsed_options argv /\
              parse_ret (parse_arguments argv initial_options) = 1 /\
              forall incoming,
                run_process argv incoming = bind (BReactor_Exec incoming) leave_loop w0)
  \/ (exists r, (forall incoming, run_process argv incoming = r) /\
                match r with
                | Done _ w' | Abort _ w' =>
                    starting false w' /\ options w' = parsed_options argv
                | Waiting _ => False
                end).
Proof.
  destruct argv as [|argv0 args].
  - right. exists (Done 1 initial_world). split; [reflexivity|].
    split; [apply starting_initial_world | reflexivity].
  - set (r := parse_arguments (argv0 :: args) initial_options).
    set (w1 := set_options (parse_options r)
                 (set_trace (trace initial_world ++ [call_DEAD_INIT]) initial_world)).
    assert (Hw1 : starting false w1).
    { unfold starting. simpl. auto 10. }
    assert (Hrest : boots (fun incoming =>
       if negb (truthy (parse_ret r)) then
         do_call (call_fprintf_stderr "Failed to parse arguments") ;;
         do_call (call_print_help argv0) ;;
         fail0
       else
         let* o := get options in
         if truthy (opt_help o) then
           do_call call_print_version ;; do_call (call_print_help argv0) ;; ret 0
         else if truthy (opt_version o) then
           do_call call_print_version ;; ret 0
         else initialize incoming)).
    { pose proof boots_initialize.
      repeat first
        [ assumption
        | apply boots_connect_and_run
        | apply boots_event_loop
        | apply boots_exit; solve [auto 20 with boot]
        | apply boots_if
        | refine (boots_bind _ _ _ _); [solve [auto 20 with boot] | intros ?] ]. }
    specialize (Hrest w1 Hw1).
    destruct Hrest as [(w0 & Hw0 & Ho & Hrun)|(res & Hrun & Hres)].
    + left. exists w0. split; [exact Hw0|]. split; [exact Ho|]. split; [|exact Hrun].
      specialize (Hrun []).
      destruct (truthy (parse_ret r)) eqn:Hret.
      * unfold parse_ret in *. destruct r; [reflexivity | discriminate Hret].
      * exfalso. simpl in Hrun.
        pose proof (quiet_bind _ _ (quiet_do_call (call_fprintf_stderr "Failed to parse arguments") eq_refl)
                      (fun _ => quiet_bind _ _ (quiet_do_call (call_print_help argv0) eq_refl)
                                  (fun _ => quiet_fail0)) w1 Hw1) as Hq.
        rewrite Hrun in Hq. unfold bind in Hq.
        destruct Hw0 as (_ & _ & _ & _ & Hquit & _).
        simpl in Hq. rewrite Hquit in Hq. exact Hq.
    + right. exists res. split; [exact Hrun | exact Hres].
Qed.

(** ** The callbacks, one by one *)

(** [terminate] in any environment: it may stop at a forced assertion of
    its TLS block, but by then the pipeline has been released. *)
Lemma terminate_any w :
  match terminate w with
  | Done _ w' => quit w' = Some 1 /\ core_state w' = core_state (set_quit (Some 1) w)
                 /\ pipeline_calls (trace w') =
                      pipeline_calls (trace w) ++ pipeline_frees (server_ready w)
  | Abort f w' => f = AssertFailure /\ core_state w' = core_state w
                  /\ pipeline_calls (trace w') =
                       pipeline_calls (trace w) ++ pipeline_frees (server_ready w)
  | Waiting _ => False
  end.
Proof.
  unfold terminate, pipeline_frees. prog_simpl. world_norm.
  destruct (truthy (server_ready w)); prog_simpl; world_norm;
    (destruct (truthy (opt_ssl (options w))); prog_simpl; world_norm;
     [ destruct (SSL_ShutdownServerSessionIDCache_ok E); prog_simpl; world_norm;
       [ destruct (NSS_Shutdown_ok E); prog_simpl; world_norm;
         [ destruct (PR_Cleanup_ok E); prog_simpl; world_norm | ] | ] | ]);
    rewrite ?pipeline_calls_app; simpl; rewrite ?app_nil_r; auto.
Qed.

Lemma side_channel_dispatch e w :
  is_side_channel e = true ->
  (server_ready w = 0 -> dispatch e w = Abort AssertFailure w) /\
  match dispatch e w with
  | Done _ w' => server_ready w <> 0 /\
                 exists peer_id fmt,
                   w' = set_trace (trace w ++ [call_BLog BLOG_INFO fmt [peer_id]]) w
  | Abort f w' => f = AssertFailure /\ w' = w
  | Waiting _ => False
  end.
Proof.
  assert (Hnz : truthy (server_ready w) = true -> server_ready w <> 0).
  { unfold truthy. destruct (Z.eqb_spec (server_ready w) 0); [discriminate | auto]. }
  destruct e; try discriminate; intros _; simpl;
    unfold server_handler_newclient, server_handler_endclient, server_handler_message;
    prog_simpl.
  all: split; [intros ->; reflexivity|].
  all: destruct (truthy (server_ready w)) eqn:Hr; prog_simpl; [|auto].
  1,2: split; [auto|]; eexists _, _; reflexivity.
  destruct (0 <=? data_len); prog_simpl; [|auto].
  destruct (data_len <=? Z.of_nat SC_MAX_MSGLEN); prog_simpl; [|auto].
  split; [auto|]. eexists _, _. reflexivity.
Qed.

(** The ready callback, in its three cases. *)
Lemma server_handler_ready_cases param_my_id ext_ip w :
  (server_ready w <> 0 ->
   server_handler_ready param_my_id ext_ip w = Abort AssertFailure w) /\
  (server_ready w = 0 -> SinglePacketBuffer_Init_ok E = true ->
   server_handler_ready param_my_id ext_ip w =
     Done tt (set_trace
                (trace w ++ pipeline_inits
                   ++ [call_BLog BLOG_INFO "server: ready, my ID is %d"
                         [to_peerid param_my_id]])
                (set_server_ready 1
                   (set_flood_blocking 0 (set_my_id (to_peerid param_my_id) w))))) /\
  (server_ready w = 0 -> SinglePacketBuffer_Init_ok E = false ->
   server_handler_ready param_my_id ext_ip w =
     terminate (set_trace
                  (trace w ++ pipeline_inits
                     ++ [call_BLog BLOG_ERROR "SinglePacketBuffer_Init failed, exiting" [];
                         call_PacketProtoEncoder_Free; call_PacketRecvInterface_Free])
                  (set_my_id (to_peerid param_my_id) w))).
Proof.
  unfold server_handler_ready, pipeline_inits. repeat split.
  - intros Hr. prog_simpl. rewrite (truthy_nonzero _ Hr). reflexivity.
  - intros Hr Hok. prog_simpl. rewrite Hr, Hok. change (truthy 0) with false.
    prog_simpl. world_norm. reflexivity.
  - intros Hr Hok. prog_simpl. rewrite Hr, Hok. change (truthy 0) with false.
    prog_simpl. world_norm. reflexivity.
Qed.

(** Every way a pull can end, for well-formed options: at an assertion,
    which happens exactly when a precondition is violated; declining; or
    past the selection of a target. *)
Lemma recv_cases w data data_len :
  wf_options (options w) ->
  (~ recv_pre w /\ flood_source_handler_recv data data_len w = Abort AssertFailure w)
  \/ (opt_num_floods (options w) = 0 /\
      flood_source_handler_recv data data_len w =
        Done (0, data, data_len) (set_flood_blocking 1 w))
  \/ (recv_pre w /\ 0 < opt_num_floods (options w) /\
      exists peer_id,
        let w1 := set_trace (trace w ++ [call_BLog BLOG_INFO "message to %d" [peer_id]])
                    (set_flood_next ((flood_next w + 1) mod opt_num_floods (options w)) w) in
        (exists out len, flood_source_handler_recv data data_len w = Done (1, out, len) w1)
        \/ flood_source_handler_recv data data_len w = Abort UndefinedBehaviour w1).
Proof.
  intros [[Hnum0 Hnum] Hint].
  unfold flood_source_handler_recv. prog_simpl.
  destruct (Z.eq_dec (server_ready w) 0) as [Hz|Hready].
  { left. rewrite Hz. split; [|reflexivity]. intros (H & _). contradiction. }
  rewrite (truthy_nonzero _ Hready). prog_simpl.
  destruct (Z.eq_dec (flood_blocking w) 0) as [Hblock|Hb].
  2:{ left. rewrite (truthy_nonzero _ Hb). split; [|reflexivity].
      intros (_ & H & _). contradiction. }
  rewrite Hblock. change (truthy 0) with false. prog_simpl.
  destruct (Z.ltb_spec 0 (opt_num_floods (options w))) as [Hpos|Hnone]; prog_simpl.
  - destruct (Z.leb_spec 0 (flood_next w)) as [Hlo|Hlo]; prog_simpl.
    2:{ left. split; [|reflexivity]. intros (_ & _ & H). specialize (H Hpos). lia. }
    destruct (Z.ltb_spec (flood_next w) (opt_num_floods (options w))) as [Hhi|Hhi];
      prog_simpl.
    2:{ left. split; [|reflexivity]. intros (_ & _ & H). specialize (H Hpos). lia. }
    destruct (Z.eqb_spec (opt_num_floods (options w)) 0) as [|_]; [lia|].
    destruct (decide (0 <= flood_next w)) as [_|]; [|lia].
    destruct (lookup_lt_is_Some_2 (opt_floods (options w)) (Z.to_nat (flood_next w)))
      as [peer_id Hpeer]; [lia|].
    rewrite Hpeer. prog_simpl.
    rewrite (to_int_id (flood_next w + 1)) by (unfold is_int, INT_MIN, INT_MAX in *; lia).
    rewrite Z.rem_mod_nonneg by lia.
    right; right. split; [|split; [exact Hpos|]].
    { split; [exact Hready|]. split; [exact Hblock|]. intros _. lia. }
    exists peer_id. cbv zeta.
    destruct (store_u8 data 0 SCID_OUTMSG) as [d1|]; prog_simpl; [|right; reflexivity].
    destruct (store_u16 d1 sizeof_sc_header (htol16 peer_id)) as [d2|]; prog_simpl;
      [|right; reflexivity].
    destruct (memset d2 (sizeof_sc_header + sizeof_sc_client_outmsg) 0 SC_MAX_MSGLEN)
      as [d3|]; prog_simpl; [|right; reflexivity].
    left. eexists _, _. reflexivity.
  - destruct (Z.eqb_spec (opt_num_floods (options w)) 0) as [Hz|]; [|lia].
    right; left. split; [exact Hz | reflexivity].
Qed.

(** C4: under the documented preconditions (server ready, not blocking,
    cursor in range when TargetList is non-empty) and for well-formed
    options, no assertion of a pull fails, whatever buffer it is handed;
    when the buffer has the payload's size the pull returns, and with a
    non-empty TargetList it returns 1 with the payload: the buffer now
    holds the tag byte, the two bytes of the target the cursor points
    at, low byte first, and [SC_MAX_MSGLEN] zero bytes, what lies beyond
    them being untouched; the length reported is that of the payload;
    and [flood_blocking] is still 0. *)
Theorem C4_production_never_fails w data data_len :
  recv_pre w -> wf_options (options w) ->
  (forall w', flood_source_handler_recv data data_len w <> Abort AssertFailure w') /\
  ((payload_len <= length data)%nat ->
   (exists r w', flood_source_handler_recv data data_len w = Done r w') /\
   (0 < opt_num_floods (options w) ->
    exists peer_id w',
      TargetList (options w) !! Z.to_nat (flood_next w) = Some peer_id /\
      flood_source_handler_recv data data_len w =
        Done (1,
              [to_uint8 SCID_OUTMSG; peer_id mod 256; peer_id / 256 mod 256]
                ++ replicate SC_MAX_MSGLEN 0 ++ drop payload_len data,
              to_int (Z.of_nat payload_len))
             w' /\
      flood_blocking w' = 0)).
Proof.
  intros Hpre Hwf. split.
  - intros w'.
    destruct (recv_cases w data data_len Hwf)
      as [(Hno & _)|[(_ & Hrun)|(_ & _ & peer_id & [(out & len & Hrun)|Hrun])]];
      [contradiction | rewrite Hrun; discriminate ..].
  - intros Hcap.
    assert (Hsome : 0 < opt_num_floods (options w) ->
       exists peer_id w',
         TargetList (options w) !! Z.to_nat (flood_next w) = Some peer_id /\
         flood_source_handler_recv data data_len w =
           Done (1,
                 [to_uint8 SCID_OUTMSG; peer_id mod 256; peer_id / 256 mod 256]
                   ++ replicate SC_MAX_MSGLEN 0 ++ drop payload_len data,
                 to_int (Z.of_nat payload_len))
                w' /\
         flood_blocking w' = 0).
    { intros Hpos.
      destruct (cursor_slot w Hpre Hwf Hpos) as (peer_id & Hpeer & Hslot).
      exists peer_id. eexists. split; [exact Hpeer|].
      rewrite (recv_nonempty w data data_len peer_id); try assumption.
      2:{ destruct Hwf as [? ?]. unfold is_int, INT_MIN. lia. }
      split; [reflexivity|]. simpl. apply Hpre. }
    split; [|exact Hsome].
    destruct (Z.eq_dec (opt_num_floods (options w)) 0) as [Hz|Hnz].
    + eexists _, _. apply recv_empty; [apply Hpre | apply Hpre | exact Hz].
    + destruct Hsome as (peer_id & w' & _ & Hrun & _).
      { destruct Hwf as [? ?]. lia. }
      eauto.
Qed.

Lemma pipeline_calls_other c :
  is_pipeline_call c = false -> pipeline_calls [c] = [].
Proof. intros Hc. unfold pipeline_calls. simpl. rewrite Hc. reflexivity. Qed.

Lemma live_do_call c w :
  is_pipeline_call c = false -> live w -> live (set_trace (trace w ++ [c]) w).
Proof.
  intros Hc (Hq & Hwf & Hcur & Hr & Hp). unfold live.
  cbn [options server_ready quit trace set_trace].
  rewrite pipeline_calls_app, Hp, (pipeline_calls_other c Hc), app_nil_r.
  auto.
Qed.

Lemma live_settled w : live w -> settled w.
Proof.
  intros (Hq & Hwf & Hcur & Hr & Hp). unfold settled, pipeline_history_ok.
  repeat (split; [assumption|]). rewrite Hp.
  destruct (truthy (server_ready w)); auto.
Qed.

(** A callback dispatched in a live world: the loop stays live, or an
    exit has been requested with code 1, or the process has aborted; the
    options never change. *)
Lemma dispatch_live e w :
  live w ->
  match dispatch e w with
  | Done _ w' => options w' = options w /\ (live w' \/ (quit w' = Some 1 /\ settled w'))
  | Abort _ w' => options w' = options w /\ settled w'
  | Waiting _ => False
  end.
Proof.
  intros Hlive. pose proof Hlive as (Hq & Hwf & Hcur & Hr & Hp).
  assert (Hterm : forall w1,
    options w1 = options w -> flood_next w1 = flood_next w ->
    (server_ready w1 = 0 \/ server_ready w1 = 1) ->
    pipeline_history_ok
      (trace w1 ++ pipeline_frees (server_ready w1)) ->
    pipeline_calls (trace w1 ++ pipeline_frees (server_ready w1))
       = pipeline_calls (trace w1) ++ pipeline_frees (server_ready w1) ->
    match terminate w1 with
    | Done _ w' => options w' = options w /\ (live w' \/ (quit w' = Some 1 /\ settled w'))
    | Abort _ w' => options w' = options w /\ settled w'
    | Waiting _ => False
    end).
  { intros w1 Ho Hn Hr1 Hhist Hpf. pose proof (terminate_any w1) as Ht.
    assert (Hs : forall w', core_state w' = core_state w1 \/
                            core_state w' = core_state (set_quit (Some 1) w1) ->
              pipeline_calls (trace w') =
                pipeline_calls (trace w1) ++ pipeline_frees (server_ready w1) ->
              options w' = options w /\ settled w').
    { intros w' Hcore Hpw'.
      assert (Hsame : options w' = options w1 /\ server_ready w' = server_ready w1
                      /\ flood_next w' = flood_next w1).
      { unfold core_state in Hcore. simpl in Hcore.
        destruct Hcore as [Hc|Hc]; injection Hc; auto. }
      destruct Hsame as (Ho' & Hr' & Hn').
      split; [congruence|]. unfold settled, cursor_ok.
      rewrite Ho', Hr', Hn', Ho, Hn.
      repeat (split; [assumption|]).
      unfold pipeline_history_ok in *. rewrite Hpw', <- Hpf. exact Hhist. }
    destruct (terminate w1) as [[] w'|f w'|]; [| |exact Ht].
    - destruct Ht as (Hq' & Hcore & Hpw'). destruct (Hs w') as [? ?]; auto.
    - destruct Ht as (_ & Hcore & Hpw'). apply Hs; auto. }
  assert (Hfrees : forall tr ready,
    pipeline_calls (tr ++ pipeline_frees ready) = pipeline_calls tr ++ pipeline_frees ready).
  { intros tr ready. rewrite pipeline_calls_app. f_equal.
    unfold pipeline_frees. destruct (truthy ready); reflexivity. }
  assert (Hhist : forall c, is_pipeline_call c = false ->
    pipeline_history_ok ((trace w ++ [c]) ++ pipeline_frees (server_ready w))).
  { intros c Hc. unfold pipeline_history_ok.
    rewrite Hfrees, pipeline_calls_app, Hp, (pipeline_calls_other c Hc), app_nil_r.
    unfold pipeline_frees.
    destruct Hr as [-> | ->]; simpl; auto. }
  destruct e.
  - (* signal *)
    simpl. unfold signal_handler, BLog, do_call, modify, bind.
    apply Hterm; auto. apply Hhist. reflexivity.
  - (* error *)
    simpl. unfold server_handler_error, BLog, do_call, modify, bind.
    apply Hterm; auto. apply Hhist. reflexivity.
  - (* ready *)
    simpl. destruct (server_handler_ready_cases param_my_id ext_ip w) as (H1 & H2 & H3).
    destruct Hr as [Hr|Hr].
    + rewrite Hr in Hp. change (truthy 0) with false in Hp.
      destruct (SinglePacketBuffer_Init_ok E) eqn:Hok.
      * rewrite H2 by auto. split; [reflexivity|]. left.
        unfold live. cbn.
        rewrite !pipeline_calls_app, Hp. auto 10.
      * rewrite H3 by auto. apply Hterm; simpl; auto.
        -- unfold pipeline_history_ok. rewrite Hr. change (pipeline_frees 0) with (@nil call).
           rewrite app_nil_r, !pipeline_calls_app, Hp. simpl. auto.
    + rewrite H1 by lia. split; [reflexivity|]. apply live_settled. exact Hlive.
  - (* newclient *) 
    destruct (side_channel_dispatch (ev_server_newclient peer_id flags cert cert_len) w eq_refl)
      as [_ Hd].
    destruct (dispatch _ w) as [[] w'|f w'|]; [| |exact Hd].
    + destruct Hd as (_ & p & fmt & ->). split; [reflexivity|]. left.
      apply live_do_call; auto.
    + destruct Hd as (_ & ->). split; [reflexivity|]. apply live_settled. exact Hlive.
  - (* endclient *)
    destruct (side_channel_dispatch (ev_server_endclient peer_id) w eq_refl) as [_ Hd].
    destruct (dispatch _ w) as [[] w'|f w'|]; [| |exact Hd].
    + destruct Hd as (_ & p & fmt & ->). split; [reflexivity|]. left.
      apply live_do_call; auto.
    + destruct Hd as (_ & ->). split; [reflexivity|]. apply live_settled. exact Hlive.
  - (* message *)
    destruct (side_channel_dispatch (ev_server_message peer_id data data_len) w eq_refl)
      as [_ Hd].
    destruct (dispatch _ w) as [[] w'|f w'|]; [| |exact Hd].
    + destruct Hd as (_ & p & fmt & ->). split; [reflexivity|]. left.
      apply live_do_call; auto.
    + destruct Hd as (_ & ->). split; [reflexivity|]. apply live_settled. exact Hlive.
  - (* recv *)
    simpl. unfold bind.
    assert (Hw1 : forall peer_id,
      live (set_trace (trace w ++ [call_BLog BLOG_INFO "message to %d" [peer_id]])
              (set_flood_next ((flood_next w + 1) mod opt_num_floods (options w)) w))).
    { intros peer_id. unfold live, cursor_ok.
      cbn [options server_ready quit trace flood_next set_trace set_flood_next].
      rewrite pipeline_calls_app, Hp. simpl. rewrite app_nil_r.
      repeat (split; [assumption|]). split; [|split; [assumption|reflexivity]].
      intros Hpos. apply Z.mod_pos_bound. exact Hpos. }
    destruct (recv_cases w data data_len Hwf)
      as [(_ & Hrun)|[(Hz & Hrun)|(Hpre & Hpos & peer_id & [(out & len & Hrun)|Hrun])]];
      rewrite Hrun.
    + split; [reflexivity|]. apply live_settled. exact Hlive.
    + unfold ret. split; [reflexivity|]. left.
      unfold live, cursor_ok. cbn. auto 10.
    + unfold ret. split; [reflexivity|]. left. apply Hw1.
    + split; [reflexivity|]. apply live_settled, Hw1.
Qed.

(** C8: the peer-joined, peer-left and inbound-message callbacks stop at
    an assertion when the server is not ready, so they return only while
    it is ready; and however they end, [options] (the target list),
    [server_ready], [my_id], [flood_blocking], [flood_next] and the
    reactor's exit request are as before, and no pipeline object has been
    constructed or released: all they add is a log line. *)
Theorem C8_side_channel_callbacks e w :
  is_side_channel e = true ->
  (server_ready w = 0 -> dispatch e w = Abort AssertFailure w) /\
  (forall w', dispatch e w = Done tt w' ->
     server_ready w <> 0 /\
     exists peer_id fmt, trace w' = trace w ++ [call_BLog BLOG_INFO fmt [peer_id]]) /\
  core_state (world_of (dispatch e w)) = core_state w /\
  pipeline_calls (trace (world_of (dispatch e w))) = pipeline_calls (trace w).
Proof.
  intros He. destruct (side_channel_dispatch e w He) as [Hnot Hd].
  split; [exact Hnot|].
  destruct (dispatch e w) as [[] w1|f w1|w1]; [| |contradiction].
  - destruct Hd as (Hr & peer_id & fmt & ->). split; [|split].
    + intros w' Hw'. injection Hw' as <-. split; [exact Hr|]. eexists _, _. reflexivity.
    + reflexivity.
    + simpl. rewrite pipeline_calls_app. simpl. apply app_nil_r.
  - destruct Hd as (_ & ->). split; [|split]; [discriminate | reflexivity | reflexivity].
Qed.

(** ** The event loop *)

Lemma BReactor_Exec_quit incoming w code :
  quit w = Some code -> BReactor_Exec incoming w = Done code w.
Proof. intros Hq. destruct incoming; simpl; rewrite Hq; reflexivity. Qed.

Lemma BReactor_Exec_step e rest w :
  quit w = None ->
  BReactor_Exec (e :: rest) w =
    match dispatch e (set_trace (trace w ++ [callback e]) w) with
    | Done _ w' => BReactor_Exec rest w'
    | Abort f w' => Abort f w'
    | Waiting w' => Waiting w'
    end.
Proof. intros Hq. simpl. rewrite Hq. reflexivity. Qed.

(** From a live world the loop ends in one of three ways: it is left
    with exit code 1, the process aborts, or it is waiting, still live. *)
Lemma BReactor_Exec_live incoming : forall w,
  live w ->
  match BReactor_Exec incoming w with
  | Done code w' => code = 1 /\ quit w' = Some 1 /\ settled w' /\ options w' = options w
  | Abort _ w' => settled w' /\ options w' = options w
  | Waiting w' => live w' /\ options w' = options w
  end.
Proof.
  induction incoming as [|e rest IH]; intros w Hlive.
  - simpl. destruct Hlive as (Hq & ?). rewrite Hq. split; [|reflexivity].
    unfold live. auto.
  - rewrite BReactor_Exec_step by apply Hlive.
    pose proof (live_do_call (callback e) w eq_refl Hlive) as Hlive1.
    pose proof (dispatch_live e _ Hlive1) as Hd.
    destruct (dispatch e _) as [[] w2|f w2|w2]; [| |contradiction].
    + destruct Hd as (Ho & [Hlive2|(Hq2 & Hs2)]).
      * specialize (IH w2 Hlive2). simpl in Ho.
        destruct (BReactor_Exec rest w2); rewrite <- Ho; exact IH.
      * rewrite (BReactor_Exec_quit rest w2 1 Hq2). auto.
    + destruct Hd as (Ho & Hs). auto.
Qed.

(** Delivering [incoming1] and then [incoming2] is delivering
    [incoming2] in the world [incoming1] leaves the loop waiting in. *)
Lemma BReactor_Exec_app incoming1 incoming2 : forall w,
  live w ->
  BReactor_Exec (incoming1 ++ incoming2) w =
    match BReactor_Exec incoming1 w with
    | Waiting w' => BReactor_Exec incoming2 w'
    | r => r
    end.
Proof.
  induction incoming1 as [|e rest IH]; intros w Hlive.
  - simpl app. destruct Hlive as (Hq & _).
    change (BReactor_Exec [] w) with
      (match quit w with Some code => Done code w | None => Waiting w end).
    rewrite Hq. reflexivity.
  - simpl app. rewrite !BReactor_Exec_step by apply Hlive.
    pose proof (live_do_call (callback e) w eq_refl Hlive) as Hlive1.
    pose proof (dispatch_live e _ Hlive1) as Hd.
    destruct (dispatch e _) as [[] w2|f w2|w2]; [| reflexivity | contradiction].
    destruct Hd as (_ & [Hlive2|(Hq2 & _)]).
    + apply IH. exact Hlive2.
    + rewrite !(BReactor_Exec_quit _ w2 1 Hq2). reflexivity.
Qed.

Lemma leave_loop_run code w :
  leave_loop code w = Done code (set_trace (trace w ++ exit_calls) w).
Proof. unfold leave_loop, exit_calls. prog_simpl. world_norm. reflexivity. Qed.

Lemma settled_exit_calls w : settled w -> settled (set_trace (trace w ++ exit_calls) w).
Proof.
  intros (Hwf & Hcur & Hr & Hh). unfold settled, pipeline_history_ok in *.
  cbn [options server_ready trace set_trace]. unfold cursor_ok in *.
  rewrite pipeline_calls_app. simpl. rewrite app_nil_r. auto.
Qed.

(** ** Argument parsing *)

Lemma args_ind (P : list string -> Prop) :
  (forall args, (forall args', (length args' < length args)%nat -> P args') -> P args) ->
  forall args, P args.
Proof.
  intros Hstep args. remember (length args) as n eqn:Hn. revert args Hn.
  induction n as [n IH] using lt_wf_ind. intros args ->.
  apply Hstep. intros args' Hlt. apply (IH (length args')); [exact Hlt | reflexivity].
Qed.

Hypothesis MAX_FLOODS_range : 0 <= MAX_FLOODS <= INT_MAX.

(** Whatever the command line and however parsing ends, the targets
    recorded so far fit the array. *)
Lemma parse_loop_floods_fit args : forall o,
  floods_fit o -> floods_fit (parse_options (parse_loop args o)).
Proof.
  induction args as [args IH] using args_ind. intros o Hfit.
  destruct args as [|arg rest]; [exact Hfit|].
  option_cases arg; simpl.
  14: { repeat match goal with H : _ <> _ |- _ => apply String.eqb_neq in H; rewrite H end.
        exact Hfit. }
  all: try (apply IH; [simpl; lia | exact Hfit]).
  all: destruct rest as [|arg2 rest]; try exact Hfit.
  all: try (apply IH; [simpl; lia | exact Hfit]).
  - (* --logger *)
    destruct (String.eqb arg2 "stdout"); [apply IH; [simpl; lia | exact Hfit]|].
    destruct (String.eqb arg2 "syslog"); [apply IH; [simpl; lia | exact Hfit]|].
    exact Hfit.
  - (* --loglevel *)
    destruct (parse_loglevel arg2 <? 0); [exact Hfit|].
    apply IH; [simpl; lia | exact Hfit].
  - (* --channel-loglevel *)
    destruct rest as [|arg3 rest]; [exact Hfit|].
    destruct (BLogGlobal_GetChannelByName arg2 <? 0); [exact Hfit|].
    destruct (parse_loglevel arg3 <? 0); [exact Hfit|].
    apply IH; [simpl; lia | exact Hfit].
  - (* --flood-id *)
    destruct (Z.eqb_spec (opt_num_floods o) MAX_FLOODS) as [|Hne]; [exact Hfit|].
    apply IH; [simpl; lia|].
    destruct Hfit as [Hlen Hnum]. unfold floods_fit. simpl.
    rewrite length_insert. split; [exact Hlen|].
    rewrite to_int_id by (unfold is_int, INT_MIN, INT_MAX in *; lia). lia.
Qed.
Lemma TargetList_snoc o v :
  floods_fit o -> opt_num_floods o <> MAX_FLOODS ->
  TargetList (set_num_floods (to_int (opt_num_floods o + 1))
                (set_floods (<[Z.to_nat (opt_num_floods o) := v]> (opt_floods o)) o))
  = TargetList o ++ [v].
Proof.
  intros [Hlen Hnum] Hne. unfold TargetList. simpl.
  rewrite to_int_id by (unfold is_int, INT_MIN, INT_MAX in *; lia).
  replace (Z.to_nat (opt_num_floods o + 1)) with (S (Z.to_nat (opt_num_floods o))) by lia.
  rewrite (take_S_r _ _ v) by (apply list_lookup_insert_eq; lia).
  rewrite take_insert_ge by lia. reflexivity.
Qed.

(** What a successful run of the argument loop has recorded, in terms
    of the options given. *)
Lemma parse_loop_ok args : forall o o',
  floods_fit o ->
  parse_loop args o = ParseOk o' ->
  opt_help o' = (if given "--help" args then 1 else opt_help o) /\
  opt_version o' = (if given "--version" args then 1 else opt_version o) /\
  opt_ssl o' = (if given "--ssl" args then 1 else opt_ssl o) /\
  not_not (opt_nssdb o') = (if given "--nssdb" args then 1 else not_not (opt_nssdb o)) /\
  not_not (opt_client_cert_name o') =
    (if given "--client-cert-name" args then 1 else not_not (opt_client_cert_name o)) /\
  not_not (opt_server_addr o') =
    (if given "--server-addr" args then 1 else not_not (opt_server_addr o)) /\
  opt_num_floods o' = opt_num_floods o + Z.of_nat (count_given "--flood-id" args) /\
  TargetList o' = TargetList o ++ ((fun a => to_peerid (atoi a)) <$> flood_ids_given args).
Proof.
  induction args as [args IH] using args_ind. intros o o' Hfit Hrun.
  destruct args as [|arg rest].
  { injection Hrun as <-. unfold given, count_given, flood_ids_given. simpl.
    rewrite app_nil_r. repeat split; lia. }
  assert (Hstep : forall rest' o1,
    (length rest' < length (arg :: rest))%nat ->
    floods_fit o1 -> parse_loop rest' o1 = ParseOk o' ->
    forall P : Prop,
    (opt_help o' = (if given "--help" rest' then 1 else opt_help o1) ->
     opt_version o' = (if given "--version" rest' then 1 else opt_version o1) ->
     opt_ssl o' = (if given "--ssl" rest' then 1 else opt_ssl o1) ->
     not_not (opt_nssdb o') = (if given "--nssdb" rest' then 1 else not_not (opt_nssdb o1)) ->
     not_not (opt_client_cert_name o') =
       (if given "--client-cert-name" rest' then 1 else not_not (opt_client_cert_name o1)) ->
     not_not (opt_server_addr o') =
       (if given "--server-addr" rest' then 1 else not_not (opt_server_addr o1)) ->
     opt_num_floods o' = opt_num_floods o1 + Z.of_nat (count_given "--flood-id" rest') ->
     TargetList o' = TargetList o1 ++ ((fun a => to_peerid (atoi a)) <$> flood_ids_given rest') ->
     P) -> P).
  { intros rest' o1 Hlt Hfit1 Hrun1 P HP.
    destruct (IH rest' Hlt o1 o' Hfit1 Hrun1) as (?&?&?&?&?&?&?&?). auto. }
  option_cases arg; simpl in Hrun.
  14: { repeat match goal with H : _ <> _ |- _ => apply String.eqb_neq in H; rewrite H in Hrun end.
        discriminate Hrun. }
  all: try solve [refine (Hstep _ _ _ _ Hrun _ _);
                  [simpl; lia | exact Hfit | intros; clear IH Hstep; finish_case]].
  all: destruct rest as [|arg2 rest]; try discriminate Hrun.
  all: try solve [refine (Hstep _ _ _ _ Hrun _ _);
                  [simpl; lia | exact Hfit | intros; clear IH Hstep; finish_case]].
  - (* --logger *)
    destruct (String.eqb arg2 "stdout");
      [refine (Hstep _ _ _ _ Hrun _ _);
         [simpl; lia | exact Hfit | intros; clear IH Hstep; finish_case]|].
    destruct (String.eqb arg2 "syslog"); [|discriminate Hrun].
    refine (Hstep _ _ _ _ Hrun _ _);
      [simpl; lia | exact Hfit | intros; clear IH Hstep; finish_case].
  - (* --loglevel *)
    destruct (parse_loglevel arg2 <? 0); [discriminate Hrun|].
    refine (Hstep _ _ _ _ Hrun _ _);
      [simpl; lia | exact Hfit | intros; clear IH Hstep; finish_case].
  - (* --channel-loglevel *)
    destruct rest as [|arg3 rest]; [discriminate Hrun|].
    destruct (BLogGlobal_GetChannelByName arg2 <? 0); [discriminate Hrun|].
    destruct (parse_loglevel arg3 <? 0); [discriminate Hrun|].
    refine (Hstep _ _ _ _ Hrun _ _);
      [simpl; lia | exact Hfit | intros; clear IH Hstep; finish_case].
  - (* --flood-id *)
    destruct (Z.eqb_spec (opt_num_floods o) MAX_FLOODS) as [|Hne]; [discriminate Hrun|].
    pose proof (TargetList_snoc o (to_peerid (atoi arg2)) Hfit Hne) as Hsnoc.
    refine (Hstep _ _ _ _ Hrun _ _); [simpl; lia | |].
    { destruct Hfit as [Hlen Hnum]. unfold floods_fit. simpl.
      rewrite length_insert. split; [exact Hlen|].
      rewrite to_int_id by (unfold is_int, INT_MIN, INT_MAX in *; lia). lia. }
    intros H1 H2 H3 H4 H5 H6 H7 H8. clear IH Hstep.
    rewrite Hsnoc in H8. simpl in H7.
    rewrite to_int_id in H7
      by (destruct Hfit; unfold is_int, INT_MIN, INT_MAX in *; lia).
    finish_case. rewrite H8, <- app_assoc. reflexivity.
Qed.

(** A well-formed command line passes the argument loop. *)
Lemma parse_loop_well_formed args : forall o,
  floods_fit o ->
  forallb entry_ok (options_given args) = true ->
  opt_num_floods o + Z.of_nat (count_given "--flood-id" args) <= MAX_FLOODS ->
  exists o', parse_loop args o = ParseOk o'.
Proof.
  induction args as [args IH] using args_ind. intros o Hfit Hok Hcount.
  destruct args as [|arg rest]; [exists o; reflexivity|].
  unfold count_given in *.
  option_cases arg; simpl in Hok, Hcount |- *.
  14: { exfalso.
        assert (Harity : option_arity arg = None).
        { unfold option_arity.
          repeat match goal with
                 | H : _ <> _ |- _ => apply String.eqb_neq in H; rewrite H
                 end.
          reflexivity. }
        rewrite Harity in Hok. unfold entry_ok in Hok. simpl in Hok.
        rewrite Harity in Hok. discriminate Hok. }
  all: try solve [apply IH; [simpl; lia | exact Hfit | exact Hok | exact Hcount]].
  all: destruct rest as [|arg2 rest];
    unfold entry_ok in Hok; simpl in Hok, Hcount; try discriminate Hok.
  all: try solve [apply IH; [simpl; lia | exact Hfit | exact Hok | exact Hcount]].
  - (* --logger *)
    apply andb_prop in Hok as [Harg Hok].
    destruct (String.eqb arg2 "stdout");
      [apply IH; [simpl; lia | exact Hfit | exact Hok | exact Hcount]|].
    destruct (String.eqb arg2 "syslog"); [|discriminate Harg].
    apply IH; [simpl; lia | exact Hfit | exact Hok | exact Hcount].
  - (* --loglevel *)
    apply andb_prop in Hok as [Harg Hok]. apply Z.leb_le in Harg.
    destruct (Z.ltb_spec (parse_loglevel arg2) 0); [lia|].
    apply IH; [simpl; lia | exact Hfit | exact Hok | exact Hcount].
  - (* --channel-loglevel *)
    destruct rest as [|arg3 rest]; simpl in Hok, Hcount; [discriminate Hok|].
    apply andb_prop in Hok as [Harg Hok]. apply andb_prop in Harg as [Hch Hll].
    apply Z.leb_le in Hch, Hll.
    destruct (Z.ltb_spec (BLogGlobal_GetChannelByName arg2) 0); [lia|].
    destruct (Z.ltb_spec (parse_loglevel arg3) 0); [lia|].
    apply IH; [simpl; lia | exact Hfit | exact Hok | exact Hcount].
  - (* --flood-id *)
    destruct (Z.eqb_spec (opt_num_floods o) MAX_FLOODS) as [Heq|Hne]; [lia|].
    apply IH; [simpl; lia | | exact Hok |].
    + destruct Hfit as [Hlen Hnum]. unfold floods_fit. simpl.
      rewrite length_insert. split; [exact Hlen|].
      rewrite to_int_id by (unfold is_int, INT_MIN, INT_MAX in *; lia). lia.
    + simpl. rewrite to_int_id
        by (destruct Hfit; unfold is_int, INT_MIN, INT_MAX in *; lia). lia.
Qed.

(** ** The process as a whole *)

Lemma parse_arguments_options argv0 args o :
  parse_options (parse_arguments (argv0 :: args) o)
  = parse_options (parse_loop args (default_options argv0 o)).
Proof.
  unfold parse_arguments. destruct (parse_loop args _) as [o'|d o']; [|reflexivity].
  unfold parse_validate.
  repeat match goal with |- context [if ?b then _ else _] => destruct b end; reflexivity.
Qed.

Lemma floods_fit_default argv0 : floods_fit (default_options argv0 initial_options).
Proof. unfold floods_fit. simpl. rewrite length_replicate. lia. Qed.

Lemma floods_fit_wf o : floods_fit o -> wf_options o.
Proof. intros [Hlen Hnum]. unfold wf_options. lia. Qed.

Lemma wf_parsed_options argv : wf_options (parsed_options argv).
Proof.
  apply floods_fit_wf. destruct argv as [|argv0 args].
  - unfold floods_fit. simpl. rewrite length_replicate. lia.
  - unfold parsed_options. rewrite parse_arguments_options.
    apply parse_loop_floods_fit, floods_fit_default.
Qed.

Lemma starting_live w :
  starting true w -> wf_options (options w) -> live w.
Proof.
  intros (Hr & _ & _ & Hn & Hq & Hp & _) Hwf. unfold live, cursor_ok.
  rewrite Hr, Hn, Hp. change (truthy 0) with false.
  repeat (split; auto). lia.
Qed.

Lemma starting_settled b w :
  starting b w -> wf_options (options w) -> settled w.
Proof.
  intros (Hr & _ & _ & Hn & Hq & Hp & _) Hwf. unfold settled, cursor_ok, pipeline_history_ok.
  rewrite Hn. repeat (split; auto). lia.
Qed.

(** The world in which [main] enters the event loop, if it does. *)
Lemma run_process_enters argv w0 :
  run_process argv [] = Waiting w0 ->
  starting true w0 /\ live w0 /\ options w0 = parsed_options argv /\
  parse_ret (parse_arguments argv initial_options) = 1 /\
  forall incoming, run_process argv incoming = bind (BReactor_Exec incoming) leave_loop w0.
Proof.
  intros Hrun.
  destruct (run_process_boot argv) as [(w & Hw & Ho & Hret & Hall)|(r & Hall & Hr)].
  - pose proof (Hall []) as H0. rewrite Hrun in H0. unfold bind in H0. simpl in H0.
    destruct Hw as (H1 & H2 & H3 & H4 & Hq & H5). rewrite Hq in H0.
    injection H0 as ->.
    assert (Hst : starting true w) by (unfold starting; auto 10).
    split; [exact Hst|]. split; [|auto].
    apply starting_live; [exact Hst|]. rewrite Ho. apply wf_parsed_options.
  - rewrite Hall in Hrun. subst r. contradiction.
Qed.

Lemma run_process_not_entered argv :
  (forall w0, run_process argv [] <> Waiting w0) ->
  forall incoming,
    run_process argv incoming = run_process argv [] /\
    starting false (world_of (run_process argv [])) /\
    options (world_of (run_process argv [])) = parsed_options argv.
Proof.
  intros Hno incoming.
  destruct (run_process_boot argv) as [(w & Hw & Ho & Hret & Hall)|(r & Hall & Hr)].
  - exfalso. apply (Hno w). rewrite Hall. unfold bind. simpl.
    destruct Hw as (_ & _ & _ & _ & Hq & _). rewrite Hq. reflexivity.
  - rewrite !Hall. split; [reflexivity|]. destruct r; [exact Hr | exact Hr | contradiction].
Qed.

Lemma run_process_entered_or_not argv :
  (exists w0, run_process argv [] = Waiting w0) \/
  (forall w0, run_process argv [] <> Waiting w0).
Proof.
  destruct (run_process argv []) as [c w|f w|w]; [right|right|left]; eauto; discriminate.
Qed.

(** Whatever the command line and the callbacks, the world the process
    ends in, or is waiting in, is settled. *)
Lemma run_process_settled argv incoming :
  settled (world_of (run_process argv incoming)) /\
  options (world_of (run_process argv incoming)) = parsed_options argv.
Proof.
  destruct (run_process_entered_or_not argv) as [[w0 Hw0]|Hno].
  - destruct (run_process_enters argv w0 Hw0) as (_ & Hlive & Ho & _ & Hall).
    rewrite Hall. unfold bind.
    pose proof (BReactor_Exec_live incoming w0 Hlive) as Hx.
    destruct (BReactor_Exec incoming w0) as [c w|f w|w].
    + destruct Hx as (_ & _ & Hs & Ho'). rewrite leave_loop_run. simpl.
      split; [apply settled_exit_calls, Hs | congruence].
    + destruct Hx as (Hs & Ho'). simpl. split; [exact Hs | congruence].
    + destruct Hx as (Hl & Ho'). simpl. split; [apply live_settled, Hl | congruence].
  - destruct (run_process_not_entered argv Hno incoming) as (-> & Hs & Ho).
    split; [|exact Ho]. apply (starting_settled false); [exact Hs|].
    rewrite Ho. apply wf_parsed_options.
Qed.

(** A process waiting in the loop is in a live world, and further
    callbacks are delivered from there; a process that has ended is not
    affected by later callbacks. *)
Lemma run_process_app argv incoming1 incoming2 :
  run_process argv (incoming1 ++ incoming2) =
    match run_process argv incoming1 with
    | Waiting w => bind (BReactor_Exec incoming2) leave_loop w
    | r => r
    end.
Proof.
  destruct (run_process_entered_or_not argv) as [[w0 Hw0]|Hno].
  - destruct (run_process_enters argv w0 Hw0) as (_ & Hlive & _ & _ & Hall).
    rewrite !Hall. unfold bind. rewrite BReactor_Exec_app by exact Hlive.
    destruct (BReactor_Exec incoming1 w0) as [c w|f w|w]; reflexivity.
  - destruct (run_process_not_entered argv Hno (incoming1 ++ incoming2)) as (-> & _).
    destruct (run_process_not_entered argv Hno incoming1) as (-> & _).
    destruct (run_process argv []) as [c w|f w|w] eqn:Hr; try reflexivity.
    exfalso. apply (Hno w). reflexivity.
Qed.

Lemma run_process_waiting argv incoming w :
  run_process argv incoming = Waiting w ->
  live w /\ options w = parsed_options argv.
Proof.
  intros Hrun.
  destruct (run_process_entered_or_not argv) as [[w0 Hw0]|Hno].
  - destruct (run_process_enters argv w0 Hw0) as (_ & Hlive & Ho & _ & Hall).
    rewrite Hall in Hrun. unfold bind in Hrun.
    pose proof (BReactor_Exec_live incoming w0 Hlive) as Hx.
    destruct (BReactor_Exec incoming w0) as [c w1|f w1|w1]; try discriminate Hrun.
    injection Hrun as <-. destruct Hx as [Hl Ho']. split; [exact Hl | congruence].
  - destruct (run_process_not_entered argv Hno incoming) as (Heq & _).
    exfalso. rewrite Heq in Hrun. apply (Hno w). exact Hrun.
Qed.

Lemma run_process_step argv incoming e rest w :
  run_process argv incoming = Waiting w ->
  run_process argv (incoming ++ e :: rest) =
    match dispatch e (set_trace (trace w ++ [callback e]) w) with
    | Done _ w' => bind (BReactor_Exec rest) leave_loop w'
    | Abort f w' => Abort f w'
    | Waiting w' => Waiting w'
    end.
Proof.
  intros Hrun. rewrite run_process_app, Hrun.
  destruct (run_process_waiting _ _ _ Hrun) as [(Hq & _) _].
  unfold bind at 1. rewrite BReactor_Exec_step by exact Hq.
  destruct (dispatch e _); reflexivity.
Qed.

(** C5: whenever TargetList is non-empty the cursor [flood_next] lies in
    [0, num_floods): in the world of every outcome of the process,
    whatever the command line and the callbacks delivered, hence before
    and after every callback; any callback dispatched in a world the
    loop is waiting in leaves it so; and a pull that returns a payload
    there has advanced the cursor by exactly one modulo [num_floods]. *)
Theorem C5_cursor_invariant argv incoming :
  cursor_ok (world_of (run_process argv incoming)) /\
  (forall w e,
     run_process argv incoming = Waiting w ->
     cursor_ok w /\ cursor_ok (world_of (dispatch e w)) /\
     cursor_ok (world_of (run_process argv (incoming ++ [e])))) /\
  (forall w data data_len out len w',
     run_process argv incoming = Waiting w ->
     flood_source_handler_recv data data_len w = Done (1, out, len) w' ->
     0 <= flood_next w < opt_num_floods (options w) /\
     flood_next w' = (flood_next w + 1) mod opt_num_floods (options w) /\
     0 <= flood_next w' < opt_num_floods (options w')).
Proof.
  split; [apply run_process_settled|]. split.
  - intros w e Hrun. destruct (run_process_waiting _ _ _ Hrun) as [Hlive _].
    split; [apply Hlive|]. split; [|apply run_process_settled].
    pose proof (dispatch_live e w Hlive) as Hd.
    destruct (dispatch e w) as [[] w'|f w'|w']; [| |contradiction]; simpl.
    + destruct Hd as (_ & [Hl|(_ & Hs)]); [apply Hl | apply Hs].
    + apply Hd.
  - intros w data data_len out len w' Hrun Hrecv.
    destruct (run_process_waiting _ _ _ Hrun) as [(_ & Hwf & _) _].
    destruct (recv_cases w data data_len Hwf)
      as [(_ & Hr)|[(Hz & Hr)|(Hpre & Hpos & peer_id & [(out' & len' & Hr)|Hr])]];
      rewrite Hr in Hrecv; try discriminate Hrecv.
    injection Hrecv as _ _ <-. simpl.
    split; [apply Hpre, Hpos|]. split; [reflexivity|].
    apply Z.mod_pos_bound. exact Hpos.
Qed.

(** ** Readiness *)







Lemma released_pipeline obj tr :
  released obj tr = released obj (pipeline_calls tr).
Proof.
  unfold released, pipeline_calls. induction tr as [|c tr IH]; [reflexivity|].
  simpl. destruct (is_pipeline_call c) eqn:Hc; simpl.
  - destruct (releases obj c); simpl; rewrite IH; reflexivity.
  - replace (releases obj c) with false; [exact IH|].
    destruct obj, c; try reflexivity; discriminate Hc.
Qed.


Lemma released_app obj tr1 tr2 :
  released obj (tr1 ++ tr2) = (released obj tr1 + released obj tr2)%nat.
Proof. unfold released. rewrite List.filter_app, length_app. reflexivity. Qed.



(** One more callback, seen from the process. *)
Lemma step_outcome argv incoming e w :
  run_process argv incoming = Waiting w ->
  (exists w', dispatch e (set_trace (trace w ++ [callback e]) w) = Done tt w' /\
              quit w' = None /\
              run_process argv (incoming ++ [e]) = Waiting w')
  \/ (exists w', dispatch e (set_trace (trace w ++ [callback e]) w) = Done tt w' /\
                 quit w' = Some 1 /\
                 run_process argv (incoming ++ [e]) =
                   Done 1 (set_trace (trace w' ++ exit_calls) w'))
  \/ (exists f w', dispatch e (set_trace (trace w ++ [callback e]) w) = Abort f w' /\
                   run_process argv (incoming ++ [e]) = Abort f w').
Proof.
  intros Hrun. rewrite (run_process_step argv incoming e [] w Hrun).
  destruct (run_process_waiting _ _ _ Hrun) as [Hlive _].
  pose proof (live_do_call (callback e) w eq_refl Hlive) as Hlive1.
  pose proof (dispatch_live e _ Hlive1) as Hd.
  destruct (dispatch e _) as [[] w'|f w'|w']; [| |contradiction].
  - destruct Hd as (_ & [Hl|(Hq & _)]).
    + left. exists w'. destruct Hl as (Hq & _).
      unfold bind. simpl. rewrite Hq. auto.
    + right; left. exists w'. unfold bind. simpl. rewrite Hq.
      rewrite leave_loop_run. auto.
  - right; right. eauto.
Qed.






(** ** Teardown of the process *)

Lemma released_tls obj o : released obj (tls_teardown o) = O.
Proof. unfold tls_teardown. destruct (truthy (opt_ssl o)), obj; reflexivity. Qed.

Lemma recv_callbacks_tls o : List.filter is_recv_callback (tls_teardown o) = [].
Proof. unfold tls_teardown. destruct (truthy (opt_ssl o)); reflexivity. Qed.

(** When a forced assertion of its TLS block fails, [terminate] stops
    there. *)
Lemma terminate_abort w :
  tls_teardown_ok (options w) = false ->
  terminate w = Abort AssertFailure (add_calls (teardown_abort_calls w) w).
Proof.
  unfold tls_teardown_ok, teardown_abort_calls, pipeline_frees, terminate, add_calls.
  intros Hno. prog_simpl. world_norm.
  destruct (truthy (server_ready w)); prog_simpl; world_norm;
    (destruct (truthy (opt_ssl (options w))); [|discriminate Hno]; simpl in Hno;
     prog_simpl; world_norm;
     destruct (SSL_ShutdownServerSessionIDCache_ok E); prog_simpl; world_norm;
     [ destruct (NSS_Shutdown_ok E); prog_simpl; world_norm;
       [ destruct (PR_Cleanup_ok E); prog_simpl; world_norm; [discriminate Hno|] | ] | ]);
    reflexivity.
Qed.

(** C7, amended: when a transport error callback or the termination
    signal is delivered while the server is ready, the process releases
    the buffer, then the encoder, then the source, then the server
    connection; over the whole process each of the three pipeline objects
    has then been released exactly once, and no callback delivered
    afterwards, a pull of the packet source included, is dispatched.
    When the forced assertions of the TLS block of [terminate] hold (no
    [--ssl], or the three shutdown calls succeed), the reactor is asked
    to quit with code 1 and [main] returns 1.  When one of them fails,
    the process stops at that assertion instead: the reactor is not asked
    to quit and [main] does not return. *)
Theorem C7_teardown_when_ready argv incoming e rest w :
  run_process argv incoming = Waiting w ->
  server_ready w <> 0 ->
  e = ev_server_error \/ e = ev_signal ->
  exists w',
    w' = world_of (run_process argv (incoming ++ e :: rest)) /\
    (exists rest_of_teardown,
       trace w' =
         trace w
           ++ [callback e; termination_log e;
               call_BLog BLOG_NOTICE "tearing down" [];
               call_SinglePacketBuffer_Free; call_PacketProtoEncoder_Free;
               call_PacketRecvInterface_Free; call_ServerConnection_Free]
           ++ rest_of_teardown) /\
    (forall obj, released obj (trace w') = 1%nat) /\
    List.filter is_recv_callback (drop (length (trace w)) (trace w')) = [] /\
    (tls_teardown_ok (options w) = true ->
     run_process argv (incoming ++ e :: rest) = Done 1 w' /\
     quit w' = Some 1 /\
     trace w' =
       trace w
         ++ [callback e; termination_log e;
             call_BLog BLOG_NOTICE "tearing down" [];
             call_SinglePacketBuffer_Free; call_PacketProtoEncoder_Free;
             call_PacketRecvInterface_Free; call_ServerConnection_Free]
         ++ tls_teardown (options w)
         ++ [call_BSignal_RemoveHandler; call_DEAD_KILL; call_BReactor_Quit 1]
         ++ exit_calls) /\
    (tls_teardown_ok (options w) = false ->
     run_process argv (incoming ++ e :: rest) = Abort AssertFailure w' /\
     quit w' = None /\
     trace w' = trace w ++ [callback e; termination_log e] ++ teardown_abort_calls w /\
     (forall code, call_BReactor_Quit code ∉ teardown_abort_calls w)).
Proof.
  intros Hrun Hready He.
  destruct (run_process_waiting _ _ _ Hrun) as [(Hq & _ & _ & _ & Hp) _].
  rewrite (truthy_nonzero _ Hready) in Hp.
  set (w1 := set_trace (trace w ++ [callback e; termination_log e]) w).
  assert (Hd : dispatch e (set_trace (trace w ++ [callback e]) w) = terminate w1).
  { subst w1. destruct He as [-> | ->]; simpl;
      unfold server_handler_error, signal_handler; prog_simpl; world_norm; reflexivity. }
  rewrite (run_process_step argv incoming e rest w Hrun), Hd.
  destruct (tls_teardown_ok (options w)) eqn:Htls.
  - rewrite (terminate_ok w1 Htls).
    unfold bind. rewrite (BReactor_Exec_quit rest _ 1) by reflexivity.
    rewrite leave_loop_run.
    eexists. split; [reflexivity|]. cbn [world_of].
    assert (Htrace :
      trace (set_trace
               (trace (set_quit (Some 1) (set_trace (trace w1 ++ teardown_calls w1) w1))
                  ++ exit_calls)
               (set_quit (Some 1) (set_trace (trace w1 ++ teardown_calls w1) w1)))
      = trace w
          ++ [callback e; termination_log e;
              call_BLog BLOG_NOTICE "tearing down" [];
              call_SinglePacketBuffer_Free; call_PacketProtoEncoder_Free;
              call_PacketRecvInterface_Free; call_ServerConnection_Free]
          ++ tls_teardown (options w)
          ++ [call_BSignal_RemoveHandler; call_DEAD_KILL; call_BReactor_Quit 1]
          ++ exit_calls).
    { subst w1. unfold teardown_calls, pipeline_frees. world_norm.
      rewrite (truthy_nonzero _ Hready). reflexivity. }
    split; [eexists; exact Htrace|]. rewrite Htrace. split; [|split; [|split]].
    + intros obj. rewrite !released_app, released_tls.
      rewrite (released_pipeline obj (trace w)), Hp.
      destruct obj, He as [-> | ->]; reflexivity.
    + rewrite drop_app_length. rewrite !List.filter_app, recv_callbacks_tls.
      destruct He as [-> | ->]; reflexivity.
    + intros _. split; [reflexivity|]. split; reflexivity.
    + intros Hno. discriminate Hno.
  - rewrite (terminate_abort w1 Htls).
    eexists. split; [reflexivity|]. cbn [world_of].
    assert (Htrace :
      trace (add_calls (teardown_abort_calls w1) w1)
      = trace w ++ [callback e; termination_log e] ++ teardown_abort_calls w).
    { subst w1. unfold teardown_abort_calls, add_calls. world_norm. reflexivity. }
    assert (Hquit : quit (add_calls (teardown_abort_calls w1) w1) = None).
    { subst w1. unfold add_calls. world_norm. exact Hq. }
    rewrite Htrace. unfold teardown_abort_calls, pipeline_frees.
    rewrite (truthy_nonzero _ Hready).
    split; [|split; [|split; [|split]]].
    + eexists. cbn [app]. reflexivity.
    + intros obj. rewrite !released_app.
      rewrite (released_pipeline obj (trace w)), Hp.
      destruct obj, He as [-> | ->], (SSL_ShutdownServerSessionIDCache_ok E),
        (NSS_Shutdown_ok E); reflexivity.
    + rewrite drop_app_length. rewrite !List.filter_app.
      destruct He as [-> | ->], (SSL_ShutdownServerSessionIDCache_ok E),
        (NSS_Shutdown_ok E); reflexivity.
    + intros Hyes. discriminate Hyes.
    + intros _. split; [reflexivity|]. split; [exact Hquit|]. split; [reflexivity|].
      intros code.
      destruct (SSL_ShutdownServerSessionIDCache_ok E), (NSS_Shutdown_ok E);
        cbn [app]; list_mem.
Qed.


(** ** Argument errors and the exit code *)

Lemma run_process_parse_failure argv0 args incoming :
  parse_ret (parse_arguments (argv0 :: args) initial_options) = 0 ->
  run_process (argv0 :: args) incoming =
    Done 1 (mk_world (parse_options (parse_arguments (argv0 :: args) initial_options))
              0 0 0 0 None
              [call_DEAD_INIT; call_fprintf_stderr "Failed to parse arguments";
               call_print_help argv0; call_DebugObjectGlobal_Finish]).
Proof.
  intros Hret. unfold run_process, main, fail0, initial_world. prog_simpl. world_norm.
  rewrite Hret. reflexivity.
Qed.

Lemma run_process_help argv0 args incoming :
  parse_ret (parse_arguments (argv0 :: args) initial_options) = 1 ->
  truthy (opt_help (parse_options (parse_arguments (argv0 :: args) initial_options)))
  || truthy (opt_version (parse_options (parse_arguments (argv0 :: args) initial_options)))
  = true ->
  exists tr,
    run_process (argv0 :: args) incoming =
      Done 0 (mk_world (parse_options (parse_arguments (argv0 :: args) initial_options))
                0 0 0 0 None (call_DEAD_INIT :: call_print_version :: tr)) /\
    (tr = [call_print_help argv0] \/ tr = []).
Proof.
  intros Hret Hhv. unfold run_process, main, initial_world. prog_simpl. world_norm.
  rewrite Hret. change (truthy 1) with true. prog_simpl. world_norm.
  destruct (truthy (opt_help _)) eqn:Hh; prog_simpl; world_norm.
  - eexists. split; [reflexivity | auto].
  - cbn [orb] in Hhv. rewrite Hhv. prog_simpl. world_norm.
    eexists. split; [reflexivity | auto].
Qed.

Lemma parse_arguments_loop argv0 args :
  parse_arguments (argv0 :: args) initial_options =
    match parse_loop args (default_options argv0 initial_options) with
    | ParseOk o' => parse_validate o'
    | ParseFail d o' => ParseFail d o'
    end.
Proof. reflexivity. Qed.

Lemma TargetList_default argv0 : TargetList (default_options argv0 initial_options) = [].
Proof. reflexivity. Qed.

Lemma parse_validate_ok o o' : parse_validate o = ParseOk o' -> o' = o.
Proof.
  unfold parse_validate.
  repeat match goal with |- context [if ?b then _ else _] => destruct b end;
    intros H; try discriminate H; injection H as <-; reflexivity.
Qed.

(** C9: [parse_arguments] returns 0, and [main] then exits with code 1
    without entering the event loop, when neither [--help] nor [--version]
    is given and [--server-addr] is missing or [--ssl] is not given
    exactly when [--nssdb] is and exactly when [--client-cert-name] is, and
    also when more than [MAX_FLOODS] [--flood-id] options are given; when
    [--help] or [--version] is given on a well-formed command line the
    checks are skipped and [main] exits with code 0 without entering the
    event loop; and after a successful parse TargetList holds the
    [--flood-id] operands, converted by [atoi] to peer identifiers, in
    command-line order. *)
Theorem C9_argument_errors argv0 args incoming :
  (given "--help" args = false -> given "--version" args = false ->
   given "--server-addr" args = false
   \/ given "--ssl" args <> given "--nssdb" args
   \/ given "--ssl" args <> given "--client-cert-name" args ->
   parse_ret (parse_arguments (argv0 :: args) initial_options) = 0 /\
   exits_without_loop (argv0 :: args) incoming 1) /\
  (MAX_FLOODS < Z.of_nat (count_given "--flood-id" args) ->
   parse_ret (parse_arguments (argv0 :: args) initial_options) = 0 /\
   exits_without_loop (argv0 :: args) incoming 1) /\
  (well_formed args = true ->
   given "--help" args || given "--version" args = true ->
   parse_ret (parse_arguments (argv0 :: args) initial_options) = 1 /\
   exits_without_loop (argv0 :: args) incoming 0) /\
  (forall o',
     parse_arguments (argv0 :: args) initial_options = ParseOk o' ->
     TargetList o' = (fun a => to_peerid (atoi a)) <$> flood_ids_given args).
Proof.
  pose proof (floods_fit_default argv0) as Hfit.
  assert (Hfail : parse_ret (parse_arguments (argv0 :: args) initial_options) = 0 ->
            parse_ret (parse_arguments (argv0 :: args) initial_options) = 0 /\
            exits_without_loop (argv0 :: args) incoming 1).
  { intros Hret. split; [exact Hret|]. unfold exits_without_loop.
    rewrite (run_process_parse_failure argv0 args incoming Hret).
    eexists. split; reflexivity. }
  split; [|split; [|split]].
  - intros Hhelp Hversion Hbad. apply Hfail. rewrite parse_arguments_loop.
    destruct (parse_loop args _) as [o'|d o'] eqn:Hloop; [|reflexivity].
    destruct (parse_loop_ok args _ o' Hfit Hloop)
      as (H1 & H2 & H3 & H4 & H5 & H6 & _).
    rewrite Hhelp in H1. rewrite Hversion in H2. simpl in H1, H2, H3, H4, H5, H6.
    unfold parse_validate. rewrite H1, H2, H3, H4, H5, H6.
    destruct (given "--ssl" args), (given "--nssdb" args),
      (given "--client-cert-name" args), (given "--server-addr" args);
      try reflexivity; exfalso; destruct Hbad as [Hb|[Hb|Hb]];
      try discriminate Hb; apply Hb; reflexivity.
  - intros Hmany. apply Hfail. rewrite parse_arguments_loop.
    destruct (parse_loop args _) as [o'|d o'] eqn:Hloop; [|reflexivity].
    exfalso.
    destruct (parse_loop_ok args _ o' Hfit Hloop) as (_ & _ & _ & _ & _ & _ & H7 & _).
    pose proof (parse_loop_floods_fit args _ Hfit) as [_ Hnum].
    rewrite Hloop in Hnum. simpl in Hnum, H7. lia.
  - intros Hwf Hhv. unfold well_formed in Hwf. apply andb_prop in Hwf as [Hok Hcount].
    apply Z.leb_le in Hcount.
    destruct (parse_loop_well_formed args _ Hfit Hok) as [o' Hloop]; [simpl; lia|].
    destruct (parse_loop_ok args _ o' Hfit Hloop) as (H1 & H2 & _).
    simpl in H1, H2.
    assert (Hhv' : truthy (opt_help o') || truthy (opt_version o') = true).
    { rewrite H1, H2. destruct (given "--help" args), (given "--version" args);
        try reflexivity; discriminate Hhv. }
    assert (Hparse : parse_arguments (argv0 :: args) initial_options = ParseOk o').
    { rewrite parse_arguments_loop, Hloop. unfold parse_validate. rewrite Hhv'. reflexivity. }
    split; [rewrite Hparse; reflexivity|].
    destruct (run_process_help argv0 args incoming) as (tr & Hrun & Htr).
    { rewrite Hparse. reflexivity. }
    { rewrite Hparse. exact Hhv'. }
    unfold exits_without_loop. rewrite Hrun. eexists. split; [reflexivity|].
    destruct Htr as [-> | ->]; reflexivity.
  - intros o' Hparse. rewrite parse_arguments_loop in Hparse.
    destruct (parse_loop args _) as [o1|d o1] eqn:Hloop; [|discriminate Hparse].
    apply parse_validate_ok in Hparse. subst o'.
    destruct (parse_loop_ok args _ o1 Hfit Hloop) as (_ & _ & _ & _ & _ & _ & _ & H8).
    rewrite H8, TargetList_default. reflexivity.
Qed.

(** * Further properties of the code

    Beyond the statements above: the bounds of the packet source, the
    argument parser option by option, start-up and its cleanup ladder,
    and the process seen as a whole. *)

(** ** The packet source and its buffer *)

Lemma memset_out_of_range n : forall data off c,
  (0 < n)%nat -> (length data < off + n)%nat -> memset data off c n = None.
Proof.
  induction n as [|n IH]; intros data off c Hn Hlen; [lia|].
  simpl. unfold store_u8. destruct (decide (off < length data)%nat); [|reflexivity].
  apply IH; [|rewrite length_insert]; lia.
Qed.

Lemma store_u16_out_of_range data off v :
  (length data < off + 2)%nat -> store_u16 data off v = None.
Proof.
  intros Hlen. unfold store_u16, store_u8.
  destruct (decide (off < length data)%nat); [|reflexivity].
  destruct (decide (S off < length _)%nat) as [Hin|]; [|reflexivity].
  rewrite length_insert in Hin. lia.
Qed.

Lemma recv_short_buffer w data data_len peer_id :
  recv_pre w ->
  0 < opt_num_floods (options w) ->
  is_int (opt_num_floods (options w)) ->
  opt_floods (options w) !! Z.to_nat (flood_next w) = Some peer_id ->
  (length data < payload_len)%nat ->
  flood_source_handler_recv data data_len w =
    Abort UndefinedBehaviour
         (set_trace (trace w ++ [call_BLog BLOG_INFO "message to %d" [peer_id]])
            (set_flood_next ((flood_next w + 1) mod opt_num_floods (options w)) w)).
Proof.
  intros (Hready & Hblock & Hcur) Hpos Hint Hpeer Hcap.
  specialize (Hcur Hpos).
  unfold flood_source_handler_recv. prog_simpl.
  rewrite (truthy_nonzero _ Hready), Hblock. change (truthy 0) with false. prog_simpl.
  replace (0 <? opt_num_floods (options w)) with true by (symmetry; apply Z.ltb_lt; lia).
  replace (0 <=? flood_next w) with true by (symmetry; apply Z.leb_le; lia).
  replace (flood_next w <? opt_num_floods (options w)) with true
    by (symmetry; apply Z.ltb_lt; lia).
  replace (opt_num_floods (options w) =? 0) with false by (symmetry; apply Z.eqb_neq; lia).
  prog_simpl.
  destruct (decide (0 <= flood_next w)) as [_|]; [|lia].
  rewrite Hpeer. prog_simpl.
  rewrite (to_int_id (flood_next w + 1))
    by (unfold is_int, INT_MIN, INT_MAX in *; lia).
  rewrite Z.rem_mod_nonneg by lia.
  unfold payload_len, sizeof_sc_header, sizeof_sc_client_outmsg in *.
  destruct (decide (0 < length data)%nat) as [H0|H0].
  2:{ unfold store_u8. destruct (decide (0 < length data)%nat); [lia|]. reflexivity. }
  rewrite store_u8_in_range by lia. prog_simpl.
  destruct (decide (3 <= length data)%nat) as [H3|H3].
  2:{ rewrite store_u16_out_of_range by (rewrite length_insert; lia). reflexivity. }
  rewrite store_htol16 by (rewrite length_insert; lia). prog_simpl.
  rewrite memset_out_of_range by (rewrite ?length_insert; lia). reflexivity.
Qed.

(** X1: the packet source does not check the size of the buffer it is
    handed.  Under its preconditions and with a non-empty TargetList it
    returns exactly when the buffer holds [payload_len] bytes; on a
    shorter buffer a store falls outside the buffer, and by then the
    target has been logged and the cursor advanced. *)
Theorem recv_returns_iff_buffer_fits w data data_len :
  recv_pre w -> wf_options (options w) -> 0 < opt_num_floods (options w) ->
  ((exists r w', flood_source_handler_recv data data_len w = Done r w') <->
   (payload_len <= length data)%nat) /\
  ((length data < payload_len)%nat ->
   exists peer_id,
     TargetList (options w) !! Z.to_nat (flood_next w) = Some peer_id /\
     flood_source_handler_recv data data_len w =
       Abort UndefinedBehaviour
         (set_trace (trace w ++ [call_BLog BLOG_INFO "message to %d" [peer_id]])
            (set_flood_next ((flood_next w + 1) mod opt_num_floods (options w)) w))).
Proof.
  intros Hpre Hwf Hpos.
  destruct (cursor_slot w Hpre Hwf Hpos) as (peer_id & Hpeer & Hslot).
  assert (Hint : is_int (opt_num_floods (options w))).
  { destruct Hwf as [? ?]. unfold is_int, INT_MIN. lia. }
  assert (Hshort : (length data < payload_len)%nat ->
     flood_source_handler_recv data data_len w =
       Abort UndefinedBehaviour
         (set_trace (trace w ++ [call_BLog BLOG_INFO "message to %d" [peer_id]])
            (set_flood_next ((flood_next w + 1) mod opt_num_floods (options w)) w))).
  { intros Hlen. apply recv_short_buffer; assumption. }
  split; [split|].
  - intros (r & w' & Hrun).
    destruct (decide (payload_len <= length data)%nat) as [|Hlt]; [assumption|].
    rewrite Hshort in Hrun by lia. discriminate Hrun.
  - intros Hcap. eexists _, _. apply (recv_nonempty w data data_len peer_id); assumption.
  - intros Hlen. exists peer_id. split; [exact Hpeer | apply Hshort, Hlen].
Qed.

(** ** Resolving the server address *)

(** X2: [resolve_arguments] stops at its assertion when no server
    address is set.  Otherwise it returns 0 or 1, and 1 exactly when
    [BAddr_Parse] and [addr_supported] both succeed.  [BAddr_Parse], which
    fills in [server_addr] and [server_name], is called first, with the
    address of the options; [addr_supported] is asked only once the
    address has parsed; and [server_name] is overwritten, by the
    [snprintf], only on success and only with the name given by
    [--server-name].  The options and the variables [server_ready],
    [my_id], [flood_blocking] and [flood_next] are left as they were. *)
Theorem resolve_arguments_result w :
  match opt_server_addr (options w) with
  | None => resolve_arguments w = Abort AssertFailure w
  | Some addr =>
      exists r added w',
        resolve_arguments w = Done r w' /\
        trace w' = trace w ++ added /\
        core_state w' = core_state w /\
        (r = 0 \/ r = 1) /\
        (r = 1 <-> BAddr_Parse_ok E = true /\ addr_supported_ok E = true) /\
        head added = Some (call_BAddr_Parse (Some addr)) /\
        (call_addr_supported ∈ added <-> BAddr_Parse_ok E = true) /\
        (forall name,
           call_snprintf_server_name name ∈ added <->
           r = 1 /\ opt_server_name (options w) = Some name)
  end.
Proof using E.
  clear - E w.
  unfold resolve_arguments. prog_simpl.
  destruct (opt_server_addr (options w)) as [addr|]; [|reflexivity].
  change (truthy (not_not (Some addr))) with true. prog_simpl. world_norm.
  destruct (BAddr_Parse_ok E); prog_simpl; world_norm;
    [destruct (addr_supported_ok E); prog_simpl; world_norm;
     [destruct (opt_server_name (options w)) as [name'|]; prog_simpl; world_norm|]|];
    eexists _, _, _; (split; [reflexivity|]);
    (split; [cbn [trace]; trace_norm; reflexivity|]); (split; [reflexivity|]);
    (split; [auto|]); (split; [split; [intros; auto; lia | intros [? ?]; congruence]|]);
    (split; [reflexivity|]); (split; [|intros name]); list_mem.
Qed.

(** ** The argument parser, option by option *)

(** A command line that passes the argument loop is made of acceptable
    options. *)
Lemma parse_loop_entries_ok args : forall o o',
  parse_loop args o = ParseOk o' ->
  forallb entry_ok (options_given args) = true.
Proof.
  induction args as [args IH] using args_ind. intros o o' Hrun.
  destruct args as [|arg rest]; [reflexivity|].
  option_cases arg; simpl in Hrun |- *.
  14: { repeat match goal with H : _ <> _ |- _ => apply String.eqb_neq in H; rewrite H in Hrun end.
        discriminate Hrun. }
  all: try solve [exact (IH rest ltac:(simpl; lia) _ _ Hrun)].
  all: destruct rest as [|arg2 rest]; try discriminate Hrun.
  all: simpl; unfold entry_ok; simpl.
  all: try solve [exact (IH rest ltac:(simpl; lia) _ _ Hrun)].
  - (* --logger *)
    destruct (String.eqb arg2 "stdout"); [exact (IH rest ltac:(simpl; lia) _ _ Hrun)|].
    destruct (String.eqb arg2 "syslog"); [|discriminate Hrun].
    exact (IH rest ltac:(simpl; lia) _ _ Hrun).
  - (* --loglevel *)
    destruct (Z.ltb_spec (parse_loglevel arg2) 0); [discriminate Hrun|].
    replace (0 <=? parse_loglevel arg2) with true by (symmetry; apply Z.leb_le; lia).
    exact (IH rest ltac:(simpl; lia) _ _ Hrun).
  - (* --channel-loglevel *)
    destruct rest as [|arg3 rest]; [discriminate Hrun|].
    destruct (Z.ltb_spec (BLogGlobal_GetChannelByName arg2) 0); [discriminate Hrun|].
    destruct (Z.ltb_spec (parse_loglevel arg3) 0); [discriminate Hrun|].
    simpl. unfold entry_ok. simpl.
    replace (0 <=? BLogGlobal_GetChannelByName arg2) with true
      by (symmetry; apply Z.leb_le; lia).
    replace (0 <=? parse_loglevel arg3) with true by (symmetry; apply Z.leb_le; lia).
    exact (IH rest ltac:(simpl; lia) _ _ Hrun).
  - (* --flood-id *)
    destruct (Z.eqb_spec (opt_num_floods o) MAX_FLOODS) as [|Hne]; [discriminate Hrun|].
    exact (IH rest ltac:(simpl; lia) _ _ Hrun).
Qed.

(** X3: [parse_arguments] returns 1 exactly for a command line whose
    options are all known, have their operands and acceptable values, and
    name at most [MAX_FLOODS] targets, and which either asks for help or
    the version, or gives a server address and gives [--ssl] together
    with both [--nssdb] and [--client-cert-name] or with neither.  With
    no [argv] at all it returns 0. *)
Theorem parse_arguments_accepts_iff argv0 args o :
  (parse_ret (parse_arguments (argv0 :: args) initial_options) = 1 <->
   well_formed args = true /\
   given "--help" args || given "--version" args
   || (given "--server-addr" args
       && Bool.eqb (given "--ssl" args) (given "--nssdb" args)
       && Bool.eqb (given "--ssl" args) (given "--client-cert-name" args)) = true) /\
  parse_ret (parse_arguments [] o) = 0.
Proof.
  split; [|reflexivity].
  pose proof (floods_fit_default argv0) as Hfit.
  rewrite parse_arguments_loop. split.
  - intros Hret.
    destruct (parse_loop args _) as [o1|d o1] eqn:Hloop; [|discriminate Hret].
    destruct (parse_loop_ok args _ o1 Hfit Hloop)
      as (H1 & H2 & H3 & H4 & H5 & H6 & H7 & _).
    pose proof (parse_loop_floods_fit args _ Hfit) as [_ Hnum].
    rewrite Hloop in Hnum. simpl in Hnum, H1, H2, H3, H4, H5, H6, H7.
    split.
    + unfold well_formed. rewrite (parse_loop_entries_ok args _ _ Hloop). simpl.
      apply Z.leb_le. lia.
    + unfold parse_validate in Hret. rewrite H1, H2, H3, H4, H5, H6 in Hret.
      destruct (given "--help" args), (given "--version" args), (given "--ssl" args),
        (given "--nssdb" args), (given "--client-cert-name" args),
        (given "--server-addr" args); try reflexivity; discriminate Hret.
  - intros [Hwf Hsel]. unfold well_formed in Hwf. apply andb_prop in Hwf as [Hok Hcount].
    apply Z.leb_le in Hcount.
    destruct (parse_loop_well_formed args _ Hfit Hok) as [o1 Hloop]; [simpl; lia|].
    rewrite Hloop.
    destruct (parse_loop_ok args _ o1 Hfit Hloop)
      as (H1 & H2 & H3 & H4 & H5 & H6 & _).
    simpl in H1, H2, H3, H4, H5, H6.
    unfold parse_validate. rewrite H1, H2, H3, H4, H5, H6.
    destruct (given "--help" args), (given "--version" args), (given "--ssl" args),
      (given "--nssdb" args), (given "--client-cert-name" args),
      (given "--server-addr" args); try reflexivity; discriminate Hsel.
Qed.

Lemma last_cons_default {A} (x : A) (l : list A) :
  last (x :: l) = Some (default x (last l)).
Proof.
  revert x. induction l as [|y l IH]; intros x; [reflexivity|].
  change (last (x :: y :: l)) with (last (y :: l)). rewrite IH. reflexivity.
Qed.

Lemma chosen_step0 {A} (f : string -> A) d name arg rest :
  option_arity arg = Some 0%nat ->
  chosen f d name (arg :: rest) = chosen f d name rest.
Proof.
  intros Ha. unfold chosen, last_given, operands_given. simpl. rewrite Ha. simpl.
  destruct (String.eqb arg name); reflexivity.
Qed.

Lemma chosen_step1 {A} (f : string -> A) d name arg a rest :
  option_arity arg = Some 1%nat ->
  chosen f d name (arg :: a :: rest) =
    if String.eqb arg name then chosen f (f a) name rest else chosen f d name rest.
Proof.
  intros Ha. unfold chosen, last_given, operands_given. simpl. rewrite Ha. simpl.
  destruct (String.eqb arg name); [|reflexivity].
  rewrite last_cons_default. simpl.
  destruct (last _); reflexivity.
Qed.

Lemma chosen_step2 {A} (f : string -> A) d name arg a b rest :
  option_arity arg = Some 2%nat ->
  chosen f d name (arg :: a :: b :: rest) =
    if String.eqb arg name then chosen f (f a) name rest else chosen f d name rest.
Proof.
  intros Ha. unfold chosen, last_given, operands_given. simpl. rewrite Ha. simpl.
  destruct (String.eqb arg name); [|reflexivity].
  rewrite last_cons_default. simpl.
  destruct (last _); reflexivity.
Qed.

(** What a successful run of the argument loop leaves in the scalar and
    string options: for each, the operand of its last occurrence. *)
Lemma parse_loop_chosen args : forall o o',
  parse_loop args o = ParseOk o' ->
  opt_logger o' = chosen logger_named (opt_logger o) "--logger" args /\
  opt_logger_syslog_facility o' =
    chosen Some (opt_logger_syslog_facility o) "--syslog-facility" args /\
  opt_logger_syslog_ident o' =
    chosen Some (opt_logger_syslog_ident o) "--syslog-ident" args /\
  opt_loglevel o' = chosen parse_loglevel (opt_loglevel o) "--loglevel" args /\
  opt_nssdb o' = chosen Some (opt_nssdb o) "--nssdb" args /\
  opt_client_cert_name o' =
    chosen Some (opt_client_cert_name o) "--client-cert-name" args /\
  opt_server_name o' = chosen Some (opt_server_name o) "--server-name" args /\
  opt_server_addr o' = chosen Some (opt_server_addr o) "--server-addr" args.
Proof.
  induction args as [args IH] using args_ind. intros o o' Hrun.
  destruct args as [|arg rest].
  { injection Hrun as <-. repeat split. }
  assert (Hstep : forall rest' o1,
    (length rest' < length (arg :: rest))%nat ->
    parse_loop rest' o1 = ParseOk o' ->
    forall P : Prop,
    (opt_logger o' = chosen logger_named (opt_logger o1) "--logger" rest' ->
     opt_logger_syslog_facility o' =
       chosen Some (opt_logger_syslog_facility o1) "--syslog-facility" rest' ->
     opt_logger_syslog_ident o' =
       chosen Some (opt_logger_syslog_ident o1) "--syslog-ident" rest' ->
     opt_loglevel o' = chosen parse_loglevel (opt_loglevel o1) "--loglevel" rest' ->
     opt_nssdb o' = chosen Some (opt_nssdb o1) "--nssdb" rest' ->
     opt_client_cert_name o' =
       chosen Some (opt_client_cert_name o1) "--client-cert-name" rest' ->
     opt_server_name o' = chosen Some (opt_server_name o1) "--server-name" rest' ->
     opt_server_addr o' = chosen Some (opt_server_addr o1) "--server-addr" rest' ->
     P) -> P).
  { intros rest' o1 Hlt Hrun1 P HP.
    destruct (IH rest' Hlt o1 o' Hrun1) as (?&?&?&?&?&?&?&?). auto. }
  option_cases arg; simpl in Hrun.
  14: { repeat match goal with H : _ <> _ |- _ => apply String.eqb_neq in H; rewrite H in Hrun end.
        discriminate Hrun. }
  all: try solve [refine (Hstep _ _ _ Hrun _ _); [simpl; lia|];
                  intros; clear IH Hstep; rewrite !chosen_step0 by reflexivity;
                  repeat split; assumption].
  all: destruct rest as [|arg2 rest]; try discriminate Hrun.
  all: try solve [refine (Hstep _ _ _ Hrun _ _); [simpl; lia|];
                  intros; clear IH Hstep; rewrite !chosen_step1 by reflexivity;
                  repeat split; assumption].
  - (* --logger *)
    destruct (String.eqb_spec arg2 "stdout") as [->|Hn];
      [refine (Hstep _ _ _ Hrun _ _); [simpl; lia|];
       intros; clear IH Hstep; rewrite !chosen_step1 by reflexivity;
       repeat split; assumption|].
    destruct (String.eqb_spec arg2 "syslog") as [->|Hn']; [|discriminate Hrun].
    refine (Hstep _ _ _ Hrun _ _); [simpl; lia|].
    intros; clear IH Hstep; rewrite !chosen_step1 by reflexivity;
       repeat split; assumption.
  - (* --loglevel *)
    destruct (parse_loglevel arg2 <? 0); [discriminate Hrun|].
    refine (Hstep _ _ _ Hrun _ _); [simpl; lia|].
    intros; clear IH Hstep; rewrite !chosen_step1 by reflexivity;
       repeat split; assumption.
  - (* --channel-loglevel *)
    destruct rest as [|arg3 rest]; [discriminate Hrun|].
    destruct (BLogGlobal_GetChannelByName arg2 <? 0); [discriminate Hrun|].
    destruct (parse_loglevel arg3 <? 0); [discriminate Hrun|].
    refine (Hstep _ _ _ Hrun _ _); [simpl; lia|].
    intros; clear IH Hstep; rewrite !chosen_step2 by reflexivity;
       repeat split; assumption.
  - (* --flood-id *)
    destruct (Z.eqb_spec (opt_num_floods o) MAX_FLOODS) as [|Hne]; [discriminate Hrun|].
    refine (Hstep _ _ _ Hrun _ _); [simpl; lia|].
    intros; clear IH Hstep; rewrite !chosen_step1 by reflexivity;
       repeat split; assumption.
Qed.

Lemma chosen_last_given name args : chosen Some None name args = last_given name args.
Proof. unfold chosen. destruct (last_given name args); reflexivity. Qed.

(** X4: after a successful parse every option that takes a value holds
    the operand of its last occurrence on the command line, and an option
    that is not given holds its default: no server address, server name,
    NSS database or certificate name; the standard-output logger; syslog
    facility "daemon" and ident [argv[0]]; log level -1.  The logger is
    always one of the two the switch in [main] knows. *)
Theorem parse_arguments_last_wins argv0 args o' :
  parse_arguments (argv0 :: args) initial_options = ParseOk o' ->
  opt_server_addr o' = last_given "--server-addr" args /\
  opt_server_name o' = last_given "--server-name" args /\
  opt_nssdb o' = last_given "--nssdb" args /\
  opt_client_cert_name o' = last_given "--client-cert-name" args /\
  opt_logger o' = from_option logger_named LOGGER_STDOUT (last_given "--logger" args) /\
  (opt_logger o' = LOGGER_STDOUT \/ opt_logger o' = LOGGER_SYSLOG) /\
  opt_logger_syslog_facility o' =
    Some (default "daemon" (last_given "--syslog-facility" args)) /\
  opt_logger_syslog_ident o' = Some (default argv0 (last_given "--syslog-ident" args)) /\
  opt_loglevel o' = from_option parse_loglevel (-1) (last_given "--loglevel" args).
Proof.
  intros Hparse. rewrite parse_arguments_loop in Hparse.
  destruct (parse_loop args _) as [o1|d o1] eqn:Hloop; [|discriminate Hparse].
  apply parse_validate_ok in Hparse. subst o'.
  destruct (parse_loop_chosen args _ o1 Hloop) as (H1 & H2 & H3 & H4 & H5 & H6 & H7 & H8).
  simpl in H1, H2, H3, H4, H5, H6, H7, H8.
  rewrite chosen_last_given in H5, H6, H7, H8.
  unfold chosen in H1, H2, H3, H4.
  split; [exact H8|]. split; [exact H7|]. split; [exact H5|]. split; [exact H6|].
  split; [exact H1|]. split; [|split; [|split; [|exact H4]]].
  - rewrite H1. unfold logger_named.
    destruct (last_given "--logger" args) as [a|]; simpl; [|left; reflexivity].
    destruct (String.eqb a "syslog"); [right|left]; reflexivity.
  - rewrite H2. destruct (last_given "--syslog-facility" args); reflexivity.
  - rewrite H3. destruct (last_given "--syslog-ident" args); reflexivity.
Qed.

Lemma channel_levels_given_step0 c arg rest :
  option_arity arg = Some 0%nat ->
  channel_levels_given c (arg :: rest) = channel_levels_given c rest.
Proof. intros Ha. unfold channel_levels_given. simpl. rewrite Ha. reflexivity. Qed.

Lemma channel_levels_given_step1 c arg a rest :
  option_arity arg = Some 1%nat ->
  channel_levels_given c (arg :: a :: rest) = channel_levels_given c rest.
Proof. intros Ha. unfold channel_levels_given. simpl. rewrite Ha. reflexivity. Qed.

Lemma channel_levels_given_step2 c a b rest :
  channel_levels_given c ("--channel-loglevel" :: a :: b :: rest) =
    if BLogGlobal_GetChannelByName a =? Z.of_nat c
    then parse_loglevel b :: channel_levels_given c rest
    else channel_levels_given c rest.
Proof.
  unfold channel_levels_given. simpl.
  destruct (BLogGlobal_GetChannelByName a =? Z.of_nat c); reflexivity.
Qed.

(** What a successful run of the argument loop leaves in
    [options.loglevels]. *)
Lemma parse_loop_loglevels args : forall o o',
  parse_loop args o = ParseOk o' ->
  length (opt_loglevels o') = length (opt_loglevels o) /\
  forall c, (c < length (opt_loglevels o))%nat ->
    opt_loglevels o' !! c =
      from_option Some (opt_loglevels o !! c) (last (channel_levels_given c args)).
Proof.
  induction args as [args IH] using args_ind. intros o o' Hrun.
  destruct args as [|arg rest].
  { injection Hrun as <-. split; [reflexivity|]. intros c _. reflexivity. }
  option_cases arg; simpl in Hrun.
  14: { repeat match goal with H : _ <> _ |- _ => apply String.eqb_neq in H; rewrite H in Hrun end.
        discriminate Hrun. }
  all: try solve [destruct (IH rest ltac:(simpl; lia) _ _ Hrun) as [Hl Hc];
                  split; [exact Hl|]; intros c Hlt;
                  rewrite channel_levels_given_step0 by reflexivity; exact (Hc c Hlt)].
  all: destruct rest as [|arg2 rest]; try discriminate Hrun.
  all: try solve [destruct (IH rest ltac:(simpl; lia) _ _ Hrun) as [Hl Hc];
                  split; [exact Hl|]; intros c Hlt;
                  rewrite channel_levels_given_step1 by reflexivity; exact (Hc c Hlt)].
  - (* --logger *)
    assert (Hrun' : exists o1, parse_loop rest o1 = ParseOk o' /\
                               opt_loglevels o1 = opt_loglevels o).
    { destruct (String.eqb arg2 "stdout"); [eexists; split; [exact Hrun|reflexivity]|].
      destruct (String.eqb arg2 "syslog"); [|discriminate Hrun].
      eexists; split; [exact Hrun|reflexivity]. }
    destruct Hrun' as (o1 & Hrun1 & Ho1).
    destruct (IH rest ltac:(simpl; lia) _ _ Hrun1) as [Hl Hc]. rewrite Ho1 in Hl, Hc.
    split; [exact Hl|]. intros c Hlt.
    rewrite channel_levels_given_step1 by reflexivity. exact (Hc c Hlt).
  - (* --loglevel *)
    destruct (parse_loglevel arg2 <? 0); [discriminate Hrun|].
    destruct (IH rest ltac:(simpl; lia) _ _ Hrun) as [Hl Hc].
    split; [exact Hl|]. intros c Hlt.
    rewrite channel_levels_given_step1 by reflexivity. exact (Hc c Hlt).
  - (* --channel-loglevel *)
    destruct rest as [|arg3 rest]; [discriminate Hrun|].
    destruct (Z.ltb_spec (BLogGlobal_GetChannelByName arg2) 0) as [|Hch];
      [discriminate Hrun|].
    destruct (parse_loglevel arg3 <? 0); [discriminate Hrun|].
    destruct (IH rest ltac:(simpl; lia) _ _ Hrun) as [Hl Hc]. simpl in Hl, Hc.
    rewrite length_insert in Hl, Hc.
    split; [exact Hl|]. intros c Hlt.
    rewrite channel_levels_given_step2, (Hc c Hlt).
    destruct (Z.eqb_spec (BLogGlobal_GetChannelByName arg2) (Z.of_nat c)) as [Heq|Hne].
    + rewrite Heq, Nat2Z.id, list_lookup_insert_eq by exact Hlt.
      rewrite last_cons_default.
      destruct (last (channel_levels_given c rest)); reflexivity.
    + rewrite list_lookup_insert_ne by lia. reflexivity.
  - (* --flood-id *)
    destruct (Z.eqb_spec (opt_num_floods o) MAX_FLOODS) as [|Hne]; [discriminate Hrun|].
    destruct (IH rest ltac:(simpl; lia) _ _ Hrun) as [Hl Hc].
    split; [exact Hl|]. intros c Hlt.
    rewrite channel_levels_given_step1 by reflexivity. exact (Hc c Hlt).
Qed.

(** The levels accepted on a command line are not negative. *)
Lemma entries_levels_ok (entries : list (string * list string)) c :
  forallb entry_ok entries = true ->
  Forall (fun l => 0 <= l)
    (omap (fun e =>
             match snd e with
             | [a; b] =>
                 if String.eqb (fst e) "--channel-loglevel"
                    && (BLogGlobal_GetChannelByName a =? Z.of_nat c)
                 then Some (parse_loglevel b) else None
             | _ => None
             end) entries) /\
  Forall (fun a => 0 <= parse_loglevel a)
    (omap (fun e => if String.eqb (fst e) "--loglevel" then head (snd e) else None)
          entries).
Proof.
  induction entries as [|[name ops] entries IH]; intros Hok; [split; constructor|].
  simpl in Hok. apply andb_prop in Hok as [He Hok]. destruct (IH Hok) as [IH1 IH2].
  simpl. split.
  - destruct ops as [|a [|b [|? ?]]]; try exact IH1.
    destruct (String.eqb_spec name "--channel-loglevel") as [->|]; [|exact IH1].
    simpl. destruct (BLogGlobal_GetChannelByName a =? Z.of_nat c); [|exact IH1].
    constructor; [|exact IH1].
    unfold entry_ok in He. simpl in He. apply andb_prop in He as [_ He].
    apply Z.leb_le. exact He.
  - destruct (String.eqb_spec name "--loglevel") as [->|]; [|exact IH2].
    destruct ops as [|a ops]; [exact IH2|]. simpl.
    constructor; [|exact IH2].
    unfold entry_ok in He. simpl in He. destruct ops; [|discriminate He].
    apply Z.leb_le. exact He.
Qed.

Lemma last_Forall {A} (P : A -> Prop) (l : list A) x :
  Forall P l -> last l = Some x -> P x.
Proof.
  intros Hall Hlast. apply last_Some in Hlast as [l' ->].
  apply Forall_app in Hall as [_ Hx]. inversion Hx; assumption.
Qed.

Lemma omap_ext_in {A B} (f g : A -> option B) (l : list A) :
  (forall x, x ∈ l -> f x = g x) -> omap f l = omap g l.
Proof.
  induction l as [|x l IH]; intros H; [reflexivity|]. csimpl.
  rewrite (H x) by apply list_elem_of_here.
  rewrite IH by (intros y Hy; apply H, list_elem_of_further, Hy). reflexivity.
Qed.

(** X5: the channel levels [main] configures after a successful parse.
    Channel by channel in increasing order, [BLog_SetChannelLoglevel] is
    called once with the level of the last [--channel-loglevel] naming
    the channel, else with the level of the last [--loglevel], and not at
    all when neither is given.  The channel lookup is assumed to return
    declared channels only, so that [options.loglevels] is indexed inside
    its bounds. *)
Theorem channel_levels_configured argv0 args o' :
  (forall s, BLogGlobal_GetChannelByName s < Z.of_nat BLOG_NUM_CHANNELS) ->
  parse_arguments (argv0 :: args) initial_options = ParseOk o' ->
  configure_channels o' =
    omap (fun i => call_BLog_SetChannelLoglevel i <$> effective_level i args)
         (seq 0 BLOG_NUM_CHANNELS).
Proof.
  intros _ Hparse. rewrite parse_arguments_loop in Hparse.
  destruct (parse_loop args _) as [o1|d o1] eqn:Hloop; [|discriminate Hparse].
  apply parse_validate_ok in Hparse. subst o'.
  destruct (parse_loop_chosen args _ o1 Hloop) as (_ & _ & _ & Hlevel & _).
  destruct (parse_loop_loglevels args _ o1 Hloop) as [Hlen Hlook].
  pose proof (parse_loop_entries_ok args _ _ Hloop) as Hok.
  simpl in Hlevel, Hlen, Hlook. rewrite length_replicate in Hlen, Hlook.
  unfold configure_channels. apply omap_ext_in. intros i Hi.
  apply elem_of_seq in Hi as [_ Hi]. simpl in Hi.
  destruct (entries_levels_ok (options_given args) i Hok) as [Hch Hll].
  fold (channel_levels_given i args) in Hch. fold (operands_given "--loglevel" args) in Hll.
  unfold effective_level.
  specialize (Hlook i Hi). rewrite lookup_replicate_2 in Hlook by exact Hi.
  destruct (last (channel_levels_given i args)) as [l|] eqn:Hlast; simpl in Hlook.
  - rewrite (list_lookup_total_correct _ _ _ Hlook).
    pose proof (last_Forall _ _ _ Hch Hlast) as Hl. simpl in Hl.
    replace (0 <=? l) with true by (symmetry; apply Z.leb_le; exact Hl). reflexivity.
  - rewrite (list_lookup_total_correct _ _ _ Hlook). simpl.
    rewrite Hlevel. unfold chosen, last_given.
    destruct (last (operands_given "--loglevel" args)) as [a|] eqn:Hla; simpl; [|reflexivity].
    pose proof (last_Forall _ _ _ Hll Hla) as Hl. simpl in Hl.
    replace (0 <=? parse_loglevel a) with true by (symmetry; apply Z.leb_le; exact Hl).
    reflexivity.
Qed.

(** ** Start-up *)

(** What [main] can rely on once [parse_arguments] has accepted a
    command line that asks neither for help nor for the version. *)
Lemma parsed_for_run argv0 args o :
  parse_arguments (argv0 :: args) initial_options = ParseOk o ->
  truthy (opt_help o) = false -> truthy (opt_version o) = false ->
  (opt_logger o = LOGGER_STDOUT \/ opt_logger o = LOGGER_SYSLOG) /\
  exists addr, opt_server_addr o = Some addr.
Proof.
  intros Hparse Hh Hv. rewrite parse_arguments_loop in Hparse.
  destruct (parse_loop args _) as [o1|d o1] eqn:Hloop; [|discriminate Hparse].
  pose proof (parse_validate_ok _ _ Hparse) as Heq. subst o1.
  destruct (parse_loop_chosen args _ o Hloop) as (H1 & _).
  split.
  - rewrite H1. unfold chosen, logger_named.
    destruct (last_given "--logger" args) as [a|]; simpl; [|left; reflexivity].
    destruct (String.eqb a "syslog"); [right|left]; reflexivity.
  - unfold parse_validate in Hparse. rewrite Hh, Hv in Hparse. simpl in Hparse.
    destruct (opt_server_addr o) as [addr|]; [eauto|].
    destruct (negb (opt_ssl o =? not_not (opt_nssdb o))); [discriminate Hparse|].
    destruct (negb (opt_ssl o =? not_not (opt_client_cert_name o))); discriminate Hparse.
Qed.



Lemma add_calls_add_calls cs1 cs2 w :
  add_calls cs2 (add_calls cs1 w) = add_calls (cs1 ++ cs2) w.
Proof. unfold add_calls, set_trace. simpl. rewrite app_assoc. reflexivity. Qed.

Lemma set_server_ready_add_calls v cs w :
  set_server_ready v (add_calls cs w) = add_calls cs (set_server_ready v w).
Proof. reflexivity. Qed.

(** The cleanup ladder of [main], label by label. *)
Lemma fail0_run w : fail0 w = Done 1 (add_calls [call_DebugObjectGlobal_Finish] w).
Proof. reflexivity. Qed.

Lemma fail1_run w :
  fail1 w = Done 1 (add_calls [call_BLog BLOG_ERROR "initialization failed" [];
                               call_BLog_Free; call_DebugObjectGlobal_Finish] w).
Proof. unfold fail1, fail0, add_calls. prog_simpl. world_norm. reflexivity. Qed.

Lemma fail1a_run w :
  fail1a w = Done 1 (add_calls [call_BReactor_Free;
                                call_BLog BLOG_ERROR "initialization failed" [];
                                call_BLog_Free; call_DebugObjectGlobal_Finish] w).
Proof. unfold fail1a, fail1, fail0, add_calls. prog_simpl. world_norm. reflexivity. Qed.

Lemma after_ssl_cleanup_run w :
  after_ssl_cleanup w =
    Done 1 (add_calls [call_BSignal_RemoveHandler; call_BReactor_Free;
                       call_BLog BLOG_ERROR "initialization failed" [];
                       call_BLog_Free; call_DebugObjectGlobal_Finish] w).
Proof.
  unfold after_ssl_cleanup, fail1a, fail1, fail0, add_calls. prog_simpl. world_norm.
  reflexivity.
Qed.

Lemma fail2_run w :
  fail2 w =
    if PR_Cleanup_ok E then
      Done 1 (add_calls [call_PR_Cleanup; call_PL_ArenaFinish;
                         call_BSignal_RemoveHandler; call_BReactor_Free;
                         call_BLog BLOG_ERROR "initialization failed" [];
                         call_BLog_Free; call_DebugObjectGlobal_Finish] w)
    else Abort AssertFailure (add_calls [call_PR_Cleanup] w).
Proof.
  unfold fail2, after_ssl_cleanup, fail1a, fail1, fail0, add_calls. prog_simpl.
  destruct (PR_Cleanup_ok E); prog_simpl; world_norm; reflexivity.
Qed.

Lemma fail3_run w :
  fail3 w =
    if NSS_Shutdown_ok E then
      fail2 (add_calls [call_SSL_ClearSessionCache; call_NSS_Shutdown] w)
    else Abort AssertFailure (add_calls [call_SSL_ClearSessionCache; call_NSS_Shutdown] w).
Proof.
  unfold fail3, add_calls. prog_simpl.
  destruct (NSS_Shutdown_ok E); prog_simpl; world_norm; reflexivity.
Qed.

Lemma fail4_run w :
  fail4 w = fail3 (add_calls [call_SSL_ShutdownServerSessionIDCache] w).
Proof. reflexivity. Qed.

Lemma fail5_run w :
  fail5 w =
    if truthy (opt_ssl (options w)) then
      fail4 (add_calls [call_CERT_DestroyCertificate; call_SECKEY_DestroyPrivateKey] w)
    else after_ssl_cleanup w.
Proof.
  unfold fail5, add_calls. prog_simpl.
  destruct (truthy (opt_ssl (options w))); prog_simpl; world_norm; reflexivity.
Qed.

Lemma event_loop_run incoming w :
  event_loop incoming w =
    bind (BReactor_Exec incoming) leave_loop
      (add_calls [call_BLog BLOG_NOTICE "entering event loop" []; call_BReactor_Exec] w).
Proof.
  unfold event_loop, leave_loop, add_calls. prog_simpl. world_norm. reflexivity.
Qed.

Lemma connect_and_run_run incoming w :
  connect_and_run incoming w =
    if ServerConnection_Init_ok E then
      event_loop incoming (set_server_ready 0 (add_calls [call_ServerConnection_Init] w))
    else
      fail5 (add_calls [call_ServerConnection_Init;
                        call_BLog BLOG_ERROR "ServerConnection_Init failed" []] w).
Proof.
  unfold connect_and_run, add_calls. prog_simpl.
  destruct (ServerConnection_Init_ok E); prog_simpl; world_norm; reflexivity.
Qed.

Lemma resolve_arguments_run w addr :
  opt_server_addr (options w) = Some addr ->
  resolve_arguments w =
    if BAddr_Parse_ok E then
      if addr_supported_ok E then
        Done 1 (add_calls ([call_BAddr_Parse (Some addr); call_addr_supported]
                             ++ server_name_calls (options w)) w)
      else
        Done 0 (add_calls [call_BAddr_Parse (Some addr); call_addr_supported;
                           call_BLog BLOG_ERROR "server addr: not supported" []] w)
    else
      Done 0 (add_calls [call_BAddr_Parse (Some addr);
                         call_BLog BLOG_ERROR "server addr: BAddr_Parse failed" []] w).
Proof.
  intros Haddr. unfold resolve_arguments, add_calls, server_name_calls.
  prog_simpl. rewrite Haddr.
  change (truthy (not_not (Some addr))) with true. prog_simpl.
  destruct (BAddr_Parse_ok E); prog_simpl; world_norm; [|reflexivity].
  destruct (addr_supported_ok E); prog_simpl; world_norm; [|reflexivity].
  destruct (opt_server_name (options w)); prog_simpl; world_norm; reflexivity.
Qed.

Lemma init_ssl_run incoming w :
  init_ssl incoming w =
    if DummyPRFileDesc_GlobalInit_ok E then
      if BSocketPRFileDesc_GlobalInit_ok E then
        if NSS_Init_ok E then
          if NSS_SetDomesticPolicy_ok E then
            if SSL_ConfigServerSessionIDCache_ok E then
              if open_nss_cert_and_key_ok E then
                connect_and_run incoming (add_calls (tls_boot_calls (options w)) w)
              else
                fail4 (add_calls (tls_boot_calls (options w)
                         ++ [call_BLog BLOG_ERROR "Cannot open certificate and key" []]) w)
            else
              fail3 (add_calls (take 6 (tls_boot_calls (options w))
                       ++ [call_BLog BLOG_ERROR
                             "SSL_ConfigServerSessionIDCache failed (%d)" []]) w)
          else
            fail3 (add_calls (take 5 (tls_boot_calls (options w))
                     ++ [call_BLog BLOG_ERROR "NSS_SetDomesticPolicy failed (%d)" []]) w)
        else
          fail2 (add_calls (take 4 (tls_boot_calls (options w))
                   ++ [call_BLog BLOG_ERROR "NSS_Init failed (%d)" []]) w)
      else
        fail2 (add_calls (take 3 (tls_boot_calls (options w))
                 ++ [call_BLog BLOG_ERROR "BSocketPRFileDesc_GlobalInit failed" []]) w)
    else
      fail2 (add_calls (take 2 (tls_boot_calls (options w))
               ++ [call_BLog BLOG_ERROR "DummyPRFileDesc_GlobalInit failed" []]) w).
Proof.
  unfold init_ssl, add_calls, tls_boot_calls. prog_simpl.
  destruct (DummyPRFileDesc_GlobalInit_ok E); prog_simpl; world_norm; [|reflexivity].
  destruct (BSocketPRFileDesc_GlobalInit_ok E); prog_simpl; world_norm; [|reflexivity].
  destruct (NSS_Init_ok E); prog_simpl; world_norm; [|reflexivity].
  destruct (NSS_SetDomesticPolicy_ok E); prog_simpl; world_norm; [|reflexivity].
  destruct (SSL_ConfigServerSessionIDCache_ok E); prog_simpl; world_norm; [|reflexivity].
  destruct (open_nss_cert_and_key_ok E); prog_simpl; world_norm; reflexivity.
Qed.
Lemma initialize_run incoming w addr :
  opt_server_addr (options w) = Some addr ->
  opt_logger (options w) = LOGGER_STDOUT \/ opt_logger (options w) = LOGGER_SYSLOG ->
  initialize incoming w =
    let o := options w in
    if logger_ok o then
      let w1 := add_calls ([logger_call o] ++ configure_channels o
                             ++ [call_BLog BLOG_NOTICE "initializing client" [];
                                 call_BSocket_GlobalInit]) w in
      if BSocket_GlobalInit_ok E then
        match resolve_arguments (add_calls [call_BTime_Init] w1) with
        | Done resolved w2 =>
            if truthy resolved then
              let w3 := add_calls [call_BReactor_Init] w2 in
              if BReactor_Init_ok E then
                let w4 := add_calls [call_BSignal_Init] w3 in
                if BSignal_Init_ok E then
                  let w5 := add_calls [call_BSignal_Capture; call_BSignal_SetHandler] w4 in
                  if BSignal_SetHandler_ok E then
                    if truthy (opt_ssl o) then init_ssl incoming w5
                    else connect_and_run incoming w5
                  else
                    fail1a (add_calls [call_BLog BLOG_ERROR "BSignal_SetHandler failed" []]
                              w5)
                else
                  fail1a (add_calls [call_BLog BLOG_ERROR "BSignal_Init failed" []] w4)
              else
                fail1 (add_calls [call_BLog BLOG_ERROR "BReactor_Init failed" []] w3)
            else
              fail1 (add_calls [call_BLog BLOG_ERROR "Failed to resolve arguments" []] w2)
        | Abort f w2 => Abort f w2
        | Waiting w2 => Waiting w2
        end
      else
        fail1 (add_calls [call_BLog BLOG_ERROR "BSocket_GlobalInit failed" []] w1)
    else
      fail0 (add_calls [logger_call o;
                        call_fprintf_stderr "Failed to initialize syslog logger"] w).
Proof.
  intros Haddr Hlog. cbv zeta.
  unfold initialize, logger_ok, logger_call, add_calls. prog_simpl.
  destruct Hlog as [Hlog|Hlog]; rewrite Hlog;
    [ change (LOGGER_STDOUT =? LOGGER_STDOUT) with true; cbn [orb andb]
    | change (LOGGER_SYSLOG =? LOGGER_STDOUT) with false;
      change (LOGGER_SYSLOG =? LOGGER_SYSLOG) with true;
      cbn [orb andb];
      destruct (BLog_InitSyslog_ok E); prog_simpl; world_norm; trace_norm; [|trace_norm; reflexivity] ];
    prog_simpl; world_norm; trace_norm.
  all: destruct (BSocket_GlobalInit_ok E); prog_simpl; world_norm; trace_norm; [|trace_norm; reflexivity].
  all: match goal with |- context [resolve_arguments ?w] =>
         destruct (resolve_arguments w) as [resolved w2|f w2|w2]; [|reflexivity..] end.
  all: destruct (truthy resolved); prog_simpl; world_norm; trace_norm; [|trace_norm; reflexivity].
  all: destruct (BReactor_Init_ok E); prog_simpl; world_norm; trace_norm; [|trace_norm; reflexivity].
  all: destruct (BSignal_Init_ok E); prog_simpl; world_norm; trace_norm; [|trace_norm; reflexivity].
  all: destruct (BSignal_SetHandler_ok E); prog_simpl; world_norm; trace_norm; [|trace_norm; reflexivity].
  all: destruct (truthy (opt_ssl (options w))); trace_norm; reflexivity.
Qed.
Lemma configure_channels_calls o :
  Forall (fun c => exists i l, c = call_BLog_SetChannelLoglevel i l) (configure_channels o).
Proof.
  unfold configure_channels. apply Forall_forall. intros c Hc.
  apply list_elem_of_omap in Hc as (i & _ & Hi).
  destruct (0 <=? opt_loglevels o !!! i); [injection Hi as <-; eauto|].
  destruct (0 <=? opt_loglevel o); [injection Hi as <-; eauto|discriminate].
Qed.

Lemma configure_channels_flat_map {B} (f : call -> list B) o :
  (forall i l, f (call_BLog_SetChannelLoglevel i l) = []) ->
  flat_map f (configure_channels o) = [].
Proof.
  intros Hf. induction (configure_channels_calls o) as [|c cs (i & l & ->) _ IH];
    [reflexivity|].
  simpl. rewrite Hf, IH. reflexivity.
Qed.

Lemma configure_channels_forallb (f : call -> bool) o :
  (forall i l, f (call_BLog_SetChannelLoglevel i l) = true) ->
  forallb f (configure_channels o) = true.
Proof.
  intros Hf. induction (configure_channels_calls o) as [|c cs (i & l & ->) _ IH];
    [reflexivity|].
  simpl. rewrite Hf, IH. reflexivity.
Qed.

Lemma run_process_initialize argv0 args o incoming :
  parse_arguments (argv0 :: args) initial_options = ParseOk o ->
  truthy (opt_help o) = false -> truthy (opt_version o) = false ->
  run_process (argv0 :: args) incoming =
    initialize incoming (mk_world o 0 0 0 0 None [call_DEAD_INIT]).
Proof.
  intros Hparse Hh Hv. unfold run_process, main, initial_world. prog_simpl. world_norm.
  rewrite Hparse. cbn [parse_ret parse_options]. change (truthy 1) with true.
  prog_simpl. world_norm. rewrite Hh, Hv. reflexivity.
Qed.

(** A start-up in which every initialisation succeeds enters the event
    loop having made exactly the calls of [boot_calls]. *)
Lemma run_process_boot_ok argv0 args o incoming :
  parse_arguments (argv0 :: args) initial_options = ParseOk o ->
  truthy (opt_help o) = false -> truthy (opt_version o) = false ->
  startup_ok o = true ->
  run_process (argv0 :: args) incoming =
    bind (BReactor_Exec incoming) leave_loop (mk_world o 0 0 0 0 None (boot_calls o)).
Proof.
  intros Hparse Hh Hv Hok.
  destruct (parsed_for_run _ _ _ Hparse Hh Hv) as (Hlog & addr & Haddr).
  rewrite (run_process_initialize _ _ _ _ Hparse Hh Hv).
  rewrite (initialize_run _ _ addr) by assumption. cbv zeta. cbn [options].
  unfold startup_ok, tls_ok in Hok.
  repeat match type of Hok with (_ && _ = true) => apply andb_prop in Hok as [Hok ?] end.
  rewrite Hok. flags_rewrite.
  rewrite (resolve_arguments_run _ addr) by assumption. flags_rewrite.
  change (truthy 1) with true. cbv iota.
  destruct (truthy (opt_ssl o)) eqn:Hssl.
  - match goal with H : negb true || _ = true |- _ => simpl in H;
      repeat match type of H with (_ && _ = true) => apply andb_prop in H as [H ?] end
    end.
    rewrite init_ssl_run. flags_rewrite. rewrite connect_and_run_run. flags_rewrite.
    rewrite event_loop_run.
    rewrite !set_server_ready_add_calls, !add_calls_add_calls.
    unfold boot_calls, tls_boot_calls, add_calls, set_trace, set_server_ready.
    cbn [options server_ready my_id flood_blocking flood_next quit trace].
    rewrite Hssl, ?Haddr. trace_norm. reflexivity.
  - rewrite connect_and_run_run. flags_rewrite.
    rewrite event_loop_run.
    rewrite !set_server_ready_add_calls, !add_calls_add_calls.
    unfold boot_calls, tls_boot_calls, add_calls, set_trace, set_server_ready.
    cbn [options server_ready my_id flood_blocking flood_next quit trace].
    rewrite Hssl, ?Haddr. trace_norm. reflexivity.
Qed.
Lemma options_add_calls cs w : options (add_calls cs w) = options w.
Proof. reflexivity. Qed.

Lemma configure_channels_acquired o : resources_acquired (configure_channels o) = [].
Proof. apply configure_channels_flat_map. reflexivity. Qed.

Lemma configure_channels_released o : resources_released (configure_channels o) = [].
Proof. apply configure_channels_flat_map. reflexivity. Qed.

Lemma configure_channels_main o : forallb is_main_call (configure_channels o) = true.
Proof. apply configure_channels_forallb. reflexivity. Qed.

Lemma configure_channels_no_tls o :
  forallb (fun c => negb (is_tls_call c)) (configure_channels o) = true.
Proof. apply configure_channels_forallb. reflexivity. Qed.

(** What the traces of start-up hold besides the calls written out:
    the channel levels, the logger's initialisation and the override of
    the server name. *)
Lemma boot_trace_facts o :
  opt_logger o = LOGGER_STDOUT \/ opt_logger o = LOGGER_SYSLOG ->
  (flat_map acquires (configure_channels o) = [] /\
   flat_map gives_back (configure_channels o) = [] /\
   forallb is_main_call (configure_channels o) = true /\
   forallb (fun c => negb (is_tls_call c)) (configure_channels o) = true) /\
  (flat_map acquires (server_name_calls o) = [] /\
   flat_map gives_back (server_name_calls o) = [] /\
   forallb is_main_call (server_name_calls o) = true /\
   forallb (fun c => negb (is_tls_call c)) (server_name_calls o) = true) /\
  (acquires (logger_call o) = (if logger_ok o then [res_logger] else []) /\
   gives_back (logger_call o) = [] /\
   is_main_call (logger_call o) = true /\
   is_tls_call (logger_call o) = false).
Proof.
  intros Hlog. split; [|split].
  - split; [apply configure_channels_acquired|].
    split; [apply configure_channels_released|].
    split; [apply configure_channels_main | apply configure_channels_no_tls].
  - unfold server_name_calls. destruct (opt_server_name o); repeat split.
  - unfold logger_call, logger_ok.
    destruct Hlog as [-> | ->]; [repeat split|].
    change (LOGGER_SYSLOG =? LOGGER_STDOUT) with false.
    change (LOGGER_SYSLOG =? LOGGER_SYSLOG) with true. repeat split.
Qed.
(** A start-up in which an initialisation fails does not enter the
    event loop: [main] undoes what it has done and returns 1, or stops
    at a forced assertion of its TLS cleanup. *)
Lemma run_process_boot_failure argv0 args o incoming :
  parse_arguments (argv0 :: args) initial_options = ParseOk o ->
  truthy (opt_help o) = false -> truthy (opt_version o) = false ->
  startup_ok o = false ->
  boot_failed o (run_process (argv0 :: args) incoming).
Proof.
  intros Hparse Hh Hv Hno.
  destruct (parsed_for_run _ _ _ Hparse Hh Hv) as (Hlog & addr & Haddr).
  rewrite (run_process_initialize _ _ _ _ Hparse Hh Hv).
  rewrite (initialize_run _ _ addr) by assumption. cbv zeta. cbn [options].
  rewrite (resolve_arguments_run _ addr) by assumption.
  rewrite !options_add_calls. cbn [options].
  destruct (boot_trace_facts o Hlog)
    as ((? & ? & ? & ?) & (? & ? & ? & ?) & (? & ? & ? & ?)).
  clear Hlog Hparse Hh Hv Haddr.
  revert Hno. unfold startup_ok, tls_ok.
  destruct (truthy (opt_ssl o)) eqn:Hssl; cbn [orb andb negb].
  all: repeat first
    [ progress change (truthy 1) with true
    | progress cbv beta iota
    | rewrite init_ssl_run
    | rewrite connect_and_run_run
    | lazymatch goal with
      | |- _ -> boot_failed _ ?r =>
          let b := lazymatch r with
                   | (if ?b then _ else _) => b
                   | match (if ?b then _ else _) with
                     | Done _ _ => _ | Abort _ _ => _ | Waiting _ => _ end => b
                   end in
          destruct b eqn:?; cbn [orb andb negb];
          [|solve [ intros _; cbv beta iota; change (truthy 0) with false; cbv beta iota;
                    rewrite ?fail5_run; rewrite ?options_add_calls; cbn [options];
                    rewrite ?Hssl; rewrite ?fail4_run, ?fail3_run;
                    split_flag NSS_Shutdown_ok; rewrite ?fail2_run;
                    split_flag PR_Cleanup_ok;
                    rewrite ?after_ssl_cleanup_run, ?fail1a_run, ?fail1_run, ?fail0_run;
                    rewrite ?add_calls_add_calls; boot_leaf_facts ]]
      end ].
  all: intros Hno; discriminate Hno.
Qed.

(** ** Teardown and the callbacks, case by case *)

(** Every way a callback can end, for well-formed options: it stops at
    an assertion on entry; a reporting callback logs its line; the ready
    callback constructs the pipeline; a pull declines or selects a
    target; or the callback leads to [terminate]. *)
Lemma dispatch_outcomes e w :
  wf_options (options w) ->
  dispatch e w = Abort AssertFailure w
  \/ (is_side_channel e = true /\ server_ready w <> 0 /\
      dispatch e w = Done tt (add_calls (side_channel_log e) w))
  \/ (exists param_my_id ext_ip,
        e = ev_server_ready param_my_id ext_ip /\ server_ready w = 0 /\
        SinglePacketBuffer_Init_ok E = true /\
        dispatch e w =
          Done tt (add_calls
                     (pipeline_inits
                        ++ [call_BLog BLOG_INFO "server: ready, my ID is %d"
                              [to_peerid param_my_id]])
                     (set_server_ready 1
                        (set_flood_blocking 0 (set_my_id (to_peerid param_my_id) w)))))
  \/ (exists data data_len,
        e = ev_flood_recv data data_len /\ server_ready w <> 0 /\
        opt_num_floods (options w) = 0 /\
        dispatch e w = Done tt (set_flood_blocking 1 w))
  \/ (exists data data_len peer_id,
        e = ev_flood_recv data data_len /\ recv_pre w /\
        0 < opt_num_floods (options w) /\
        TargetList (options w) !! Z.to_nat (flood_next w) = Some peer_id /\
        let w1 := add_calls [call_BLog BLOG_INFO "message to %d" [peer_id]]
                    (set_flood_next ((flood_next w + 1) mod opt_num_floods (options w)) w) in
        (dispatch e w = Done tt w1 /\ (payload_len <= length data)%nat)
        \/ (dispatch e w = Abort UndefinedBehaviour w1 /\ (length data < payload_len)%nat))
  \/ (terminates e w /\ dispatch e w = terminate (before_terminate e w)).
Proof.
  intros Hwf. destruct e as [| |p x|p f c l|p|p d l|data data_len].
  - (* signal *) do 5 right. split; [exact I|]. reflexivity.
  - (* error *) do 5 right. split; [exact I|]. reflexivity.
  - (* ready *)
    destruct (server_handler_ready_cases p x w) as (Hnz & Hok & Hfail).
    destruct (Z.eq_dec (server_ready w) 0) as [Hz|Hr]; [|left; apply Hnz, Hr].
    destruct (SinglePacketBuffer_Init_ok E) eqn:Hbuf.
    + do 2 right; left. exists p, x. repeat (split; [assumption || reflexivity|]).
      apply Hok; auto.
    + do 5 right. split; [split; assumption|]. apply Hfail; auto.
  - (* newclient *)
    destruct (Z.eq_dec (server_ready w) 0) as [Hz|Hr].
    + left. apply (side_channel_dispatch (ev_server_newclient p f c l) w eq_refl), Hz.
    + right; left. split; [reflexivity|]. split; [exact Hr|].
      simpl. unfold server_handler_newclient. prog_simpl.
      rewrite (truthy_nonzero _ Hr). reflexivity.
  - (* endclient *)
    destruct (Z.eq_dec (server_ready w) 0) as [Hz|Hr].
    + left. apply (side_channel_dispatch (ev_server_endclient p) w eq_refl), Hz.
    + right; left. split; [reflexivity|]. split; [exact Hr|].
      simpl. unfold server_handler_endclient. prog_simpl.
      rewrite (truthy_nonzero _ Hr). reflexivity.
  - (* message *)
    destruct (Z.eq_dec (server_ready w) 0) as [Hz|Hr].
    + left. apply (side_channel_dispatch (ev_server_message p d l) w eq_refl), Hz.
    + simpl. unfold server_handler_message. prog_simpl.
      rewrite (truthy_nonzero _ Hr). prog_simpl.
      destruct (0 <=? l); prog_simpl; [|left; reflexivity].
      destruct (l <=? Z.of_nat SC_MAX_MSGLEN); prog_simpl; [|left; reflexivity].
      right; left. split; [reflexivity|]. split; [exact Hr|]. reflexivity.
  - (* pull *)
    simpl. unfold bind.
    destruct (recv_cases w data data_len Hwf)
      as [(_ & Hrun)|[(Hz & Hrun)|(Hpre & Hpos & _)]].
    + left. rewrite Hrun. reflexivity.
    + destruct (Z.eq_dec (server_ready w) 0) as [Hr0|Hr].
      { left. unfold flood_source_handler_recv. prog_simpl. rewrite Hr0. reflexivity. }
      do 3 right; left. exists data, data_len.
      repeat (split; [assumption || reflexivity|]). rewrite Hrun. reflexivity.
    + do 4 right; left.
      destruct (cursor_slot w Hpre Hwf Hpos) as (peer_id & Hpeer & Hslot).
      assert (Hint : is_int (opt_num_floods (options w))).
      { destruct Hwf as [? ?]. unfold is_int, INT_MIN. lia. }
      exists data, data_len, peer_id.
      repeat (split; [assumption || reflexivity|]). cbv zeta.
      destruct (decide (payload_len <= length data)%nat) as [Hcap|Hcap].
      * left. split; [|exact Hcap].
        rewrite (recv_nonempty w data data_len peer_id) by assumption. reflexivity.
      * right. split; [|lia].
        rewrite (recv_short_buffer w data data_len peer_id) by (assumption || lia).
        reflexivity.
Qed.

(** ** The process, callback by callback *)

(** What holds when the event loop is entered and is kept by every
    callback after which the loop goes on holds whenever the process
    waits in the loop. *)
Lemma waiting_ind argv (I : world -> Prop) :
  (forall w0, run_process argv [] = Waiting w0 -> I w0) ->
  (forall incoming w e w',
     run_process argv incoming = Waiting w -> I w ->
     dispatch e (add_calls [callback e] w) = Done tt w' -> quit w' = None -> I w') ->
  forall incoming w, run_process argv incoming = Waiting w -> I w.
Proof.
  intros Hinit Hstep incoming.
  induction incoming as [|e incoming IH] using rev_ind; intros w Hrun; [auto|].
  destruct (run_process argv incoming) as [c w1|f w1|w1] eqn:Hprev.
  - rewrite run_process_app, Hprev in Hrun. discriminate Hrun.
  - rewrite run_process_app, Hprev in Hrun. discriminate Hrun.
  - destruct (step_outcome argv incoming e w1 Hprev)
      as [(w' & Hd & Hq & Hnext)|[(w' & _ & _ & Hnext)|(f & w' & _ & Hnext)]];
      rewrite Hnext in Hrun; try discriminate Hrun.
    injection Hrun as <-. exact (Hstep incoming w1 e w' Hprev (IH w1 eq_refl) Hd Hq).
Qed.

(** How a run stands after any sequence of callbacks: it never entered
    the event loop; it waits in the loop; or one callback, delivered
    while it was waiting, made it leave the loop or abort. *)
Lemma run_outcomes argv incoming :
  (forall w0, run_process argv [] <> Waiting w0)
  \/ (exists w, run_process argv incoming = Waiting w)
  \/ (exists incoming1 e rest w,
        incoming = incoming1 ++ e :: rest /\
        run_process argv incoming1 = Waiting w /\
        ((exists w', dispatch e (add_calls [callback e] w) = Done tt w' /\
                     quit w' = Some 1 /\
                     run_process argv incoming = Done 1 (add_calls exit_calls w'))
         \/ (exists f w', dispatch e (add_calls [callback e] w) = Abort f w' /\
                          run_process argv incoming = Abort f w'))).
Proof.
  induction incoming as [|e incoming IH] using rev_ind.
  - destruct (run_process_entered_or_not argv) as [[w0 Hw0]|Hno]; [|left; exact Hno].
    right; left. eauto.
  - destruct IH as [Hno|[(w & Hw)|(inc1 & e0 & rest & w & -> & Hw & Hend)]].
    + left. exact Hno.
    + right.
      destruct (step_outcome argv incoming e w Hw)
        as [(w' & Hd & Hq & Hnext)|[(w' & Hd & Hq & Hnext)|(f & w' & Hd & Hnext)]].
      * left. eauto.
      * right. exists incoming, e, [], w. split; [reflexivity|]. split; [exact Hw|].
        left. exists w'. auto.
      * right. exists incoming, e, [], w. split; [reflexivity|]. split; [exact Hw|].
        right. exists f, w'. auto.
    + right; right. exists inc1, e0, (rest ++ [e]), w.
      split; [rewrite <- app_assoc; reflexivity|]. split; [exact Hw|].
      rewrite run_process_app.
      destruct Hend as [(w' & Hd & Hq & Hrun)|(f & w' & Hd & Hrun)]; rewrite Hrun; eauto 10.
Qed.

(** ** The process as a whole, from its command line *)

Lemma parsed_flags argv0 args o :
  parse_arguments (argv0 :: args) initial_options = ParseOk o ->
  opt_help o = (if given "--help" args then 1 else 0) /\
  opt_version o = (if given "--version" args then 1 else 0) /\
  opt_ssl o = (if given "--ssl" args then 1 else 0).
Proof.
  intros Hparse. rewrite parse_arguments_loop in Hparse.
  destruct (parse_loop args _) as [o1|d o1] eqn:Hloop; [|discriminate Hparse].
  pose proof (parse_validate_ok _ _ Hparse) as Heq. subst o1.
  destruct (parse_loop_ok args _ o (floods_fit_default argv0) Hloop)
    as (H1 & H2 & H3 & _).
  auto.
Qed.

Lemma parse_ret_ok argv o :
  parse_ret (parse_arguments argv o) = 1 ->
  exists o', parse_arguments argv o = ParseOk o'.
Proof. destruct (parse_arguments argv o); [eauto | discriminate]. Qed.

(** The world in which the event loop is entered. *)
Lemma entered_world argv0 args w0 :
  run_process (argv0 :: args) [] = Waiting w0 ->
  exists o,
    parse_arguments (argv0 :: args) initial_options = ParseOk o /\
    truthy (opt_help o) = false /\ truthy (opt_version o) = false /\
    startup_ok o = true /\
    (opt_logger o = LOGGER_STDOUT \/ opt_logger o = LOGGER_SYSLOG) /\
    w0 = mk_world o 0 0 0 0 None (boot_calls o).
Proof.
  intros Hrun.
  destruct (run_process_enters _ _ Hrun) as (_ & _ & _ & Hret & _).
  destruct (parse_ret_ok _ _ Hret) as [o Hparse]. exists o.
  destruct (truthy (opt_help o)) eqn:Hh.
  { destruct (run_process_help argv0 args []) as (tr & Hr & _);
      [exact Hret | rewrite Hparse; simpl; rewrite Hh; reflexivity|].
    rewrite Hr in Hrun. discriminate Hrun. }
  destruct (truthy (opt_version o)) eqn:Hv.
  { destruct (run_process_help argv0 args []) as (tr & Hr & _);
      [exact Hret | rewrite Hparse; simpl; rewrite Hv; apply orb_true_r|].
    rewrite Hr in Hrun. discriminate Hrun. }
  destruct (startup_ok o) eqn:Hok.
  2:{ destruct (run_process_boot_failure argv0 args o [] Hparse Hh Hv Hok)
        as (tr & [Hr|[Hr _]] & _); rewrite Hr in Hrun; discriminate Hrun. }
  destruct (parsed_for_run _ _ _ Hparse Hh Hv) as (Hlog & _).
  repeat (split; [assumption || reflexivity|]).
  rewrite (run_process_boot_ok _ _ _ [] Hparse Hh Hv Hok) in Hrun.
  unfold bind in Hrun. simpl in Hrun. injection Hrun as <-. reflexivity.
Qed.

Lemma truthy_flag (b : bool) : truthy (if b then 1 else 0) = b.
Proof. destruct b; reflexivity. Qed.

(** X6: [main] enters the event loop exactly when [parse_arguments]
    accepts the command line, neither help nor the version is asked for,
    and every initialisation it tests succeeds, those of TLS counting
    only with [--ssl].  It has then made the calls of [boot_calls], in
    that order, and the variables of the program are still zero. *)
Theorem main_enters_loop_iff argv0 args :
  ((exists w0, run_process (argv0 :: args) [] = Waiting w0) <->
   parse_ret (parse_arguments (argv0 :: args) initial_options) = 1 /\
   given "--help" args = false /\ given "--version" args = false /\
   startup_ok (parsed_options (argv0 :: args)) = true) /\
  (forall w0,
     run_process (argv0 :: args) [] = Waiting w0 ->
     w0 = mk_world (parsed_options (argv0 :: args)) 0 0 0 0 None
            (boot_calls (parsed_options (argv0 :: args)))) /\
  (forall incoming, run_process [] incoming = Done 1 initial_world).
Proof.
  split; [split|split; [|reflexivity]].
  - intros [w0 Hrun].
    destruct (entered_world _ _ _ Hrun) as (o & Hparse & Hh & Hv & Hok & _).
    destruct (parsed_flags _ _ _ Hparse) as (H1 & H2 & _).
    rewrite H1, truthy_flag in Hh. rewrite H2, truthy_flag in Hv.
    unfold parsed_options. rewrite Hparse. auto.
  - intros (Hret & Hh & Hv & Hok).
    destruct (parse_ret_ok _ _ Hret) as [o Hparse].
    destruct (parsed_flags _ _ _ Hparse) as (H1 & H2 & _).
    unfold parsed_options in Hok. rewrite Hparse in Hok. cbn [parse_options] in Hok.
    eexists.
    rewrite (run_process_boot_ok _ _ o [] Hparse); [reflexivity| | |exact Hok].
    + rewrite H1, Hh. reflexivity.
    + rewrite H2, Hv. reflexivity.
  - intros w0 Hrun.
    destruct (entered_world _ _ _ Hrun) as (o & Hparse & _ & _ & _ & _ & ->).
    unfold parsed_options. rewrite Hparse. reflexivity.
Qed.

(** X7: the exits of [main] for [--help] and [--version].  On an
    accepted command line with [--help], [main] prints the version and
    then the help and returns 0; with [--version] and no [--help] it
    prints the version only and returns 0.  In both cases that is all the
    process does after [DEAD_INIT]: no logger, socket layer or reactor is
    initialised, whatever else the command line holds, and the callbacks
    play no part. *)
Theorem help_and_version_exits argv0 args incoming :
  parse_ret (parse_arguments (argv0 :: args) initial_options) = 1 ->
  (given "--help" args = true ->
   run_process (argv0 :: args) incoming =
     Done 0 (mk_world (parsed_options (argv0 :: args)) 0 0 0 0 None
               [call_DEAD_INIT; call_print_version; call_print_help argv0])) /\
  (given "--help" args = false -> given "--version" args = true ->
   run_process (argv0 :: args) incoming =
     Done 0 (mk_world (parsed_options (argv0 :: args)) 0 0 0 0 None
               [call_DEAD_INIT; call_print_version])).
Proof.
  intros Hret. destruct (parse_ret_ok _ _ Hret) as [o Hparse].
  destruct (parsed_flags _ _ _ Hparse) as (H1 & H2 & _).
  split.
  - intros Hh.
    unfold parsed_options, run_process, main, initial_world. prog_simpl. world_norm.
    rewrite Hparse. cbn [parse_ret parse_options]. change (truthy 1) with true.
    prog_simpl. world_norm. rewrite H1, Hh. reflexivity.
  - intros Hh Hv.
    unfold parsed_options, run_process, main, initial_world. prog_simpl. world_norm.
    rewrite Hparse. cbn [parse_ret parse_options]. change (truthy 1) with true.
    prog_simpl. world_norm. rewrite H1, H2, Hh, Hv. reflexivity.
Qed.

Lemma run_process_boot_waiting argv0 args o :
  parse_arguments (argv0 :: args) initial_options = ParseOk o ->
  truthy (opt_help o) = false -> truthy (opt_version o) = false ->
  startup_ok o = true ->
  run_process (argv0 :: args) [] = Waiting (mk_world o 0 0 0 0 None (boot_calls o)).
Proof.
  intros Hparse Hh Hv Hok. rewrite (run_process_boot_ok _ _ _ [] Hparse Hh Hv Hok).
  reflexivity.
Qed.

(** X8: the exit code of [main].  Whenever [main] returns, it returns 0
    if the command line was accepted and asked for help or the version,
    and 1 otherwise: after a rejected command line, after a failed
    initialisation, and after the event loop, which only ends through
    [terminate] and its [BReactor_Quit(&ss, 1)]. *)
Theorem main_exit_code argv0 args incoming code w :
  run_process (argv0 :: args) incoming = Done code w ->
  code = (if (parse_ret (parse_arguments (argv0 :: args) initial_options) =? 1)
             && (given "--help" args || given "--version" args)
          then 0 else 1).
Proof.
  intros Hrun.
  destruct (parse_arguments (argv0 :: args) initial_options) as [o|d o1] eqn:Hparse.
  2:{ rewrite (run_process_parse_failure argv0 args incoming) in Hrun
        by (rewrite Hparse; reflexivity).
      injection Hrun as <- _. reflexivity. }
  cbn [parse_ret]. change (1 =? 1) with true. cbn [andb].
  destruct (parsed_flags _ _ _ Hparse) as (H1 & H2 & _).
  destruct (given "--help" args || given "--version" args) eqn:Hhv.
  - destruct (run_process_help argv0 args incoming) as (tr & Hr & _).
    + rewrite Hparse. reflexivity.
    + rewrite Hparse. cbn [parse_options]. rewrite H1, H2, !truthy_flag. exact Hhv.
    + rewrite Hr in Hrun. injection Hrun as <- _. reflexivity.
  - apply orb_false_elim in Hhv as [Hh Hv].
    assert (Hh' : truthy (opt_help o) = false) by (rewrite H1, Hh; reflexivity).
    assert (Hv' : truthy (opt_version o) = false) by (rewrite H2, Hv; reflexivity).
    destruct (startup_ok o) eqn:Hok.
    + pose proof (run_process_boot_waiting _ _ _ Hparse Hh' Hv' Hok) as Hw0.
      destruct (run_process_enters _ _ Hw0) as (_ & Hlive & _ & _ & Hall).
      rewrite Hall in Hrun. unfold bind in Hrun.
      pose proof (BReactor_Exec_live incoming _ Hlive) as Hx.
      destruct (BReactor_Exec incoming _) as [c w1|f w1|w1]; try discriminate Hrun.
      rewrite leave_loop_run in Hrun. injection Hrun as <- _. apply Hx.
    + destruct (run_process_boot_failure argv0 args o incoming Hparse Hh' Hv' Hok)
        as (tr & [Hr|[Hr _]] & _); rewrite Hr in Hrun; [|discriminate Hrun].
      injection Hrun as <- _. reflexivity.
Qed.

Lemma boot_calls_facts o :
  opt_logger o = LOGGER_STDOUT \/ opt_logger o = LOGGER_SYSLOG ->
  startup_ok o = true ->
  resources_acquired (boot_calls o) = boot_resources o /\
  resources_released (boot_calls o) = [] /\
  forallb is_main_call (boot_calls o) = true /\
  (truthy (opt_ssl o) = false ->
   forallb (fun c => negb (is_tls_call c)) (boot_calls o) = true).
Proof.
  intros Hlog Hok.
  destruct (boot_trace_facts o Hlog)
    as ((? & ? & ? & ?) & (? & ? & ? & ?) & (Hacq & ? & ? & ?)).
  unfold startup_ok, tls_ok in Hok.
  repeat match type of Hok with (_ && _ = true) => apply andb_prop in Hok as [Hok ?] end.
  rewrite Hok in Hacq.
  unfold boot_calls, boot_resources, tls_boot_calls.
  destruct (truthy (opt_ssl o)) eqn:Hssl.
  - match goal with H : negb true || _ = true |- _ => simpl in H;
      repeat match type of H with (_ && _ = true) => apply andb_prop in H as [H ?] end
    end.
    split; [trace_eval; reflexivity|]. split; [trace_eval; reflexivity|].
    split; [trace_eval; reflexivity|]. intros Hs; discriminate Hs.
  - split; [trace_eval; reflexivity|]. split; [trace_eval; reflexivity|].
    split; [trace_eval; reflexivity|]. intros _. trace_eval. reflexivity.
Qed.

(** A run that does not enter the event loop has ended early, whatever
    the callbacks would have been. *)
Lemma not_entered_outcomes argv incoming :
  (forall w0, run_process argv [] <> Waiting w0) ->
  ended_early (parsed_options argv) (run_process argv incoming).
Proof.
  intros Hno.
  assert (Hsimple : forall c tr o,
    forallb is_main_call tr = true ->
    forallb (fun c => negb (is_tls_call c)) tr = true ->
    resources_acquired tr = [] -> resources_released tr = [] ->
    ended_early o (Done c (mk_world o 0 0 0 0 None tr))).
  { intros c tr o Hm Ht Ha Hr. exists tr. split; [left; eauto|].
    split; [exact Hm|]. split; [auto|]. rewrite Ha. split; [constructor|].
    unfold released_in_order. cbn [trace]. rewrite Ha, Hr. split; reflexivity. }
  destruct argv as [|argv0 args]; [apply Hsimple; reflexivity|].
  unfold parsed_options.
  destruct (parse_arguments (argv0 :: args) initial_options) as [o|d o1] eqn:Hparse.
  2:{ rewrite (run_process_parse_failure argv0 args incoming)
        by (rewrite Hparse; reflexivity).
      rewrite Hparse. apply Hsimple; reflexivity. }
  cbn [parse_options].
  destruct (truthy (opt_help o) || truthy (opt_version o)) eqn:Hhv.
  { destruct (run_process_help argv0 args incoming) as (tr & Hr & Htr);
      [rewrite Hparse; reflexivity | rewrite Hparse; exact Hhv|].
    rewrite Hr, Hparse. cbn [parse_options].
    destruct Htr as [-> | ->]; apply Hsimple; reflexivity. }
  apply orb_false_elim in Hhv as [Hh Hv].
  destruct (startup_ok o) eqn:Hok.
  { exfalso. exact (Hno _ (run_process_boot_waiting _ _ _ Hparse Hh Hv Hok)). }
  destruct (run_process_boot_failure argv0 args o incoming Hparse Hh Hv Hok)
    as (tr & Hr & Hfacts).
  exists tr. split; [|exact Hfacts].
  destruct Hr as [Hr|Hr]; [left; eauto | right; exact Hr].
Qed.

Lemma waiting_argv argv incoming w :
  run_process argv incoming = Waiting w -> exists argv0 args, argv = argv0 :: args.
Proof. destruct argv as [|argv0 args]; [discriminate | eauto]. Qed.

Lemma waiting_resources argv incoming w :
  run_process argv incoming = Waiting w -> resources_in_loop w.
Proof.
  revert incoming w. apply waiting_ind.
  - intros w0 Hrun. destruct (waiting_argv _ _ _ Hrun) as (argv0 & args & ->).
    destruct (entered_world _ _ _ Hrun) as (o & _ & _ & _ & Hok & Hlog & ->).
    destruct (boot_calls_facts o Hlog Hok) as (Ha & Hr & _ & Ht).
    unfold resources_in_loop, loop_resources.
    cbn [trace options server_ready]. change (truthy 0) with false.
    rewrite app_nil_r. auto.
  - intros incoming w e w' Hrun (Hrel & Hacq & Htls) Hd Hq.
    destruct (run_process_waiting _ _ _ Hrun) as [(Hquit & Hwf & _) _].
    unfold resources_in_loop, loop_resources, resources_acquired, resources_released in *.
    destruct (dispatch_outcomes e (add_calls [callback e] w) Hwf)
      as [Ha|[(Hside & Hr & Hrun')|[(p & x & -> & Hr & Hbuf & Hrun')
         |[(data & len & -> & Hr & Hz & Hrun')
         |[(data & len & peer & -> & Hpre & Hpos & Hpeer & Hrun')|(Hterm & Hrun')]]]]];
      rewrite Hd in *.
    + discriminate Ha.
    + injection Hrun' as ->.
      cbn [add_calls set_trace trace options server_ready].
      destruct e; try discriminate Hside; cbn [side_channel_log];
        (split; [trace_eval; reflexivity|]); (split; [trace_eval; rewrite ?app_nil_r; reflexivity|]);
        intros Hs; specialize (Htls Hs); trace_eval; reflexivity.
    + injection Hrun' as ->.
      cbn [add_calls set_trace set_server_ready set_flood_blocking set_my_id
           trace options server_ready] in *.
      rewrite Hr in Hacq. change (truthy 0) with false in Hacq.
      change (truthy 1) with true. unfold pipeline_inits, pipeline_resources.
      rewrite app_nil_r in Hacq.
      (split; [trace_eval; reflexivity|]);
        (split; [trace_eval; rewrite ?app_nil_r; reflexivity|]).
      intros Hs; specialize (Htls Hs); trace_eval; reflexivity.
    + injection Hrun' as ->.
      cbn [add_calls set_trace set_flood_blocking trace options server_ready].
      (split; [trace_eval; reflexivity|]); (split; [trace_eval; rewrite ?app_nil_r; reflexivity|]).
      intros Hs; specialize (Htls Hs); trace_eval; reflexivity.
    + cbv zeta in Hrun'. destruct Hrun' as [[Hrun' _]|[Hrun' _]]; [|discriminate Hrun'].
      injection Hrun' as ->.
      cbn [add_calls set_trace set_flood_next trace options server_ready].
      (split; [trace_eval; reflexivity|]); (split; [trace_eval; rewrite ?app_nil_r; reflexivity|]).
      intros Hs; specialize (Htls Hs); trace_eval; reflexivity.
    + exfalso. pose proof (terminate_any (before_terminate e (add_calls [callback e] w))) as Ht.
      rewrite <- Hrun' in Ht. destruct Ht as [Ht _]. congruence.
Qed.

Lemma before_terminate_state e w :
  options (before_terminate e w) = options w /\
  server_ready (before_terminate e w) = server_ready w /\
  quit (before_terminate e w) = quit w /\
  flood_next (before_terminate e w) = flood_next w /\
  flood_blocking (before_terminate e w) = flood_blocking w.
Proof. destruct e; repeat split. Qed.

(** The callback after which the process is no longer waiting: it led
    to [terminate], which returned or stopped at a forced assertion; or
    it stopped at an assertion on entry; or it was a pull into a buffer
    that is too short. *)
Lemma final_step e w :
  wf_options (options w) -> quit w = None ->
  (forall w',
     dispatch e (add_calls [callback e] w) = Done tt w' -> quit w' = Some 1 ->
     terminates e w /\ tls_teardown_ok (options w) = true /\
     w' = set_quit (Some 1)
            (add_calls (teardown_calls (before_terminate e (add_calls [callback e] w)))
               (before_terminate e (add_calls [callback e] w)))) /\
  (forall f w',
     dispatch e (add_calls [callback e] w) = Abort f w' ->
     (f = AssertFailure /\ w' = add_calls [callback e] w)
     \/ (f = UndefinedBehaviour /\
         exists peer_id,
           TargetList (options w) !! Z.to_nat (flood_next w) = Some peer_id /\
           0 < opt_num_floods (options w) /\
           w' = add_calls [call_BLog BLOG_INFO "message to %d" [peer_id]]
                  (set_flood_next ((flood_next w + 1) mod opt_num_floods (options w))
                     (add_calls [callback e] w)))
     \/ (f = AssertFailure /\ terminates e w /\ tls_teardown_ok (options w) = false /\
         w' = add_calls
                (teardown_abort_calls (before_terminate e (add_calls [callback e] w)))
                (before_terminate e (add_calls [callback e] w)))).
Proof.
  intros Hwf Hquit.
  destruct (before_terminate_state e (add_calls [callback e] w)) as (Ho & _).
  cbn [add_calls set_trace options] in Ho.
  destruct (dispatch_outcomes e (add_calls [callback e] w) Hwf)
    as [Ha|[(Hside & Hr & Hrun')|[(p & x & -> & Hr & Hbuf & Hrun')
       |[(data & len & -> & Hr & Hz & Hrun')
       |[(data & len & peer & -> & Hpre & Hpos & Hpeer & Hrun')|(Hterm & Hrun')]]]]].
  - split; [intros w' Hd; congruence|].
    intros f w' Hd. left. rewrite Ha in Hd. injection Hd as <- <-. auto.
  - split; [|intros f w' Hd; congruence].
    intros w' Hd Hq. rewrite Hrun' in Hd. injection Hd as <-.
    cbn [add_calls set_trace quit] in Hq. congruence.
  - split; [|intros f w' Hd; congruence].
    intros w' Hd Hq. rewrite Hrun' in Hd. injection Hd as <-.
    cbn [add_calls set_trace set_server_ready set_flood_blocking set_my_id quit] in Hq.
    congruence.
  - split; [|intros f w' Hd; congruence].
    intros w' Hd Hq. rewrite Hrun' in Hd. injection Hd as <-.
    cbn [add_calls set_trace set_flood_blocking quit] in Hq. congruence.
  - cbv zeta in Hrun'. destruct Hrun' as [[Hrun' _]|[Hrun' _]].
    + split; [|intros f w' Hd; congruence].
      intros w' Hd Hq. rewrite Hrun' in Hd. injection Hd as <-.
      cbn [add_calls set_trace set_flood_next quit] in Hq. congruence.
    + split; [intros w' Hd; congruence|].
      intros f w' Hd. right; left. rewrite Hrun' in Hd. injection Hd as <- <-.
      split; [reflexivity|]. exists peer.
      split; [exact Hpeer|]. split; [exact Hpos|]. reflexivity.
  - assert (Hterm' : terminates e w) by (destruct e; exact Hterm).
    destruct (tls_teardown_ok (options w)) eqn:Hok.
    + rewrite terminate_ok in Hrun' by (rewrite Ho; exact Hok).
      split; [|intros f w' Hd; congruence].
      intros w' Hd _. rewrite Hrun' in Hd. injection Hd as <-. auto.
    + rewrite terminate_abort in Hrun' by (rewrite Ho; exact Hok).
      split; [intros w' Hd; congruence|].
      intros f w' Hd. right; right. rewrite Hrun' in Hd. injection Hd as <- <-. auto.
Qed.

(** X9: whatever the command line, the answers of the libraries and the
    callbacks, the program gives back what it has acquired, the last
    acquisition first, and acquires nothing twice.  The certificate and
    the key, which one call hands out together, count as one acquisition;
    they are given back one after the other, before anything acquired
    earlier.  When [main] has returned, the resources released are
    exactly those acquired, and their acquisitions come in reverse order;
    when the process has stopped at an assertion, what has been released
    had been acquired, and belongs to the most recent acquisitions;
    while it waits in the event loop, nothing has been released. *)
Theorem resources_given_back_in_order argv incoming :
  released_in_order (run_process argv incoming) /\
  NoDup (resources_acquired (trace (world_of (run_process argv incoming)))).
Proof.
  destruct (run_outcomes argv incoming)
    as [Hno|[(w & Hw)|(inc1 & e & rest & w & -> & Hw & Hend)]].
  - destruct (not_entered_outcomes argv incoming Hno) as (tr & Hr & _ & _ & Hnd & Hlifo).
    split; [exact Hlifo|]. destruct Hr as [[c Hr]|[Hr _]]; rewrite Hr; exact Hnd.
  - rewrite Hw. destruct (waiting_resources _ _ _ Hw) as (Hrel & Hacq & _).
    split; [exact Hrel|]. cbn [world_of]. rewrite Hacq.
    unfold loop_resources, boot_resources, pipeline_resources.
    destruct (truthy (opt_ssl (options w))), (truthy (server_ready w)); by_evaluation.
  - destruct (run_process_waiting _ _ _ Hw) as [(Hquit & Hwf & _) _].
    destruct (waiting_resources _ _ _ Hw) as (Hrel & Hacq & _).
    destruct (final_step e w Hwf Hquit) as [Hdone Habort].
    unfold loop_resources, boot_resources, pipeline_resources,
      resources_acquired, resources_released in Hrel, Hacq.
    destruct Hend as [(w' & Hd & Hq & Hrun)|(f & w' & Hd & Hrun)]; rewrite Hrun.
    + destruct (Hdone w' Hd Hq) as (Hterm & Hok & ->).
      unfold tls_teardown_ok in Hok. unfold released_in_order.
      destruct e; try contradiction; final_trace;
        [ | | destruct Hterm as [Hr0 Hbuf]; rewrite Hr0 in *;
              change (truthy 0) with false in * ];
        destruct (truthy (opt_ssl (options w))) eqn:Hssl;
        try (destruct (truthy (server_ready w)) eqn:Hrdy);
        cbn [app] in Hacq; rewrite ?app_nil_r in Hacq;
        (split; [trace_eval; in_order | trace_eval; by_evaluation]).
    + unfold released_in_order.
      destruct (Habort f w' Hd) as [(-> & ->)|[(-> & peer & _ & _ & ->)|(-> & Hterm & Hok & ->)]].
      * final_trace.
        destruct (truthy (opt_ssl (options w))), (truthy (server_ready w));
          cbn [app] in Hacq; rewrite ?app_nil_r in Hacq;
          (split; [trace_eval; in_order | trace_eval; by_evaluation]).
      * final_trace.
        destruct (truthy (opt_ssl (options w))), (truthy (server_ready w));
          cbn [app] in Hacq; rewrite ?app_nil_r in Hacq;
          (split; [trace_eval; in_order | trace_eval; by_evaluation]).
      * unfold tls_teardown_ok in Hok.
        destruct (truthy (opt_ssl (options w))) eqn:Hssl; [|discriminate Hok].
        destruct e; try contradiction; final_trace;
          [ | | destruct Hterm as [Hr0 Hbuf]; rewrite Hr0 in *;
                change (truthy 0) with false in * ];
          try (destruct (truthy (server_ready w)) eqn:Hrdy);
          cbn [app] in Hacq; rewrite ?app_nil_r in Hacq;
          destruct (SSL_ShutdownServerSessionIDCache_ok E);
          try destruct (NSS_Shutdown_ok E);
          (split; [trace_eval; in_order | trace_eval; by_evaluation]).
Qed.

(** X10: without [--ssl] the program never calls into NSPR, NSS or
    its TLS layer: not in start-up, not in any callback, not in
    [terminate] and not in the cleanup of [main], whatever happens. *)
Theorem no_tls_call_without_ssl argv0 args incoming :
  given "--ssl" args = false ->
  forallb (fun c => negb (is_tls_call c))
    (trace (world_of (run_process (argv0 :: args) incoming))) = true.
Proof.
  intros Hgiven.
  destruct (parse_arguments (argv0 :: args) initial_options) as [o|d o1] eqn:Hparse.
  2:{ rewrite (run_process_parse_failure argv0 args incoming)
        by (rewrite Hparse; reflexivity).
      reflexivity. }
  destruct (parsed_flags _ _ _ Hparse) as (_ & _ & H3).
  assert (Hssl : truthy (opt_ssl (parsed_options (argv0 :: args))) = false).
  { unfold parsed_options. rewrite Hparse. cbn [parse_options].
    rewrite H3, Hgiven. reflexivity. }
  destruct (run_outcomes (argv0 :: args) incoming)
    as [Hno|[(w & Hw)|(inc1 & e & rest & w & -> & Hw & Hend)]].
  - destruct (not_entered_outcomes _ incoming Hno) as (tr & Hr & _ & Ht & _).
    destruct Hr as [[c Hr]|[Hr _]]; rewrite Hr; exact (Ht Hssl).
  - rewrite Hw. destruct (run_process_waiting _ _ _ Hw) as [_ Ho].
    destruct (waiting_resources _ _ _ Hw) as (_ & _ & Ht).
    apply Ht. rewrite Ho. exact Hssl.
  - destruct (run_process_waiting _ _ _ Hw) as [(Hquit & Hwf & _) Ho].
    destruct (waiting_resources _ _ _ Hw) as (_ & _ & Ht).
    rewrite <- Ho in Hssl. specialize (Ht Hssl).
    destruct (final_step e w Hwf Hquit) as [Hdone Habort].
    destruct Hend as [(w' & Hd & Hq & Hrun)|(f & w' & Hd & Hrun)]; rewrite Hrun.
    + destruct (Hdone w' Hd Hq) as (Hterm & _ & ->).
      destruct e; try contradiction; final_trace; rewrite Hssl;
        destruct (truthy (server_ready w)); trace_eval; reflexivity.
    + destruct (Habort f w' Hd) as [(-> & ->)|[(-> & peer & _ & _ & ->)|(-> & _ & Hok & ->)]].
      * final_trace. trace_eval. reflexivity.
      * final_trace. trace_eval. reflexivity.
      * unfold tls_teardown_ok in Hok. rewrite Hssl in Hok. discriminate Hok.
Qed.

(** ** Flooding over a whole run *)

Lemma logged_targets_app tr1 tr2 :
  logged_targets (tr1 ++ tr2) = logged_targets tr1 ++ logged_targets tr2.
Proof. unfold logged_targets. apply omap_app. Qed.

Lemma main_calls_log_no_target tr :
  forallb is_main_call tr = true -> logged_targets tr = [].
Proof.
  induction tr as [|c tr IH]; intros H; [reflexivity|].
  simpl in H. apply andb_prop in H as [Hc Htr].
  change (c :: tr) with ([c] ++ tr). rewrite logged_targets_app, (IH Htr), app_nil_r.
  destruct c; try reflexivity. destruct level; try reflexivity. discriminate Hc.
Qed.

Lemma read_cyclically_snoc l n :
  read_cyclically l 0 (S n) = read_cyclically l 0 n ++ [l !!! (n mod length l)%nat].
Proof. unfold read_cyclically. rewrite seq_S, fmap_app. reflexivity. Qed.

(** One more target: what a pull that selects [peer_id] adds. *)
Lemma flooding_step w peer_id :
  flooding_in_loop w -> wf_options (options w) ->
  0 < opt_num_floods (options w) ->
  TargetList (options w) !! Z.to_nat (flood_next w) = Some peer_id ->
  logged_targets (trace w) ++ [peer_id] =
    read_cyclically (TargetList (options w)) 0 (S (length (logged_targets (trace w)))) /\
  (flood_next w + 1) mod opt_num_floods (options w) =
    Z.of_nat (S (length (logged_targets (trace w))) mod length (TargetList (options w))).
Proof.
  intros (Hlog & Hnext & _ & _) Hwf Hpos Hpeer. specialize (Hnext Hpos).
  pose proof (TargetList_length _ Hwf) as Hlen.
  rewrite Hnext, Nat2Z.id in Hpeer.
  split.
  - rewrite read_cyclically_snoc, <- Hlog.
    rewrite (list_lookup_total_correct _ _ _ Hpeer). reflexivity.
  - rewrite Hnext. rewrite Nat2Z.inj_mod.
    replace (opt_num_floods (options w))
      with (Z.of_nat (length (TargetList (options w)))) by lia.
    rewrite Nat2Z.inj_mod, Nat2Z.inj_succ.
    rewrite Zplus_mod_idemp_l. reflexivity.
Qed.

Lemma waiting_flooding argv incoming w :
  run_process argv incoming = Waiting w -> flooding_in_loop w.
Proof.
  revert incoming w. apply waiting_ind.
  - intros w0 Hrun. destruct (waiting_argv _ _ _ Hrun) as (argv0 & args & ->).
    destruct (entered_world _ _ _ Hrun) as (o & _ & _ & _ & Hok & Hlog & ->).
    destruct (boot_calls_facts o Hlog Hok) as (_ & _ & Hm & _).
    unfold flooding_in_loop. cbn [trace options flood_next flood_blocking].
    rewrite (main_calls_log_no_target _ Hm). simpl length.
    split; [reflexivity|]. split; [intros _; rewrite Nat.Div0.mod_0_l; reflexivity|].
    split; [reflexivity | left; reflexivity].
  - intros incoming w e w' Hrun Hinv Hd Hq.
    destruct (run_process_waiting _ _ _ Hrun) as [(Hquit & Hwf & _) _].
    assert (Hinv1 : flooding_in_loop (add_calls [callback e] w)).
    { unfold flooding_in_loop in *.
      cbn [add_calls set_trace trace options flood_next flood_blocking server_ready].
      rewrite logged_targets_app, app_nil_r. exact Hinv. }
    destruct (dispatch_outcomes e (add_calls [callback e] w) Hwf)
      as [Ha|[(Hside & Hr & Hrun')|[(p & x & -> & Hr & Hbuf & Hrun')
         |[(data & len & -> & Hr & Hz & Hrun')
         |[(data & len & peer & -> & Hpre & Hpos & Hpeer & Hrun')|(Hterm & Hrun')]]]]];
      rewrite Hd in *.
    + discriminate Ha.
    + injection Hrun' as ->. unfold flooding_in_loop in *.
      cbn [add_calls set_trace trace options flood_next flood_blocking server_ready] in *.
      rewrite (logged_targets_app _ (side_channel_log e)).
      replace (logged_targets (side_channel_log e)) with (@nil Z)
        by (destruct e; reflexivity).
      rewrite app_nil_r. exact Hinv1.
    + injection Hrun' as ->. unfold flooding_in_loop in *.
      cbn [add_calls set_trace set_server_ready set_flood_blocking set_my_id
           trace options flood_next flood_blocking server_ready] in *.
      rewrite (logged_targets_app (trace w ++ _)).
      change (logged_targets (pipeline_inits ++ _)) with (@nil Z).
      rewrite app_nil_r. destruct Hinv1 as (H1 & H2 & H3 & _). auto.
    + injection Hrun' as ->. unfold flooding_in_loop in *.
      cbn [add_calls set_trace set_flood_blocking
           trace options flood_next flood_blocking server_ready] in *.
      destruct Hinv1 as (H1 & H2 & H3 & _).
      split; [exact H1|]. split; [exact H2|]. split; [exact H3|].
      right. split; [exact Hz | exact Hr].
    + cbv zeta in Hrun'. destruct Hrun' as [[Hrun' _]|[Hrun' _]]; [|discriminate Hrun'].
      injection Hrun' as ->.
      destruct (flooding_step _ peer Hinv1 Hwf Hpos Hpeer) as [Hl Hn].
      destruct Hinv1 as (_ & _ & _ & Hb).
      unfold flooding_in_loop.
      cbn [add_calls set_trace set_flood_next
           trace options flood_next flood_blocking server_ready] in *.
      rewrite logged_targets_snoc, length_app. simpl length.
      rewrite Nat.add_1_r.
      split; [exact Hl|]. split; [intros _; exact Hn|].
      split; [intros Hz; lia|]. destruct Hb as [Hb|[Hz _]]; [left; exact Hb | lia].
    + exfalso. pose proof (terminate_any (before_terminate e (add_calls [callback e] w))) as Ht.
      rewrite <- Hrun' in Ht. destruct Ht as [Ht _]. congruence.
Qed.




(** X12: the flooder keeps flooding.  Once the server is ready and
    there is at least one target, a pull offered a buffer of the
    payload's size is always answered: the process goes on waiting, one
    more "message to" line names the next target in cyclic order, and the
    source is not blocked.  This holds after any history of callbacks. *)
Theorem pulls_are_served argv incoming w data data_len :
  run_process argv incoming = Waiting w ->
  server_ready w <> 0 ->
  0 < opt_num_floods (options w) ->
  (payload_len <= length data)%nat ->
  exists w',
    run_process argv (incoming ++ [ev_flood_recv data data_len]) = Waiting w' /\
    trace w' =
      trace w ++ [callback (ev_flood_recv data data_len);
                  call_BLog BLOG_INFO "message to %d"
                    [TargetList (options w)
                       !!! (length (logged_targets (trace w))
                              mod length (TargetList (options w)))%nat]] /\
    flood_blocking w' = 0 /\ server_ready w' = server_ready w /\
    options w' = options w.
Proof.
  intros Hw Hready Hpos Hcap.
  destruct (run_process_waiting _ _ _ Hw) as [(Hquit & Hwf & Hcur & _) _].
  destruct (waiting_flooding _ _ _ Hw) as (_ & Hnext & _ & Hblock).
  specialize (Hnext Hpos).
  assert (Hb : flood_blocking w = 0) by (destruct Hblock as [Hb|[Hz _]]; [exact Hb | lia]).
  set (W := add_calls [callback (ev_flood_recv data data_len)] w).
  assert (Hpre : recv_pre W) by (split; [exact Hready | split; [exact Hb | exact Hcur]]).
  destruct (cursor_slot W Hpre Hwf Hpos) as (peer_id & Hpeer & Hslot).
  assert (Hint : is_int (opt_num_floods (options w))).
  { destruct Hwf as [? ?]. unfold is_int, INT_MIN. lia. }
  unfold W in Hpeer. cbn [add_calls set_trace options flood_next trace] in Hpeer.
  rewrite Hnext, Nat2Z.id in Hpeer.
  rewrite (list_lookup_total_correct _ _ _ Hpeer).
  assert (Hd : dispatch (ev_flood_recv data data_len) W =
               Done tt (add_calls [call_BLog BLOG_INFO "message to %d" [peer_id]]
                          (set_flood_next
                             ((flood_next w + 1) mod opt_num_floods (options w)) W))).
  { cbn [dispatch]. unfold bind.
    rewrite (recv_nonempty W data data_len peer_id) by assumption. reflexivity. }
  rewrite (run_process_step argv incoming _ [] w Hw).
  fold (add_calls [callback (ev_flood_recv data data_len)] w). fold W. rewrite Hd.
  unfold bind. cbn [BReactor_Exec add_calls set_trace set_flood_next quit].
  subst W. cbn [add_calls set_trace quit]. rewrite Hquit.
  eexists. split; [reflexivity|].
  cbn [add_calls set_trace set_flood_next trace flood_blocking server_ready options].
  rewrite <- app_assoc. repeat split; assumption.
Qed.

(** X13: nothing clears [flood_blocking] once the source has declined.
    If the process waits in the loop with the source blocked, then there
    is no target and the server is ready; the source stays blocked
    whatever callbacks follow; and a further pull stops the process at
    [ASSERT(!flood_blocking)], with nothing but the callback recorded. *)
Theorem blocked_for_good argv incoming w :
  run_process argv incoming = Waiting w -> flood_blocking w <> 0 ->
  opt_num_floods (options w) = 0 /\ server_ready w <> 0 /\
  (forall data data_len rest,
     run_process argv (incoming ++ ev_flood_recv data data_len :: rest) =
       Abort AssertFailure (add_calls [callback (ev_flood_recv data data_len)] w)) /\
  (forall incoming2 w2,
     run_process argv (incoming ++ incoming2) = Waiting w2 -> flood_blocking w2 <> 0).
Proof.
  intros Hw Hb.
  destruct (waiting_flooding _ _ _ Hw) as (_ & _ & _ & [Hb0|[Hz Hr]]); [contradiction|].
  split; [exact Hz|]. split; [exact Hr|]. split.
  - intros data data_len rest. rewrite (run_process_step argv incoming _ rest w Hw).
    fold (add_calls [callback (ev_flood_recv data data_len)] w).
    cbn [dispatch]. unfold bind, flood_source_handler_recv. prog_simpl.
    cbn [add_calls set_trace server_ready flood_blocking].
    rewrite (truthy_nonzero _ Hr). prog_simpl.
    cbn [add_calls set_trace server_ready flood_blocking].
    rewrite (truthy_nonzero _ Hb). reflexivity.
  - intros incoming2. induction incoming2 as [|e incoming2 IH] using rev_ind.
    + intros w2 Hw2. rewrite app_nil_r, Hw in Hw2. injection Hw2 as <-. exact Hb.
    + intros w3 Hw3. rewrite app_assoc in Hw3.
      destruct (run_process argv (incoming ++ incoming2)) as [c w2|f w2|w2] eqn:Hprev.
      * rewrite run_process_app, Hprev in Hw3. discriminate Hw3.
      * rewrite run_process_app, Hprev in Hw3. discriminate Hw3.
      * specialize (IH w2 eq_refl).
        destruct (waiting_flooding _ _ _ Hprev) as (_ & _ & _ & [Hb2|[Hz2 Hr2]]);
          [contradiction|].
        destruct (run_process_waiting _ _ _ Hprev) as [(Hquit & Hwf & _) _].
        destruct (step_outcome argv _ e w2 Hprev)
          as [(w' & Hd & Hq & Hnext)|[(w' & _ & _ & Hnext)|(f & w' & _ & Hnext)]];
          rewrite Hnext in Hw3; try discriminate Hw3.
        injection Hw3 as <-.
        fold (add_calls [callback e] w2) in Hd.
        destruct (dispatch_outcomes e (add_calls [callback e] w2) Hwf)
          as [Ha|[(Hside & _ & Hrun')|[(p & x & -> & Hr0 & _ & Hrun')
             |[(data & len & -> & _ & _ & Hrun')
             |[(data & len & peer & -> & _ & Hpos & _)|(Hterm & Hrun')]]]]].
        -- congruence.
        -- rewrite Hd in Hrun'. injection Hrun' as ->. exact IH.
        -- cbn [add_calls set_trace server_ready] in Hr0. contradiction.
        -- rewrite Hd in Hrun'. injection Hrun' as ->. discriminate.
        -- cbn [add_calls set_trace options] in Hpos. lia.
        -- exfalso.
           pose proof (terminate_any (before_terminate e (add_calls [callback e] w2))) as Ht.
           rewrite <- Hrun', Hd in Ht. destruct Ht as [Ht _]. congruence.
Qed.

(** ** Termination in the cases left open above *)

(** X14: a termination request (the signal, or a server error) in the
    two cases the teardown of a ready server leaves open.  Before the
    server is ready, [terminate] releases nothing of the pipeline, which
    was never built: it frees the server connection, undoes TLS, removes
    the signal handler and quits the reactor, and [main] returns 1.
    When a forced assertion of the TLS block fails, the process stops
    there: [terminate] returns exactly when these assertions hold, and
    otherwise the signal handler is not removed, [BReactor_Quit] is not
    called and no variable has changed. *)
Theorem termination_before_ready_or_failing argv incoming e rest w :
  run_process argv incoming = Waiting w ->
  e = ev_signal \/ e = ev_server_error ->
  (server_ready w = 0 -> tls_teardown_ok (options w) = true ->
   exists w',
     run_process argv (incoming ++ e :: rest) = Done 1 w' /\
     trace w' =
       trace w
         ++ [callback e; termination_log e;
             call_BLog BLOG_NOTICE "tearing down" []; call_ServerConnection_Free]
         ++ tls_teardown (options w)
         ++ [call_BSignal_RemoveHandler; call_DEAD_KILL; call_BReactor_Quit 1]
         ++ exit_calls /\
     pipeline_calls (trace w') = []) /\
  (tls_teardown_ok (options w) = false ->
   exists w',
     run_process argv (incoming ++ e :: rest) = Abort AssertFailure w' /\
     trace w' = trace w ++ [callback e; termination_log e] ++ teardown_abort_calls w /\
     core_state w' = core_state w /\
     (call_BSignal_RemoveHandler ∉ teardown_abort_calls w) /\
     (forall code, call_BReactor_Quit code ∉ teardown_abort_calls w)) /\
  ((exists w', terminate w = Done tt w') <-> tls_teardown_ok (options w) = true).
Proof.
  intros Hw He.
  destruct (run_process_waiting _ _ _ Hw) as [(Hquit & _ & _ & _ & Hpipe) _].
  set (W1 := add_calls [callback e; termination_log e] w).
  assert (Hd : dispatch e (set_trace (trace w ++ [callback e]) w) = terminate W1).
  { subst W1. destruct He as [-> | ->]; cbn [dispatch];
      unfold signal_handler, server_handler_error, add_calls; prog_simpl; world_norm;
      reflexivity. }
  split; [|split].
  - intros Hr Hok. rewrite (run_process_step argv incoming e rest w Hw), Hd.
    rewrite terminate_ok by exact Hok.
    unfold bind. rewrite (BReactor_Exec_quit rest _ 1) by reflexivity.
    rewrite leave_loop_run. eexists. split; [reflexivity|].
    subst W1. unfold teardown_calls, pipeline_frees, add_calls.
    cbn [set_trace set_quit trace server_ready options]. rewrite Hr.
    change (truthy 0) with false. split; [trace_norm; reflexivity|].
    rewrite Hr in Hpipe. change (truthy 0) with false in Hpipe.
    rewrite !pipeline_calls_app, Hpipe. unfold tls_teardown, exit_calls.
    destruct He as [-> | ->]; destruct (truthy (opt_ssl (options w))); reflexivity.
  - intros Hno. rewrite (run_process_step argv incoming e rest w Hw), Hd.
    rewrite terminate_abort by exact Hno.
    eexists. split; [reflexivity|].
    subst W1. unfold teardown_abort_calls, pipeline_frees, add_calls.
    cbn [set_trace trace server_ready options core_state my_id flood_blocking
         flood_next quit].
    split; [trace_norm; reflexivity|]. split; [reflexivity|].
    destruct (truthy (server_ready w)), (SSL_ShutdownServerSessionIDCache_ok E),
      (NSS_Shutdown_ok E); cbn [app]; (split; [|intros code]); list_mem.
  - split.
    + intros [w' Hrun]. destruct (tls_teardown_ok (options w)) eqn:Hok; [reflexivity|].
      rewrite terminate_abort in Hrun by exact Hok. discriminate Hrun.
    + intros Hok. rewrite terminate_ok by exact Hok. eauto.
Qed.

End Flooder.

(** * The theorems on the sample platform *)

Lemma sample_MAX_FLOODS_range : 0 <= sample_MAX_FLOODS <= INT_MAX.
Proof. unfold sample_MAX_FLOODS, INT_MAX. lia. Defined.

Lemma sample_wf_options : wf_options sample_options.
Proof. unfold wf_options, INT_MAX. simpl. lia. Defined.

Lemma sample_recv_pre : recv_pre sample_ready_world.
Proof.
  unfold recv_pre, cursor_ok. simpl.
  split; [discriminate|]. split; [reflexivity|]. intros _. lia.
Defined.

(** C1 on the sample world: five pulls are addressed to 7, 3, 3, 9, 7. *)
Lemma C1_round_robin_witness :
  exists rs w',
    recv_repeatedly sample_SCID_OUTMSG sample_SC_MAX_MSGLEN false 5
      sample_buffer 0 sample_ready_world = Done rs w' /\
    Forall2 (addressed_to sample_SCID_OUTMSG sample_SC_MAX_MSGLEN) rs [7; 3; 3; 9; 7] /\
    logged_targets (trace w') = logged_targets (trace sample_ready_world) ++ [7; 3; 3; 9; 7].
Proof.
  apply (C1_round_robin sample_SCID_OUTMSG sample_SC_MAX_MSGLEN false
           sample_ready_world sample_buffer 0 0).
  - discriminate.
  - reflexivity.
  - exact sample_wf_options.
  - reflexivity.
  - vm_compute. lia.
  - vm_compute. lia.
  - unfold sample_SCID_OUTMSG. lia.
  - reflexivity.
  - reflexivity.
Defined.


(** C2 on the sample world, on a big-endian host. *)
Lemma C2_payload_layout_witness :
  exists peer_id out w',
    TargetList (options sample_ready_world) !! Z.to_nat (flood_next sample_ready_world)
      = Some peer_id /\
    flood_source_handler_recv sample_SCID_OUTMSG sample_SC_MAX_MSGLEN true
      sample_buffer 0 sample_ready_world =
      Done (1, out,
            Z.of_nat (sizeof_sc_header + sizeof_sc_client_outmsg + sample_SC_MAX_MSGLEN))
           w' /\
    take (payload_len sample_SC_MAX_MSGLEN) out =
      [sample_SCID_OUTMSG] ++ [peer_id mod 256; peer_id / 256 mod 256]
        ++ replicate sample_SC_MAX_MSGLEN 0 /\
    (is_peerid peer_id -> payload_target out = peer_id) /\
    drop (payload_len sample_SC_MAX_MSGLEN) out
      = drop (payload_len sample_SC_MAX_MSGLEN) sample_buffer.
Proof.
  apply (C2_payload_layout sample_SCID_OUTMSG sample_SC_MAX_MSGLEN true
           sample_ready_world sample_buffer 0).
  - exact sample_recv_pre.
  - exact sample_wf_options.
  - simpl. lia.
  - vm_compute. lia.
  - unfold sample_SCID_OUTMSG. lia.
  - vm_compute. discriminate.
Defined.

(** C3 on the sample world without targets. *)
Lemma C3_empty_target_list_declines_witness :
  flood_source_handler_recv sample_SCID_OUTMSG sample_SC_MAX_MSGLEN false
    sample_buffer 0 sample_idle_world
  = Done (0, sample_buffer, 0) (set_flood_blocking 1 sample_idle_world).
Proof.
  apply (C3_empty_target_list_declines sample_SCID_OUTMSG sample_SC_MAX_MSGLEN false
           sample_idle_world sample_buffer 0).
  - reflexivity.
  - discriminate.
  - reflexivity.
Defined.

(** C4 on the sample world: the pull returns the payload for peer 7. *)
Lemma C4_production_never_fails_witness :
  exists peer_id w',
    TargetList (options sample_ready_world) !! Z.to_nat (flood_next sample_ready_world)
      = Some peer_id /\
    flood_source_handler_recv sample_SCID_OUTMSG sample_SC_MAX_MSGLEN false
      sample_buffer 0 sample_ready_world =
      Done (1,
            [to_uint8 sample_SCID_OUTMSG; peer_id mod 256; peer_id / 256 mod 256]
              ++ replicate sample_SC_MAX_MSGLEN 0
              ++ drop (payload_len sample_SC_MAX_MSGLEN) sample_buffer,
            to_int (Z.of_nat (payload_len sample_SC_MAX_MSGLEN)))
           w' /\
    flood_blocking w' = 0.
Proof.
  refine (proj2 (proj2 (C4_production_never_fails sample_SCID_OUTMSG
                          sample_SC_MAX_MSGLEN false sample_ready_world sample_buffer 0
                          sample_recv_pre sample_wf_options) _) _).
  - vm_compute. lia.
  - simpl. lia.
Defined.

(** C5 on the sample run: ready, then three pulls. *)
Lemma C5_cursor_invariant_witness :
  cursor_ok
    (world_of
       (run_process sample_MAX_FLOODS 2 sample_parse_loglevel sample_channel sample_atoi
          sample_SCID_OUTMSG sample_SC_MAX_MSGLEN false sample_env sample_argv
          [ev_server_ready 1 0; ev_flood_recv sample_buffer 0;
           ev_flood_recv sample_buffer 0; ev_flood_recv sample_buffer 0])).
Proof.
  exact (proj1 (C5_cursor_invariant sample_MAX_FLOODS 2 sample_parse_loglevel
                  sample_channel sample_atoi sample_SCID_OUTMSG sample_SC_MAX_MSGLEN
                  false sample_env sample_MAX_FLOODS_range sample_argv
                  [ev_server_ready 1 0; ev_flood_recv sample_buffer 0;
                   ev_flood_recv sample_buffer 0; ev_flood_recv sample_buffer 0])).
Defined.


(** C7 on the sample run: the server becomes ready, the connection
    fails, and a pull that would have followed is never made. *)
Lemma C7_teardown_when_ready_witness :
  exists w',
    run_process sample_MAX_FLOODS 2 sample_parse_loglevel sample_channel sample_atoi
      sample_SCID_OUTMSG sample_SC_MAX_MSGLEN false sample_env sample_argv
      ([ev_server_ready 1 0] ++ ev_server_error :: [ev_flood_recv sample_buffer 0])
      = Done 1 w' /\
    (forall obj, released obj (trace w') = 1%nat) /\
    List.filter is_recv_callback (trace w') = [].
Proof.
  destruct (C7_teardown_when_ready sample_MAX_FLOODS 2 sample_parse_loglevel
              sample_channel sample_atoi sample_SCID_OUTMSG sample_SC_MAX_MSGLEN false
              sample_env sample_MAX_FLOODS_range sample_argv [ev_server_ready 1 0]
              ev_server_error [ev_flood_recv sample_buffer 0]
              (world_of
                 (run_process sample_MAX_FLOODS 2 sample_parse_loglevel sample_channel
                    sample_atoi sample_SCID_OUTMSG sample_SC_MAX_MSGLEN false sample_env
                    sample_argv [ev_server_ready 1 0])))
    as (w' & _ & _ & Hreleased & _ & Hexit & _).
  - vm_compute. reflexivity.
  - vm_compute. discriminate.
  - left. reflexivity.
  - destruct Hexit as (Hrun & _ & Htrace).
    + vm_compute. reflexivity.
    + exists w'. split; [exact Hrun|]. split; [exact Hreleased|].
      rewrite Htrace. vm_compute. reflexivity.
Defined.

(** C7 as first stated does not hold: on a run with [--ssl] whose
    [NSS_Shutdown] fails, a connection error delivered while the server
    is ready makes [terminate] release the pipeline and the server
    connection and then stop at the forced assertion.  [BReactor_Quit] is
    not reached, and [main] does not return, with code 1 or any other. *)
Lemma C7_teardown_when_ready_counterexample :
  exists w w',
    run_process sample_MAX_FLOODS 2 sample_parse_loglevel sample_channel sample_atoi
      sample_SCID_OUTMSG sample_SC_MAX_MSGLEN false
      (mk_env true true true true true true true true true true true true true true
         true true false true)
      ["badvpn-flooder"; "--server-addr"; "127.0.0.1:7000"; "--ssl"; "--nssdb";
       "sql:/etc/nssdb"; "--client-cert-name"; "flooder"]
      [ev_server_ready 1 0] = Waiting w /\
    server_ready w = 1 /\
    run_process sample_MAX_FLOODS 2 sample_parse_loglevel sample_channel sample_atoi
      sample_SCID_OUTMSG sample_SC_MAX_MSGLEN false
      (mk_env true true true true true true true true true true true true true true
         true true false true)
      ["badvpn-flooder"; "--server-addr"; "127.0.0.1:7000"; "--ssl"; "--nssdb";
       "sql:/etc/nssdb"; "--client-cert-name"; "flooder"]
      ([ev_server_ready 1 0] ++ [ev_server_error]) = Abort AssertFailure w' /\
    quit w' = None /\
    last (trace w') = Some call_NSS_Shutdown /\
    existsb (fun c => match c with call_BReactor_Quit _ => true | _ => false end)
      (trace w') = false.
Proof.
  eexists _, _. split; [vm_compute; reflexivity|].
  split; [reflexivity|]. split; [vm_compute; reflexivity|].
  split; [reflexivity|]. split; reflexivity.
Qed.

(** C8 on the sample world: a peer joins. *)
Lemma C8_side_channel_callbacks_witness :
  core_state
    (world_of
       (dispatch sample_SCID_OUTMSG sample_SC_MAX_MSGLEN false sample_env
          (ev_server_newclient 7 0 [] 0) sample_ready_world))
  = core_state sample_ready_world.
Proof.
  exact (proj1 (proj2 (proj2
           (C8_side_channel_callbacks sample_SCID_OUTMSG sample_SC_MAX_MSGLEN false
              sample_env (ev_server_newclient 7 0 [] 0) sample_ready_world eq_refl)))).
Defined.

(** C9 on a command line without [--server-addr]. *)
Lemma C9_argument_errors_witness :
  parse_ret
    (parse_arguments sample_MAX_FLOODS 2 sample_parse_loglevel sample_channel sample_atoi
       ("badvpn-flooder" :: ["--flood-id"; "7"])
       (initial_options sample_MAX_FLOODS 2)) = 0 /\
  exits_without_loop sample_MAX_FLOODS 2 sample_parse_loglevel sample_channel sample_atoi
    sample_SCID_OUTMSG sample_SC_MAX_MSGLEN false sample_env
    ("badvpn-flooder" :: ["--flood-id"; "7"]) [ev_server_ready 1 0] 1.
Proof.
  exact (proj1
           (C9_argument_errors sample_MAX_FLOODS 2 sample_parse_loglevel sample_channel
              sample_atoi sample_SCID_OUTMSG sample_SC_MAX_MSGLEN false sample_env
              sample_MAX_FLOODS_range "badvpn-flooder" ["--flood-id"; "7"]
              [ev_server_ready 1 0])
           eq_refl eq_refl (or_introl eq_refl)).
Defined.



(** * The further properties on the sample platform *)

(** X1 on the sample world with a buffer of two bytes: the target 7 is
    logged, the cursor moves to 1, and the second store leaves the
    buffer. *)
Lemma recv_returns_iff_buffer_fits_witness :
  exists peer_id,
    TargetList (options sample_ready_world) !! Z.to_nat (flood_next sample_ready_world)
      = Some peer_id /\
    flood_source_handler_recv sample_SCID_OUTMSG sample_SC_MAX_MSGLEN false
      [170; 170] 0 sample_ready_world =
      Abort UndefinedBehaviour
        (set_trace
           (trace sample_ready_world ++ [call_BLog BLOG_INFO "message to %d" [peer_id]])
           (set_flood_next
              ((flood_next sample_ready_world + 1)
                 mod opt_num_floods (options sample_ready_world))
              sample_ready_world)).
Proof.
  refine (proj2 (recv_returns_iff_buffer_fits sample_SCID_OUTMSG sample_SC_MAX_MSGLEN
                   false sample_ready_world [170; 170] 0
                   sample_recv_pre sample_wf_options _) _).
  - reflexivity.
  - vm_compute. lia.
Defined.

(** X3 on a command line with [--ssl] but no [--nssdb]: it is refused
    although every option on it is well formed. *)
Lemma parse_arguments_accepts_iff_witness :
  parse_ret
    (parse_arguments sample_MAX_FLOODS 2 sample_parse_loglevel sample_channel sample_atoi
       ("badvpn-flooder" :: ["--server-addr"; "127.0.0.1:7000"; "--ssl"])
       (initial_options sample_MAX_FLOODS 2)) = 1 <->
  well_formed sample_MAX_FLOODS sample_parse_loglevel sample_channel
    ["--server-addr"; "127.0.0.1:7000"; "--ssl"] = true /\
  given "--help" ["--server-addr"; "127.0.0.1:7000"; "--ssl"]
  || given "--version" ["--server-addr"; "127.0.0.1:7000"; "--ssl"]
  || given "--server-addr" ["--server-addr"; "127.0.0.1:7000"; "--ssl"]
     && Bool.eqb (given "--ssl" ["--server-addr"; "127.0.0.1:7000"; "--ssl"])
          (given "--nssdb" ["--server-addr"; "127.0.0.1:7000"; "--ssl"])
     && Bool.eqb (given "--ssl" ["--server-addr"; "127.0.0.1:7000"; "--ssl"])
          (given "--client-cert-name" ["--server-addr"; "127.0.0.1:7000"; "--ssl"])
  = true.
Proof.
  exact (proj1 (parse_arguments_accepts_iff sample_MAX_FLOODS 2 sample_parse_loglevel
                  sample_channel sample_atoi sample_MAX_FLOODS_range "badvpn-flooder"
                  ["--server-addr"; "127.0.0.1:7000"; "--ssl"] sample_options)).
Defined.

(** X4 on a command line that gives [--server-addr] and [--logger]
    twice: the second of each is kept. *)
Lemma parse_arguments_last_wins_witness :
  opt_server_addr
    (parsed_options sample_MAX_FLOODS 2 sample_parse_loglevel sample_channel sample_atoi
       ["badvpn-flooder"; "--server-addr"; "10.0.0.1:1"; "--logger"; "syslog";
        "--server-addr"; "10.0.0.2:2"; "--logger"; "stdout"])
  = Some "10.0.0.2:2"%string /\
  opt_logger
    (parsed_options sample_MAX_FLOODS 2 sample_parse_loglevel sample_channel sample_atoi
       ["badvpn-flooder"; "--server-addr"; "10.0.0.1:1"; "--logger"; "syslog";
        "--server-addr"; "10.0.0.2:2"; "--logger"; "stdout"])
  = LOGGER_STDOUT.
Proof.
  pose proof (parse_arguments_last_wins sample_MAX_FLOODS 2 sample_parse_loglevel
                sample_channel sample_atoi "badvpn-flooder"
                ["--server-addr"; "10.0.0.1:1"; "--logger"; "syslog";
                 "--server-addr"; "10.0.0.2:2"; "--logger"; "stdout"]
                (parsed_options sample_MAX_FLOODS 2 sample_parse_loglevel sample_channel
                   sample_atoi
                   ["badvpn-flooder"; "--server-addr"; "10.0.0.1:1"; "--logger"; "syslog";
                    "--server-addr"; "10.0.0.2:2"; "--logger"; "stdout"])
                eq_refl)
    as (Haddr & _ & _ & _ & Hlogger & _).
  split; [exact Haddr | exact Hlogger].
Defined.

(** The sample channel table knows two channels. *)
Lemma sample_channel_bound : forall s, sample_channel s < Z.of_nat 2.
Proof.
  intros s. unfold sample_channel.
  destruct (String.eqb s "flooder"); [reflexivity|].
  destruct (String.eqb s "server_connection"); reflexivity.
Defined.

(** X5 on a command line with a global level and one for the channel
    [flooder]: the channel keeps its own level, the other takes the global
    one. *)
Lemma channel_levels_configured_witness :
  configure_channels 2
    (parsed_options sample_MAX_FLOODS 2 sample_parse_loglevel sample_channel sample_atoi
       ["badvpn-flooder"; "--server-addr"; "127.0.0.1:7000"; "--loglevel"; "warning";
        "--channel-loglevel"; "flooder"; "debug"])
  = [call_BLog_SetChannelLoglevel 0 5; call_BLog_SetChannelLoglevel 1 2].
Proof.
  exact (channel_levels_configured sample_MAX_FLOODS 2 sample_parse_loglevel
           sample_channel sample_atoi "badvpn-flooder"
           ["--server-addr"; "127.0.0.1:7000"; "--loglevel"; "warning";
            "--channel-loglevel"; "flooder"; "debug"]
           (parsed_options sample_MAX_FLOODS 2 sample_parse_loglevel sample_channel
              sample_atoi
              ["badvpn-flooder"; "--server-addr"; "127.0.0.1:7000"; "--loglevel"; "warning";
               "--channel-loglevel"; "flooder"; "debug"])
           sample_channel_bound eq_refl).
Defined.

(** X6 on the sample command line: the process reaches the event loop. *)
Lemma main_enters_loop_iff_witness :
  exists w0,
    run_process sample_MAX_FLOODS 2 sample_parse_loglevel sample_channel sample_atoi
      sample_SCID_OUTMSG sample_SC_MAX_MSGLEN false sample_env
      ("badvpn-flooder" :: tail sample_argv) [] = Waiting w0.
Proof.
  exact (proj2 (proj1 (main_enters_loop_iff sample_MAX_FLOODS 2 sample_parse_loglevel
                         sample_channel sample_atoi sample_SCID_OUTMSG
                         sample_SC_MAX_MSGLEN false sample_env sample_MAX_FLOODS_range
                         "badvpn-flooder" (tail sample_argv)))
           (conj eq_refl (conj eq_refl (conj eq_refl eq_refl)))).
Defined.

(** X7 on a command line with [--version] and nothing else. *)
Lemma help_and_version_exits_witness :
  run_process sample_MAX_FLOODS 2 sample_parse_loglevel sample_channel sample_atoi
    sample_SCID_OUTMSG sample_SC_MAX_MSGLEN false sample_env
    ("badvpn-flooder" :: ["--version"]) [ev_server_ready 1 0]
  = Done 0
      (mk_world
         (parsed_options sample_MAX_FLOODS 2 sample_parse_loglevel sample_channel
            sample_atoi ("badvpn-flooder" :: ["--version"]))
         0 0 0 0 None [call_DEAD_INIT; call_print_version]).
Proof.
  exact (proj2
           (help_and_version_exits sample_MAX_FLOODS 2 sample_parse_loglevel
              sample_channel sample_atoi sample_SCID_OUTMSG sample_SC_MAX_MSGLEN false
              sample_env sample_MAX_FLOODS_range "badvpn-flooder" ["--version"]
              [ev_server_ready 1 0] eq_refl)
           eq_refl eq_refl).
Defined.

(** X8 on the sample run ended by the signal: the exit code is 1. *)
Lemma main_exit_code_witness :
  1 = (if (parse_ret
             (parse_arguments sample_MAX_FLOODS 2 sample_parse_loglevel sample_channel
                sample_atoi ("badvpn-flooder" :: tail sample_argv)
                (initial_options sample_MAX_FLOODS 2)) =? 1)
          && (given "--help" (tail sample_argv) || given "--version" (tail sample_argv))
       then 0 else 1).
Proof.
  refine (main_exit_code sample_MAX_FLOODS 2 sample_parse_loglevel sample_channel
            sample_atoi sample_SCID_OUTMSG sample_SC_MAX_MSGLEN false sample_env
            sample_MAX_FLOODS_range "badvpn-flooder" (tail sample_argv)
            [ev_server_ready 1 0; ev_signal] 1
            (world_of
               (run_process sample_MAX_FLOODS 2 sample_parse_loglevel sample_channel
                  sample_atoi sample_SCID_OUTMSG sample_SC_MAX_MSGLEN false sample_env
                  sample_argv [ev_server_ready 1 0; ev_signal])) _).
  vm_compute. reflexivity.
Defined.

(** X9 on a run with [--ssl]: ready, one pull, then the signal. *)
Lemma resources_given_back_in_order_witness :
  released_in_order sample_env
    (run_process sample_MAX_FLOODS 2 sample_parse_loglevel sample_channel sample_atoi
       sample_SCID_OUTMSG sample_SC_MAX_MSGLEN false sample_env
       ["badvpn-flooder"; "--server-addr"; "127.0.0.1:7000"; "--flood-id"; "7"; "--ssl";
        "--nssdb"; "sql:/etc/nssdb"; "--client-cert-name"; "flooder"]
       [ev_server_ready 1 0; ev_flood_recv sample_buffer 0; ev_signal]) /\
  NoDup
    (resources_acquired sample_env
       (trace
          (world_of
             (run_process sample_MAX_FLOODS 2 sample_parse_loglevel sample_channel
                sample_atoi sample_SCID_OUTMSG sample_SC_MAX_MSGLEN false sample_env
                ["badvpn-flooder"; "--server-addr"; "127.0.0.1:7000"; "--flood-id"; "7";
                 "--ssl"; "--nssdb"; "sql:/etc/nssdb"; "--client-cert-name"; "flooder"]
                [ev_server_ready 1 0; ev_flood_recv sample_buffer 0; ev_signal])))).
Proof.
  exact (resources_given_back_in_order sample_MAX_FLOODS 2 sample_parse_loglevel
           sample_channel sample_atoi sample_SCID_OUTMSG sample_SC_MAX_MSGLEN false
           sample_env sample_MAX_FLOODS_range
           ["badvpn-flooder"; "--server-addr"; "127.0.0.1:7000"; "--flood-id"; "7";
            "--ssl"; "--nssdb"; "sql:/etc/nssdb"; "--client-cert-name"; "flooder"]
           [ev_server_ready 1 0; ev_flood_recv sample_buffer 0; ev_signal]).
Defined.

(** X10 on the sample run, whose command line has no [--ssl]. *)
Lemma no_tls_call_without_ssl_witness :
  forallb (fun c => negb (is_tls_call c))
    (trace
       (world_of
          (run_process sample_MAX_FLOODS 2 sample_parse_loglevel sample_channel
             sample_atoi sample_SCID_OUTMSG sample_SC_MAX_MSGLEN false sample_env
             ("badvpn-flooder" :: tail sample_argv)
             [ev_server_ready 1 0; ev_signal]))) = true.
Proof.
  exact (no_tls_call_without_ssl sample_MAX_FLOODS 2 sample_parse_loglevel
           sample_channel sample_atoi sample_SCID_OUTMSG sample_SC_MAX_MSGLEN false
           sample_env sample_MAX_FLOODS_range "badvpn-flooder" (tail sample_argv)
           [ev_server_ready 1 0; ev_signal] eq_refl).
Defined.


(** X12 on the sample run: after the server is ready and one pull has
    been served, the next pull is served as well. *)
Lemma pulls_are_served_witness :
  exists w',
    run_process sample_MAX_FLOODS 2 sample_parse_loglevel sample_channel sample_atoi
      sample_SCID_OUTMSG sample_SC_MAX_MSGLEN false sample_env sample_argv
      ([ev_server_ready 1 0; ev_flood_recv sample_buffer 0]
         ++ [ev_flood_recv sample_buffer 0]) = Waiting w' /\
    flood_blocking w' = 0.
Proof.
  destruct (pulls_are_served sample_MAX_FLOODS 2 sample_parse_loglevel sample_channel
              sample_atoi sample_SCID_OUTMSG sample_SC_MAX_MSGLEN false sample_env
              sample_MAX_FLOODS_range sample_argv
              [ev_server_ready 1 0; ev_flood_recv sample_buffer 0]
              (world_of
                 (run_process sample_MAX_FLOODS 2 sample_parse_loglevel sample_channel
                    sample_atoi sample_SCID_OUTMSG sample_SC_MAX_MSGLEN false sample_env
                    sample_argv [ev_server_ready 1 0; ev_flood_recv sample_buffer 0]))
              sample_buffer 0)
    as (w' & Hrun & _ & Hblocking & _).
  - vm_compute. reflexivity.
  - vm_compute. discriminate.
  - vm_compute. reflexivity.
  - vm_compute. lia.
  - exists w'. split; [exact Hrun | exact Hblocking].
Defined.

(** X13 on a run without [--flood-id]: the first pull is declined, and
    the second stops the process at the assertion. *)
Lemma blocked_for_good_witness :
  run_process sample_MAX_FLOODS 2 sample_parse_loglevel sample_channel sample_atoi
    sample_SCID_OUTMSG sample_SC_MAX_MSGLEN false sample_env
    ["badvpn-flooder"; "--server-addr"; "127.0.0.1:7000"]
    ([ev_server_ready 1 0; ev_flood_recv sample_buffer 0]
       ++ ev_flood_recv sample_buffer 0 :: [ev_signal])
  = Abort AssertFailure
      (add_calls [callback (ev_flood_recv sample_buffer 0)]
         (world_of
            (run_process sample_MAX_FLOODS 2 sample_parse_loglevel sample_channel
               sample_atoi sample_SCID_OUTMSG sample_SC_MAX_MSGLEN false sample_env
               ["badvpn-flooder"; "--server-addr"; "127.0.0.1:7000"]
               [ev_server_ready 1 0; ev_flood_recv sample_buffer 0]))).
Proof.
  refine (proj1 (proj2 (proj2
            (blocked_for_good sample_MAX_FLOODS 2 sample_parse_loglevel sample_channel
               sample_atoi sample_SCID_OUTMSG sample_SC_MAX_MSGLEN false sample_env
               sample_MAX_FLOODS_range
               ["badvpn-flooder"; "--server-addr"; "127.0.0.1:7000"]
               [ev_server_ready 1 0; ev_flood_recv sample_buffer 0]
               (world_of
                  (run_process sample_MAX_FLOODS 2 sample_parse_loglevel sample_channel
                     sample_atoi sample_SCID_OUTMSG sample_SC_MAX_MSGLEN false sample_env
                     ["badvpn-flooder"; "--server-addr"; "127.0.0.1:7000"]
                     [ev_server_ready 1 0; ev_flood_recv sample_buffer 0]))
               _ _))) sample_buffer 0 [ev_signal]).
  - vm_compute. reflexivity.
  - vm_compute. discriminate.
Defined.

(** X14 twice: the signal arrives on the sample run before the server is
    ready; and the connection fails on a run with [--ssl] on a platform
    whose [NSS_Shutdown] fails. *)
Lemma termination_before_ready_or_failing_witness :
  (exists w',
     run_process sample_MAX_FLOODS 2 sample_parse_loglevel sample_channel sample_atoi
       sample_SCID_OUTMSG sample_SC_MAX_MSGLEN false sample_env sample_argv
       ([] ++ ev_signal :: [ev_server_ready 1 0]) = Done 1 w' /\
     pipeline_calls (trace w') = []) /\
  (exists w',
     run_process sample_MAX_FLOODS 2 sample_parse_loglevel sample_channel sample_atoi
       sample_SCID_OUTMSG sample_SC_MAX_MSGLEN false
       (mk_env true true true true true true true true true true true true true true
          true true false true)
       ["badvpn-flooder"; "--server-addr"; "127.0.0.1:7000"; "--ssl"; "--nssdb";
        "sql:/etc/nssdb"; "--client-cert-name"; "flooder"]
       ([ev_server_ready 1 0] ++ ev_server_error :: []) = Abort AssertFailure w' /\
     quit w' = None).
Proof.
  split.
  - destruct (termination_before_ready_or_failing sample_MAX_FLOODS 2
                sample_parse_loglevel sample_channel sample_atoi sample_SCID_OUTMSG
                sample_SC_MAX_MSGLEN false sample_env sample_MAX_FLOODS_range sample_argv
                [] ev_signal [ev_server_ready 1 0]
                (world_of
                   (run_process sample_MAX_FLOODS 2 sample_parse_loglevel sample_channel
                      sample_atoi sample_SCID_OUTMSG sample_SC_MAX_MSGLEN false sample_env
                      sample_argv [])))
      as [Hidle _].
    + vm_compute. reflexivity.
    + left. reflexivity.
    + destruct Hidle as (w' & Hrun & _ & Hpipeline).
      * reflexivity.
      * reflexivity.
      * exists w'. split; [exact Hrun | exact Hpipeline].
  - destruct (termination_before_ready_or_failing sample_MAX_FLOODS 2
                sample_parse_loglevel sample_channel sample_atoi sample_SCID_OUTMSG
                sample_SC_MAX_MSGLEN false
                (mk_env true true true true true true true true true true true true true
                   true true true false true)
                sample_MAX_FLOODS_range
                ["badvpn-flooder"; "--server-addr"; "127.0.0.1:7000"; "--ssl"; "--nssdb";
                 "sql:/etc/nssdb"; "--client-cert-name"; "flooder"]
                [ev_server_ready 1 0] ev_server_error []
                (world_of
                   (run_process sample_MAX_FLOODS 2 sample_parse_loglevel sample_channel
                      sample_atoi sample_SCID_OUTMSG sample_SC_MAX_MSGLEN false
                      (mk_env true true true true true true true true true true true true
                         true true true true false true)
                      ["badvpn-flooder"; "--server-addr"; "127.0.0.1:7000"; "--ssl";
                       "--nssdb"; "sql:/etc/nssdb"; "--client-cert-name"; "flooder"]
                      [ev_server_ready 1 0])))
      as (_ & Hfailing & _).
    + vm_compute. reflexivity.
    + right. reflexivity.
    + destruct Hfailing as (w' & Hrun & _ & Hcore & _).
      * vm_compute. reflexivity.
      * exists w'. split; [exact Hrun|].
        apply (f_equal (fun s => snd s)) in Hcore. exact Hcore.
Defined.


(** * Concrete runs *)

(** [sample_argv] parses to [sample_options]. *)
Example sample_argv_parses :
  parse_arguments sample_MAX_FLOODS 2 sample_parse_loglevel sample_channel sample_atoi
    sample_argv (initial_options sample_MAX_FLOODS 2)
  = ParseOk sample_options.
Proof. vm_compute. reflexivity. Qed.

(** The payload for peer 0x1234 carries the bytes 0x34, 0x12 after the
    tag, on a little-endian and on a big-endian host alike. *)
Example payload_for_0x1234 :
  forall host_big_endian,
    fst (fst (match flood_source_handler_recv sample_SCID_OUTMSG sample_SC_MAX_MSGLEN
                      host_big_endian sample_buffer 0
                      (set_options (set_num_floods 1 (set_floods [4660] sample_options))
                         sample_ready_world) with
              | Done r _ => r
              | _ => (0, [], 0)
              end)) = 1 /\
    snd (fst (match flood_source_handler_recv sample_SCID_OUTMSG sample_SC_MAX_MSGLEN
                      host_big_endian sample_buffer 0
                      (set_options (set_num_floods 1 (set_floods [4660] sample_options))
                         sample_ready_world) with
              | Done r _ => r
              | _ => (0, [], 0)
              end)) = [5; 52; 18; 0; 0; 0; 0; 0; 0; 0; 0].
Proof. intros [|]; vm_compute; split; reflexivity. Qed.

(** With an empty command line [main] returns 1 at once. *)
Example no_arguments_at_all :
  run_process sample_MAX_FLOODS 2 sample_parse_loglevel sample_channel sample_atoi
    sample_SCID_OUTMSG sample_SC_MAX_MSGLEN false sample_env [] []
  = Done 1 (initial_world sample_MAX_FLOODS 2).
Proof. reflexivity. Qed.

(** [--help] exits with code 0 even though [--server-addr] is missing. *)
Example help_exits_zero :
  exits_without_loop sample_MAX_FLOODS 2 sample_parse_loglevel sample_channel sample_atoi
    sample_SCID_OUTMSG sample_SC_MAX_MSGLEN false sample_env
    ["badvpn-flooder"; "--help"] [] 0.
Proof. eexists. split; vm_compute; reflexivity. Qed.

(** A second pull after the source has declined trips the assertion. *)
Example pull_while_blocking_aborts :
  flood_source_handler_recv sample_SCID_OUTMSG sample_SC_MAX_MSGLEN false sample_buffer 0
    (set_flood_blocking 1 sample_idle_world)
  = Abort AssertFailure (set_flood_blocking 1 sample_idle_world).
Proof. reflexivity. Qed.


(** What a run with [--ssl] acquires and gives back: ready, one pull,
    then the signal. *)
Example resources_of_a_tls_run :
  let tr :=
    trace
      (world_of
         (run_process sample_MAX_FLOODS 2 sample_parse_loglevel sample_channel
            sample_atoi sample_SCID_OUTMSG sample_SC_MAX_MSGLEN false sample_env
            ["badvpn-flooder"; "--server-addr"; "127.0.0.1:7000"; "--flood-id"; "7";
             "--ssl"; "--nssdb"; "sql:/etc/nssdb"; "--client-cert-name"; "flooder"]
            [ev_server_ready 1 0; ev_flood_recv sample_buffer 0; ev_signal])) in
  resources_acquired sample_env tr =
    [res_logger; res_reactor; res_signal_handler; res_nspr; res_nss; res_session_cache;
     res_client_cert; res_client_key; res_server_connection;
     res_flood_source; res_flood_encoder; res_flood_buffer] /\
  resources_released tr =
    [res_flood_buffer; res_flood_encoder; res_flood_source; res_server_connection;
     res_client_cert; res_client_key; res_session_cache; res_nss; res_nspr;
     res_signal_handler; res_reactor; res_logger].
Proof. vm_compute. split; reflexivity. Qed.
